(** * GeminiSDK (C++): a shallow embedding of the token manager, the request
    executor and the conversation session, and the properties of their
    specification.

    The embedding follows [src/cpp]: [types.cpp] and [types.hpp] (data model,
    credential marshalling), [auth.cpp] (OAuthManager), [backend.cpp]
    (Backend) and [session.cpp] (Session).  The C++ program talks to a JSON
    library, to libcurl, to a clock, to the file system and to a random
    engine.  Those are not part of the repository: the JSON text codec, the
    URL escaping and the random draws are section variables, and the network,
    the clock, the environment and the files form an explicit [World] that
    every operation threads through.  Mutexes are not modelled: every
    operation runs to completion on one thread. *)

From Stdlib Require Import ZArith String Ascii PrimFloat SpecFloat FloatOps Lia.
From Stdlib.Strings Require Import Byte.
From stdpp Require Import gmap strings list pretty.

Set Warnings "-register-all".

(* ===================================================================== *)
(** * Part I. The model                                                   *)
(* ===================================================================== *)

(** ** Machine integers

    [int64_t] and [int] values are integers of [Z] reduced to the signed
    range of their width. *)

Definition wrap (w : Z) (x : Z) : Z :=
  ((x + 2 ^ (w - 1)) mod 2 ^ w - 2 ^ (w - 1))%Z.

Definition int64 (x : Z) : Z := wrap 64 x.
Definition int32 (x : Z) : Z := wrap 32 x.

Definition in_int64 (x : Z) : Prop := (- 2 ^ 63 <= x < 2 ^ 63)%Z.

(** ** Strings

    [std::string] is [string]; the helpers below are the members of
    [std::string] the program calls. *)

(** [s.substr(n)] for [n <= s.size()]. *)
Fixpoint substr_from (n : nat) (s : string) : string :=
  match n, s with
  | O, _ => s
  | S n', String _ s' => substr_from n' s'
  | S _, EmptyString => EmptyString
  end.

(** [s.substr(0, n)]. *)
Fixpoint substr_to (n : nat) (s : string) : string :=
  match n, s with
  | O, _ => EmptyString
  | S n', String c s' => String c (substr_to n' s')
  | S _, EmptyString => EmptyString
  end.

(** [s.find(c)]: the position of the first [c], [None] for [npos]. *)
Fixpoint find_char (c : ascii) (s : string) : option nat :=
  match s with
  | EmptyString => None
  | String d s' => if Ascii.eqb d c then Some O else S <$> find_char c s'
  end.

(** [s.find(p) == 0]. *)
Fixpoint starts_with (p s : string) : bool :=
  match p, s with
  | EmptyString, _ => true
  | String a p', String b s' => Ascii.eqb a b && starts_with p' s'
  | String _ _, EmptyString => false
  end.

(** [s.back()], for a non-empty [s]. *)
Fixpoint back (s : string) : option ascii :=
  match s with
  | EmptyString => None
  | String c EmptyString => Some c
  | String _ s' => back s'
  end.

(** [s.pop_back()]. *)
Fixpoint pop_back (s : string) : string :=
  match s with
  | EmptyString => EmptyString
  | String _ EmptyString => EmptyString
  | String c s' => String c (pop_back s')
  end.

Definition front (s : string) : option ascii :=
  match s with
  | EmptyString => None
  | String c _ => Some c
  end.

Definition string_empty (s : string) : bool :=
  match s with
  | EmptyString => true
  | String _ _ => false
  end.

Definition LF : ascii := ascii_of_nat 10.
Definition CR : ascii := ascii_of_nat 13.
Definition TAB : ascii := ascii_of_nat 9.
Definition SPACE : ascii := ascii_of_nat 32.
Definition DQUOTE : ascii := ascii_of_nat 34.
Definition SQUOTE : ascii := ascii_of_nat 39.

(** ** std::map with ordered iteration

    Where the program iterates over a [std::map] the order is that of the
    keys, so such a map is an association list kept sorted by key. *)

Definition smap (V : Type) : Type := list (string * V).

Fixpoint smap_lookup {V} (k : string) (m : smap V) : option V :=
  match m with
  | [] => None
  | (k', v) :: m' => if String.eqb k k' then Some v else smap_lookup k m'
  end.

(** [m[k] = v]. *)
Fixpoint smap_insert {V} (k : string) (v : V) (m : smap V) : smap V :=
  match m with
  | [] => [(k, v)]
  | (k', v') :: m' =>
      if String.eqb k k' then (k, v) :: m'
      else if String.ltb k k' then (k, v) :: (k', v') :: m'
      else (k', v') :: smap_insert k v m'
  end.

(** [m.emplace(k, v)]: the first binding of a key wins. *)
Definition smap_emplace {V} (k : string) (v : V) (m : smap V) : smap V :=
  match smap_lookup k m with
  | Some _ => m
  | None => smap_insert k v m
  end.

(** Construction from a braced list of pairs. *)
Definition smap_of_list {V} (l : list (string * V)) : smap V :=
  fold_left (fun m kv => smap_emplace kv.1 kv.2 m) l [].

(** ** JSON values

    [nlohmann::json] values.  Integers cover [number_integer] and
    [number_unsigned]; a [number_float] carries its [double]. *)

Inductive json : Type :=
  | JNull
  | JBool (b : bool)
  | JInt (z : Z)
  | JFloat (f : float)
  | JString (s : string)
  | JArray (l : list json)
  | JObject (m : smap json).

(** The exceptions of the JSON library that the program can meet:
    [parse_error], and [type_error] with the library's error number. *)
Inductive json_exn : Type :=
  | parse_error
  | type_error (id : Z).

(** ** Errors ([errors.hpp]) *)

Inductive error : Type :=
  | JsonException (e : json_exn)
  | CredentialsNotFoundError (credential_path : string)
  | TokenRefreshError (message : string) (status_code : option Z)
      (response_body : string)
  | ConnectionError (message : string)
  | APIError (message : string) (status_code : Z)
  | RateLimitError (message : string)
  | PermissionDeniedError (message : string)
  | NotFoundError (message : string)
  | OnboardingError (message : string) (tier_id : string)
  | SessionClosedError (session_id : string)
  | NonStdException.

(** Every class of [errors.hpp] and every [json::exception] derives from
    [std::exception]; [NonStdException] stands for a thrown value of any
    other type ([throw 42]), which only a tool handler of the application
    can raise. *)
Definition is_std_exception (e : error) : bool :=
  match e with
  | NonStdException => false
  | _ => true
  end.

Inductive result (A : Type) : Type :=
  | Ok (a : A)
  | Throw (e : error).
Arguments Ok {A} a.
Arguments Throw {A} e.

Definition is_ok {A} (r : result A) : bool :=
  match r with
  | Ok _ => true
  | Throw _ => false
  end.

(** The state-and-exception monad of the model: a computation may change the
    state and then either return or throw; the state changes made before a
    throw stay. *)
Definition M (S A : Type) : Type := S -> result A * S.

Definition ret {S A} (a : A) : M S A := fun s => (Ok a, s).

Definition throw {S A} (e : error) : M S A := fun s => (Throw e, s).

Definition bind {S A B} (m : M S A) (k : A -> M S B) : M S B :=
  fun s =>
    match m s with
    | (Ok a, s') => k a s'
    | (Throw e, s') => (Throw e, s')
    end.

Definition lift {S A} (r : result A) : M S A := fun s => (r, s).

Definition gets {S A} (f : S -> A) : M S A := fun s => (Ok (f s), s).

Definition modify {S} (f : S -> S) : M S unit := fun s => (Ok tt, f s).

(** [try { m } catch (...) { h }]. *)
Definition catch {S A} (m : M S A) (h : error -> M S A) : M S A :=
  fun s =>
    match m s with
    | (Ok a, s') => (Ok a, s')
    | (Throw e, s') => h e s'
    end.

(** [try { m } catch (const std::exception& e) { h }]: any other thrown
    value passes through. *)
Definition catch_std {S A} (m : M S A) (h : error -> M S A) : M S A :=
  fun s =>
    match m s with
    | (Ok a, s') => (Ok a, s')
    | (Throw e, s') => if is_std_exception e then h e s' else (Throw e, s')
    end.

Declare Scope monad_scope.
Delimit Scope monad_scope with monad.
Notation "'let*' x := m 'in' k" := (bind m (fun x => k))
  (at level 10, x name, m at level 100, k at level 200) : monad_scope.
Notation "'do' m 'then' k" := (bind m (fun _ => k))
  (at level 10, m at level 100, k at level 200) : monad_scope.
Open Scope monad_scope.

(** *** Accessors of [nlohmann::json] *)

Definition rbind {A B} (r : result A) (k : A -> result B) : result B :=
  match r with
  | Ok a => k a
  | Throw e => Throw e
  end.

(** [j.contains(key)]: false on anything but an object. *)
Definition contains (j : json) (key : string) : bool :=
  match j with
  | JObject m => bool_decide (is_Some (smap_lookup key m))
  | _ => false
  end.

(** [j[key]] on a [const] value, or on an object that has the key. *)
Definition at_key (j : json) (key : string) : result json :=
  match j with
  | JObject m =>
      match smap_lookup key m with
      | Some v => Ok v
      | None => Ok JNull
      end
  | _ => Throw (JsonException (type_error 305))
  end.

(** [j[0]], through [const json&]. *)
Definition at_index (j : json) (i : nat) : result json :=
  match j with
  | JArray l =>
      match l !! i with
      | Some v => Ok v
      | None => Ok JNull
      end
  | _ => Throw (JsonException (type_error 305))
  end.

(** [j.empty()]. *)
Definition json_empty (j : json) : bool :=
  match j with
  | JNull => true
  | JArray l => bool_decide (l = [])
  | JObject m => bool_decide (m = [])
  | _ => false
  end.

Definition is_null (j : json) : bool :=
  match j with
  | JNull => true
  | _ => false
  end.

Definition is_array (j : json) : bool :=
  match j with
  | JArray _ => true
  | _ => false
  end.

Definition is_object (j : json) : bool :=
  match j with
  | JObject _ => true
  | _ => false
  end.

(** The elements a range-[for] over [j] visits. *)
Definition items (j : json) : list json :=
  match j with
  | JNull => []
  | JArray l => l
  | JObject m => m.*2
  | _ => [j]
  end.

(** [j.get<std::string>()]. *)
Definition get_string (j : json) : result string :=
  match j with
  | JString s => Ok s
  | _ => Throw (JsonException (type_error 302))
  end.

(** [j.get<bool>()]. *)
Definition get_bool (j : json) : result bool :=
  match j with
  | JBool b => Ok b
  | _ => Throw (JsonException (type_error 302))
  end.

(** The integer part of a [double], for the conversion of a [number_float]
    to an integer type. *)
Definition float_to_Z (f : float) : Z :=
  match Prim2SF f with
  | S754_finite s m e =>
      let v := (if (0 <=? e)%Z then Z.pos m * 2 ^ e
                else Z.pos m / 2 ^ (- e))%Z in
      if s then (- v)%Z else v
  | _ => 0%Z
  end.

(** [j.get<T>()] for an integer type [T] of [w] bits.  Numbers convert.  A
    boolean converts to [int], but not to [int64_t]: that is the library's
    own [number_integer_t], whose conversion takes numbers only.  Anything
    else is a [type_error]. *)
Definition get_int (w : Z) (j : json) : result Z :=
  match j with
  | JInt z => Ok (wrap w z)
  | JFloat f => Ok (wrap w (float_to_Z f))
  | JBool b =>
      if (w =? 64)%Z then Throw (JsonException (type_error 302))
      else Ok (if b then 1 else 0)%Z
  | _ => Throw (JsonException (type_error 302))
  end.

(** [j.value(key, default_value)]: the member converted to the type of the
    default when the key is there, the default when it is not, and a
    [type_error] when [j] is no object. *)
Definition value {A} (get : json -> result A) (j : json) (key : string)
    (default : A) : result A :=
  match j with
  | JObject m =>
      match smap_lookup key m with
      | Some v => get v
      | None => Ok default
      end
  | _ => Throw (JsonException (type_error 306))
  end.

Definition value_string := value get_string.
Definition value_bool := value get_bool.
Definition value_int64 := value (get_int 64).
Definition value_int := value (get_int 32).
Definition value_json := value (fun j : json => Ok j).

(** A braced list of key/value pairs, as in [{{"k", v}, ...}]. *)
Definition obj (l : list (string * json)) : json := JObject (smap_of_list l).

(** *** What [dump] accepts

    [dump()] writes every string of a value and throws [type_error] 316
    when one of them, a key included, is not well-formed UTF-8 (RFC 3629:
    no overlong form, no surrogate, nothing above U+10FFFF, no sequence cut
    short). *)

Definition in_range (lo hi : nat) (c : ascii) : bool :=
  (lo <=? nat_of_ascii c)%nat && (nat_of_ascii c <=? hi)%nat.

Definition continuation (c : ascii) : bool := in_range 128 191 c.

(** The second byte after the first byte [c] of a sequence of three. *)
Definition second_of_three (c c1 : ascii) : bool :=
  if in_range 224 224 c then in_range 160 191 c1
  else if in_range 237 237 c then in_range 128 159 c1
  else continuation c1.

(** The second byte after the first byte [c] of a sequence of four. *)
Definition second_of_four (c c1 : ascii) : bool :=
  if in_range 240 240 c then in_range 144 191 c1
  else if in_range 244 244 c then in_range 128 143 c1
  else continuation c1.

Fixpoint utf8_valid (s : string) : bool :=
  match s with
  | EmptyString => true
  | String c s1 =>
      if in_range 0 127 c then utf8_valid s1
      else if in_range 194 223 c then
        match s1 with
        | String c1 s2 => continuation c1 && utf8_valid s2
        | _ => false
        end
      else if in_range 224 239 c then
        match s1 with
        | String c1 (String c2 s3) =>
            second_of_three c c1 && continuation c2 && utf8_valid s3
        | _ => false
        end
      else if in_range 240 244 c then
        match s1 with
        | String c1 (String c2 (String c3 s4)) =>
            second_of_four c c1 && continuation c2 && continuation c3 &&
            utf8_valid s4
        | _ => false
        end
      else false
  end.

Fixpoint dumpable (j : json) : bool :=
  match j with
  | JString s => utf8_valid s
  | JArray l => forallb dumpable l
  | JObject m =>
      forallb (fun kv => let '(k, v) := kv in utf8_valid k && dumpable v) m
  | _ => true
  end.

(** ** Data model ([types.hpp], [types.cpp])

    Each C++ struct is a record in a module of its name, so that the fields
    keep their names ([Message.name], [Tool.name], ...). *)

Definition TOKEN_REFRESH_BUFFER_MS : Z := (5 * 60 * 1000)%Z.
Definition GEMINI_OAUTH_TOKEN_ENDPOINT : string :=
  "https://accounts.google.com/o/oauth2/token".
Definition GEMINI_OAUTH_CLIENT_ID : string :=
  "681255809395-oo8ft2oprdrnp9e3aqf6av3hmdib135j.apps.googleusercontent.com".
Definition GEMINI_OAUTH_CLIENT_SECRET : string :=
  "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".
Definition GEMINI_CODE_ASSIST_ENDPOINT : string :=
  "https://cloudcode-pa.googleapis.com".
Definition GEMINI_CODE_ASSIST_API_VERSION : string := "v1internal".
Definition GEMINI_DIR : string := ".gemini".
Definition GEMINI_CREDENTIAL_FILENAME : string := "oauth_creds.json".
Definition GEMINI_ENV_FILENAME : string := ".env".
Definition GEMINI_OAUTH_SCOPES : list string :=
  [ "https://www.googleapis.com/auth/cloud-platform";
    "https://www.googleapis.com/auth/userinfo.email";
    "https://www.googleapis.com/auth/userinfo.profile" ].

Module Role.
Inductive t : Set := User | Assistant | System.
End Role.

Module EventType.
Inductive t : Set :=
  | SessionCreated
  | SessionIdle
  | SessionError
  | AssistantMessage
  | AssistantMessageDelta
  | AssistantReasoning
  | AssistantReasoningDelta
  | ToolCall
  | ToolResult.

Definition eqb (a b : t) : bool :=
  match a, b with
  | SessionCreated, SessionCreated
  | SessionIdle, SessionIdle
  | SessionError, SessionError
  | AssistantMessage, AssistantMessage
  | AssistantMessageDelta, AssistantMessageDelta
  | AssistantReasoning, AssistantReasoning
  | AssistantReasoningDelta, AssistantReasoningDelta
  | ToolCall, ToolCall
  | ToolResult, ToolResult => true
  | _, _ => false
  end.
End EventType.

Module ToolResultType.
Inductive t : Set := Success | Failure | Rejected | Denied.
End ToolResultType.

Definition role_to_string (role : Role.t) : string :=
  match role with
  | Role.User => "user"
  | Role.Assistant => "assistant"
  | Role.System => "system"
  end.

Definition string_to_role (str : string) : Role.t :=
  if String.eqb str "assistant" || String.eqb str "model" then Role.Assistant
  else if String.eqb str "system" then Role.System
  else Role.User.

Module GeminiOAuthCredentials.
Record t : Type := mk {
  access_token : string;
  refresh_token : string;
  token_type : string;
  expiry_date : Z
}.

(** A default-constructed credential. *)
Definition default : t :=
  {| access_token := ""; refresh_token := ""; token_type := "Bearer";
     expiry_date := 0 |}.

Definition from_json (j : json) : result t :=
  rbind (value_string j "access_token" "") (fun at_ =>
  rbind (value_string j "refresh_token" "") (fun rt =>
  rbind (value_string j "token_type" "Bearer") (fun tt_ =>
  rbind (value_int64 j "expiry_date" 0%Z) (fun ed =>
  Ok {| access_token := at_; refresh_token := rt; token_type := tt_;
        expiry_date := ed |})))).

Definition to_json (c : t) : json :=
  obj [ ("access_token", JString (access_token c));
        ("refresh_token", JString (refresh_token c));
        ("token_type", JString (token_type c));
        ("expiry_date", JInt (expiry_date c)) ].
End GeminiOAuthCredentials.

Module ContentPart.
Record t : Type := mk {
  text : option string;
  image_url : option string;
  image_data : option (list byte);
  image_mime_type : option string
}.
End ContentPart.

Module FunctionCall.
Record t : Type := mk {
  name : string;
  arguments : json
}.
End FunctionCall.

Module ToolCall.
Record t : Type := mk {
  id : string;
  type : string;
  function : FunctionCall.t
}.
End ToolCall.

Module Message.
Record t : Type := mk {
  role : Role.t;
  content : string;
  parts : list ContentPart.t;
  name : option string;
  tool_calls : list ToolCall.t;
  tool_call_id : option string
}.
End Message.

Module ToolInvocation.
Record t : Type := mk {
  name : string;
  arguments : gmap string json;
  call_id : string
}.
End ToolInvocation.

Module ToolResult.
Record t : Type := mk {
  result_type : option ToolResultType.t;
  text_result_for_llm : option string;
  binary_result : option (list byte);
  session_log : option string
}.
End ToolResult.

Module Tool.
Record t : Type := mk {
  name : string;
  description : string;
  parameters : option json
}.
End Tool.

Module GenerationConfig.
Record t : Type := mk {
  temperature : float;
  max_output_tokens : option Z;
  top_p : option float;
  top_k : option Z;
  stop_sequences : option (list string)
}.
End GenerationConfig.

Module ThinkingConfig.
Record t : Type := mk {
  include_thoughts : bool;
  thinking_budget : option Z
}.
End ThinkingConfig.

Module MessageOptions.
Record t : Type := mk {
  prompt : string;
  context : option string
}.
End MessageOptions.

Module LLMUsage.
Record t : Type := mk {
  prompt_tokens : Z;
  completion_tokens : Z;
  total_tokens : Z
}.
End LLMUsage.

Module LLMChunk.
Record t : Type := mk {
  content : string;
  reasoning_content : option string;
  tool_calls : list ToolCall.t;
  usage : option LLMUsage.t;
  finish_reason : option string
}.

(** A default-constructed chunk. *)
Definition empty : t :=
  {| content := ""; reasoning_content := None; tool_calls := [];
     usage := None; finish_reason := None |}.
End LLMChunk.

Module SessionEvent.
Record t : Type := mk {
  event_type : EventType.t;
  data : json;
  session_id : string
}.
End SessionEvent.

(** What a [std::function] of the application can throw: a
    [std::exception] with its [what()] text, or a value of another type. *)
Inductive Thrown : Type :=
  | StdException (what : string)
  | OtherThrown.

(** [ToolHandler]: a handler returns a result or throws. *)
Definition ToolHandler : Type := ToolInvocation.t -> ToolResult.t + Thrown.

(** ** The world outside the program

    What libcurl answers is scripted: every [curl_easy_init] consumes the
    next outcome of [net].  A handle either cannot be created, or
    [curl_easy_perform] runs: it hands the received bytes to the write
    callback piece by piece and ends with a [CURLcode] ([None] for
    [CURLE_OK], otherwise the text of [curl_easy_strerror]) and the HTTP
    status that [curl_easy_getinfo] reports. *)

Inductive CurlOutcome : Type :=
  | CurlInitFailed
  | CurlPerformed (res : option string) (http_code : Z)
      (received : list string).

(** What the program does to the world, in order. *)
Inductive Effect : Type :=
  | HttpPost (url : string) (headers : list string) (body : string)
  | FileWrite (path content : string)
  | Sleep (seconds : Z)
  | Stderr (line : string).

Module World.
Record t : Type := mk {
  now : Z;                      (* system_clock, in milliseconds *)
  net : list CurlOutcome;       (* outcomes of the transfers to come *)
  environ : gmap string string; (* getenv *)
  pw_dir : option string;       (* getpwuid(getuid())->pw_dir *)
  files : gmap string string;   (* the files that can be opened for reading *)
  read_only : gset string;      (* the paths that cannot be opened for writing *)
  draws : nat;                  (* numbers drawn from the random engine *)
  effects : list Effect         (* the effects so far, oldest first *)
}.
End World.

Module OAuthManager.
Record t : Type := mk {
  oauth_path_ : option string;
  client_id_ : string;
  client_secret_ : string;
  credentials_ : option GeminiOAuthCredentials.t;
  project_id_ : string
}.
End OAuthManager.

(** A [Backend] object ([backend.hpp]) together with the world it runs in.
    [timeout_] only bounds the duration of a transfer and is left out. *)
Module Backend.
Record t : Type := mk {
  oauth_manager_ : OAuthManager.t;
  project_id_ : string;
  world : World.t
}.
End Backend.

Definition with_world (f : World.t -> World.t) (b : Backend.t) : Backend.t :=
  {| Backend.oauth_manager_ := Backend.oauth_manager_ b;
     Backend.project_id_ := Backend.project_id_ b;
     Backend.world := f (Backend.world b) |}.

Definition with_credentials (c : option GeminiOAuthCredentials.t)
    (b : Backend.t) : Backend.t :=
  let om := Backend.oauth_manager_ b in
  {| Backend.oauth_manager_ :=
       {| OAuthManager.oauth_path_ := OAuthManager.oauth_path_ om;
          OAuthManager.client_id_ := OAuthManager.client_id_ om;
          OAuthManager.client_secret_ := OAuthManager.client_secret_ om;
          OAuthManager.credentials_ := c;
          OAuthManager.project_id_ := OAuthManager.project_id_ om |};
     Backend.project_id_ := Backend.project_id_ b;
     Backend.world := Backend.world b |}.

Definition with_project_id (p : string) (b : Backend.t) : Backend.t :=
  {| Backend.oauth_manager_ := Backend.oauth_manager_ b;
     Backend.project_id_ := p;
     Backend.world := Backend.world b |}.

Definition credentials_ (b : Backend.t) : option GeminiOAuthCredentials.t :=
  OAuthManager.credentials_ (Backend.oauth_manager_ b).

Definition effects (b : Backend.t) : list Effect :=
  World.effects (Backend.world b).

Definition record_effect (e : Effect) (w : World.t) : World.t :=
  {| World.now := World.now w; World.net := World.net w;
     World.environ := World.environ w; World.pw_dir := World.pw_dir w;
     World.files := World.files w; World.read_only := World.read_only w;
     World.draws := World.draws w;
     World.effects := World.effects w ++ [e] |}.

Definition effect (e : Effect) : M Backend.t unit :=
  modify (with_world (record_effect e)).

Definition with_net (net : list CurlOutcome) (w : World.t) : World.t :=
  {| World.now := World.now w; World.net := net;
     World.environ := World.environ w; World.pw_dir := World.pw_dir w;
     World.files := World.files w; World.read_only := World.read_only w;
     World.draws := World.draws w; World.effects := World.effects w |}.

(** [curl_easy_init]: take the next scripted outcome.  When the script is
    used up the host cannot be reached. *)
Definition take_outcome (w : World.t) : CurlOutcome * World.t :=
  match World.net w with
  | [] => (CurlPerformed (Some "Couldn't connect to server") 0 [], w)
  | o :: rest => (o, with_net rest w)
  end.

Definition curl_easy_init : M Backend.t CurlOutcome :=
  fun b =>
    let '(o, w) := take_outcome (Backend.world b) in
    (Ok o, with_world (fun _ => w) b).

(** [std::this_thread::sleep_for(std::chrono::seconds(n))]. *)
Definition advance_clock (ms : Z) (w : World.t) : World.t :=
  {| World.now := (World.now w + ms)%Z; World.net := World.net w;
     World.environ := World.environ w; World.pw_dir := World.pw_dir w;
     World.files := World.files w; World.read_only := World.read_only w;
     World.draws := World.draws w; World.effects := World.effects w |}.

Definition sleep_for (seconds : Z) : M Backend.t unit :=
  do effect (Sleep seconds)
  then modify (with_world (advance_clock (seconds * 1000))).

(** [std::ofstream file(path); if (file.is_open()) file << content;] *)
Definition write_file (path content : string) (w : World.t) : World.t :=
  if bool_decide (path ∈ World.read_only w) then w
  else
    record_effect (FileWrite path content)
      {| World.now := World.now w; World.net := World.net w;
         World.environ := World.environ w; World.pw_dir := World.pw_dir w;
         World.files := <[path := content]> (World.files w);
         World.read_only := World.read_only w;
         World.draws := World.draws w; World.effects := World.effects w |}.

Definition current_time_ms : M Backend.t Z :=
  gets (fun b => World.now (Backend.world b)).

(** [get_home_directory], outside Windows. *)
Definition get_home_directory (w : World.t) : string :=
  match World.environ w !! "HOME" with
  | Some home => home
  | None =>
      match World.pw_dir w with
      | Some d => d
      | None => ""
      end
  end.

Definition get_gemini_credential_path (custom_path : option string)
    (w : World.t) : string :=
  match custom_path with
  | Some p => p
  | None =>
      let home := get_home_directory w in
      if string_empty home then ""
      else home +:+ "/" +:+ GEMINI_DIR +:+ "/" +:+ GEMINI_CREDENTIAL_FILENAME
  end.

Definition get_gemini_env_path (custom_path : option string)
    (w : World.t) : string :=
  match custom_path with
  | Some p => p
  | None =>
      let home := get_home_directory w in
      if string_empty home then ""
      else home +:+ "/" +:+ GEMINI_DIR +:+ "/" +:+ GEMINI_ENV_FILENAME
  end.

(** The lines [std::getline] reads from a text. *)
Fixpoint getlines_from (cur : string) (s : string) : list string :=
  match s with
  | EmptyString => if string_empty cur then [] else [cur]
  | String c s' =>
      if Ascii.eqb c LF then cur :: getlines_from "" s'
      else getlines_from (cur +:+ String c "") s'
  end.

Definition getlines (s : string) : list string := getlines_from "" s.

(** ** Session ([session.cpp])

    An [EventHandler] is a subscriber known by a number; calling it records
    the event it is handed and returns.  A subscriber that throws is outside
    this model: its exception would leave [emit] and the member function
    that called it, or be swallowed by the [catch (...)] around the stream
    callback; every statement about events below is about subscribers that
    return.  A [Host] is a session together with what its subscribers have
    received so far, oldest first. *)

Definition EventHandler : Type := nat.

Module Session.
Record t : Type := mk {
  session_id_ : string;
  model_ : string;
  tools_ : list Tool.t;
  tool_handlers_ : gmap string ToolHandler;
  system_message_ : option string;
  generation_config_ : option GenerationConfig.t;
  thinking_config_ : option ThinkingConfig.t;
  streaming_ : bool;
  messages_ : list Message.t;
  event_handlers_ : list EventHandler;
  closed_ : bool;
  start_time_ : Z;
  modified_time_ : Z
}.
End Session.

Module Host.
Record t : Type := mk {
  session : Session.t;
  received : list (EventHandler * SessionEvent.t)
}.
End Host.

Definition update_session (tools : list Tool.t)
    (tool_handlers : gmap string ToolHandler) (messages : list Message.t)
    (event_handlers : list EventHandler) (closed : bool) (modified_time : Z)
    (s : Session.t) : Session.t :=
  {| Session.session_id_ := Session.session_id_ s;
     Session.model_ := Session.model_ s;
     Session.tools_ := tools;
     Session.tool_handlers_ := tool_handlers;
     Session.system_message_ := Session.system_message_ s;
     Session.generation_config_ := Session.generation_config_ s;
     Session.thinking_config_ := Session.thinking_config_ s;
     Session.streaming_ := Session.streaming_ s;
     Session.messages_ := messages;
     Session.event_handlers_ := event_handlers;
     Session.closed_ := closed;
     Session.start_time_ := Session.start_time_ s;
     Session.modified_time_ := modified_time |}.

Definition with_tools (tools : list Tool.t) (s : Session.t) : Session.t :=
  update_session tools (Session.tool_handlers_ s) (Session.messages_ s)
    (Session.event_handlers_ s) (Session.closed_ s) (Session.modified_time_ s)
    s.

Definition with_tool_handlers (h : gmap string ToolHandler) (s : Session.t) :
    Session.t :=
  update_session (Session.tools_ s) h (Session.messages_ s)
    (Session.event_handlers_ s) (Session.closed_ s) (Session.modified_time_ s)
    s.

Definition with_messages (messages : list Message.t) (s : Session.t) :
    Session.t :=
  update_session (Session.tools_ s) (Session.tool_handlers_ s) messages
    (Session.event_handlers_ s) (Session.closed_ s) (Session.modified_time_ s)
    s.

Definition with_event_handlers (hs : list EventHandler) (s : Session.t) :
    Session.t :=
  update_session (Session.tools_ s) (Session.tool_handlers_ s)
    (Session.messages_ s) hs (Session.closed_ s) (Session.modified_time_ s) s.


Definition with_modified_time (time : Z) (s : Session.t) : Session.t :=
  update_session (Session.tools_ s) (Session.tool_handlers_ s)
    (Session.messages_ s) (Session.event_handlers_ s) (Session.closed_ s)
    time s.

Definition with_session (f : Session.t -> Session.t) (h : Host.t) : Host.t :=
  {| Host.session := f (Host.session h); Host.received := Host.received h |}.

(** [messages_.push_back(msg)]. *)
Definition push_back_message (msg : Message.t) (h : Host.t) : Host.t :=
  with_session
    (fun s => with_messages (Session.messages_ s ++ [msg]) s) h.

(** A message with only a role and a text. *)
Definition plain_message (role : Role.t) (content : string) : Message.t :=
  {| Message.role := role; Message.content := content; Message.parts := [];
     Message.name := None; Message.tool_calls := [];
     Message.tool_call_id := None |}.

(** The message that answers the tool call [call_id] of tool [tool_name]. *)
Definition tool_message (content tool_name call_id : string) : Message.t :=
  {| Message.role := Role.User; Message.content := content;
     Message.parts := []; Message.name := Some tool_name;
     Message.tool_calls := []; Message.tool_call_id := Some call_id |}.

(** [Session::Session]. *)
Definition new_session (session_id model : string) (tools : list Tool.t)
    (system_message : option string)
    (generation_config : option GenerationConfig.t)
    (thinking_config : option ThinkingConfig.t) (streaming : bool)
    (now : Z) : Session.t :=
  {| Session.session_id_ := session_id;
     Session.model_ := model;
     Session.tools_ := tools;
     Session.tool_handlers_ := ∅;
     Session.system_message_ := system_message;
     Session.generation_config_ := generation_config;
     Session.thinking_config_ := thinking_config;
     Session.streaming_ := streaming;
     Session.messages_ :=
       match system_message with
       | Some text => [plain_message Role.System text]
       | None => []
       end;
     Session.event_handlers_ := [];
     Session.closed_ := false;
     Session.start_time_ := now;
     Session.modified_time_ := now |}.

Definition register_tool_handler (name : string) (handler : ToolHandler)
    (h : Host.t) : Host.t :=
  with_session
    (fun s => with_tool_handlers (<[name := handler]> (Session.tool_handlers_ s)) s)
    h.

(** [Session::on]. *)
Definition on (handler : EventHandler) (h : Host.t) : Host.t :=
  with_session
    (fun s => with_event_handlers (Session.event_handlers_ s ++ [handler]) s) h.

(** [Session::emit]: every handler registered at this moment is called with
    the event, in the order of registration. *)
Definition emit (event_type : EventType.t) (data : json) (h : Host.t) :
    Host.t :=
  let event :=
    {| SessionEvent.event_type := event_type; SessionEvent.data := data;
       SessionEvent.session_id := Session.session_id_ (Host.session h) |} in
  let handlers := Session.event_handlers_ (Host.session h) in
  {| Host.session := Host.session h;
     Host.received :=
       Host.received h ++ ((fun handler => (handler, event)) <$> handlers) |}.

Definition add_tool (tool : Tool.t) (h : Host.t) : Host.t :=
  with_session (fun s => with_tools (Session.tools_ s ++ [tool]) s) h.

Definition remove_tool (tool_name : string) (h : Host.t) : Host.t :=
  with_session
    (fun s =>
       with_tool_handlers (delete tool_name (Session.tool_handlers_ s))
         (with_tools
            (filter (fun t => Tool.name t ≠ tool_name) (Session.tools_ s)) s))
    h.

Definition clear_history (now : Z) (h : Host.t) : Host.t :=
  with_session
    (fun s =>
       with_modified_time now
         (with_messages
            match Session.system_message_ s with
            | Some text => [plain_message Role.System text]
            | None => []
            end s))
    h.


(** The events handler [handler] has received, oldest first. *)
Definition received_by (handler : EventHandler) (h : Host.t) :
    list SessionEvent.t :=
  (filter (fun p => p.1 = handler) (Host.received h)).*2.

(** The variables the stream callback of [stream_response] captures. *)
Module Captured.
Record t : Type := mk {
  full_content : string;
  full_reasoning : string;
  all_tool_calls : list ToolCall.t;
  final_usage : option LLMUsage.t
}.
End Captured.

(** ** Tools ([tools.cpp]) *)

(** [m.erase(k)]; a [std::map] holds a key once. *)
Fixpoint smap_erase {V} (k : string) (m : smap V) : smap V :=
  match m with
  | [] => []
  | (k', v) :: m' =>
      if String.eqb k k' then smap_erase k m' else (k', v) :: smap_erase k m'
  end.

Module ToolParametersBuilder.
Record t : Type := mk {
  properties_ : smap json;
  required_ : list string
}.
Definition empty : t := {| properties_ := []; required_ := [] |}.
End ToolParametersBuilder.

(** [properties_[name] = schema]. *)
Definition set_property (name : string) (schema : json)
    (builder : ToolParametersBuilder.t) : ToolParametersBuilder.t :=
  {| ToolParametersBuilder.properties_ :=
       smap_insert name schema (ToolParametersBuilder.properties_ builder);
     ToolParametersBuilder.required_ :=
       ToolParametersBuilder.required_ builder |}.

Definition add_string (name description : string) :
    ToolParametersBuilder.t -> ToolParametersBuilder.t :=
  set_property name
    (obj [("type", JString "string"); ("description", JString description)]).

Definition add_number (name description : string) :
    ToolParametersBuilder.t -> ToolParametersBuilder.t :=
  set_property name
    (obj [("type", JString "number"); ("description", JString description)]).

Definition add_integer (name description : string) :
    ToolParametersBuilder.t -> ToolParametersBuilder.t :=
  set_property name
    (obj [("type", JString "integer"); ("description", JString description)]).

Definition add_boolean (name description : string) :
    ToolParametersBuilder.t -> ToolParametersBuilder.t :=
  set_property name
    (obj [("type", JString "boolean"); ("description", JString description)]).

Definition add_enum (name description : string) (values : list string) :
    ToolParametersBuilder.t -> ToolParametersBuilder.t :=
  set_property name
    (obj [ ("type", JString "string");
           ("description", JString description);
           ("enum", JArray (JString <$> values)) ]).

Definition required (fields : list string)
    (builder : ToolParametersBuilder.t) : ToolParametersBuilder.t :=
  {| ToolParametersBuilder.properties_ :=
       ToolParametersBuilder.properties_ builder;
     ToolParametersBuilder.required_ := fields |}.

Definition build (builder : ToolParametersBuilder.t) : json :=
  obj [ ("properties", JObject (ToolParametersBuilder.properties_ builder));
        ("required",
         JArray (JString <$> ToolParametersBuilder.required_ builder)) ].

Definition create_tool (name description : string)
    (parameters : option json) : Tool.t :=
  {| Tool.name := name; Tool.description := description;
     Tool.parameters := parameters |}.

Definition define_tool (name description : string)
    (builder : ToolParametersBuilder.t) : Tool.t :=
  create_tool name description (Some (build builder)).

Definition tool_result (result_type : ToolResultType.t) (text : string) :
    ToolResult.t :=
  {| ToolResult.result_type := Some result_type;
     ToolResult.text_result_for_llm := Some text;
     ToolResult.binary_result := None;
     ToolResult.session_log := None |}.

Definition success_result : string -> ToolResult.t :=
  tool_result ToolResultType.Success.
Definition failure_result : string -> ToolResult.t :=
  tool_result ToolResultType.Failure.
Definition rejected_result : string -> ToolResult.t :=
  tool_result ToolResultType.Rejected.

(** [ToolRegistry]: the handlers stored are callable. *)
Module ToolRegistry.
Record t : Type := mk {
  tools_ : smap Tool.t;
  handlers_ : smap ToolHandler
}.
Definition empty : t := {| tools_ := []; handlers_ := [] |}.
End ToolRegistry.

Definition register_tool (tool : Tool.t) (handler : ToolHandler)
    (r : ToolRegistry.t) : ToolRegistry.t :=
  {| ToolRegistry.tools_ :=
       smap_insert (Tool.name tool) tool (ToolRegistry.tools_ r);
     ToolRegistry.handlers_ :=
       smap_insert (Tool.name tool) handler (ToolRegistry.handlers_ r) |}.

Definition tools (r : ToolRegistry.t) : list Tool.t :=
  (ToolRegistry.tools_ r).*2.

Definition get_tool (name : string) (r : ToolRegistry.t) : option Tool.t :=
  smap_lookup name (ToolRegistry.tools_ r).

(** [None] is the empty [std::function]. *)
Definition get_handler (name : string) (r : ToolRegistry.t) :
    option ToolHandler :=
  smap_lookup name (ToolRegistry.handlers_ r).

Definition execute (invocation : ToolInvocation.t) (r : ToolRegistry.t) :
    ToolResult.t + Thrown :=
  match smap_lookup (ToolInvocation.name invocation)
          (ToolRegistry.handlers_ r) with
  | None =>
      inl (failure_result
             ("Tool '" +:+ ToolInvocation.name invocation +:+ "' not found"))
  | Some handler => handler invocation
  end.

Definition unregister (name : string) (r : ToolRegistry.t) : ToolRegistry.t :=
  {| ToolRegistry.tools_ := smap_erase name (ToolRegistry.tools_ r);
     ToolRegistry.handlers_ := smap_erase name (ToolRegistry.handlers_ r) |}.

Definition has (name : string) (r : ToolRegistry.t) : bool :=
  bool_decide (is_Some (smap_lookup name (ToolRegistry.tools_ r))).

Definition names (r : ToolRegistry.t) : list string :=
  (ToolRegistry.tools_ r).*1.

(** ** Instances for examples

    Concrete stand-ins for the library functions, used where a property is
    shown at a concrete input.  [sample_parse] knows the JSON texts listed in
    [sample_documents] and rejects every other text; [sample_dump] prints
    an object of strings, integers and booleans. *)

(** [s] between double quotes. *)
Definition dq (s : string) : string :=
  String DQUOTE s +:+ String DQUOTE "".

(** The text [{"a":1}]. *)
Definition text_a1 : string := "{" +:+ dq "a" +:+ ":1}".

(** An answer of the token endpoint. *)
Definition text_token : string :=
  "{" +:+ dq "access_token" +:+ ":" +:+ dq "fresh" +:+ "," +:+
  dq "expires_in" +:+ ":3600}".

(** A credential file whose credential expired long ago. *)
Definition text_stored : string :=
  "{" +:+ dq "access_token" +:+ ":" +:+ dq "stale" +:+ "," +:+
  dq "refresh_token" +:+ ":" +:+ dq "r0" +:+ "," +:+
  dq "expiry_date" +:+ ":1000}".

(** Answers of [loadCodeAssist]: a bound tier with its project, and no
    tier yet. *)
Definition text_tier : string :=
  "{" +:+ dq "currentTier" +:+ ":{}," +:+
  dq "cloudaicompanionProject" +:+ ":" +:+ dq "proj-1" +:+ "}".
Definition text_no_tier : string := "{}".

(** Answers of [onboardUser]: an operation still running, and one that is
    done and names no project. *)
Definition text_pending : string := "{" +:+ dq "done" +:+ ":false}".
Definition text_done : string := "{" +:+ dq "done" +:+ ":true}".

(** A completion with the text [hello] and one with a call of the tool
    [get_weather]. *)
Definition text_hello : string :=
  "{" +:+ dq "candidates" +:+ ":[{" +:+ dq "content" +:+ ":{" +:+
  dq "parts" +:+ ":[{" +:+ dq "text" +:+ ":" +:+ dq "hello" +:+ "}]}}]}".
Definition text_call : string :=
  "{" +:+ dq "candidates" +:+ ":[{" +:+ dq "content" +:+ ":{" +:+
  dq "parts" +:+ ":[{" +:+ dq "functionCall" +:+ ":{" +:+ dq "name" +:+ ":" +:+
  dq "get_weather" +:+ "}}]}}]}".

(** The stream of the specification: one frame with the payload
    [{"a":1}], an empty line and the end marker. *)
Definition text_stream : string :=
  "data: " +:+ text_a1 +:+
  String LF (String LF ("data: [DONE]" +:+ String LF "")).

Definition sample_documents : list (string * json) :=
  [ (text_a1, JObject [("a", JInt 1)]);
    (text_token,
     JObject [("access_token", JString "fresh"); ("expires_in", JInt 3600)]);
    (text_stored,
     JObject [ ("access_token", JString "stale"); ("expiry_date", JInt 1000);
               ("refresh_token", JString "r0") ]);
    (text_tier,
     JObject [ ("cloudaicompanionProject", JString "proj-1");
               ("currentTier", JObject []) ]);
    (text_no_tier, JObject []);
    (text_pending, JObject [("done", JBool false)]);
    (text_done, JObject [("done", JBool true)]);
    (text_hello,
     JObject
       [("candidates",
         JArray
           [JObject
              [("content",
                JObject
                  [("parts",
                    JArray [JObject [("text", JString "hello")]])])]])]);
    (text_call,
     JObject
       [("candidates",
         JArray
           [JObject
              [("content",
                JObject
                  [("parts",
                    JArray
                      [JObject
                         [("functionCall",
                           JObject [("name", JString "get_weather")])]])])]])])
  ].

Definition sample_parse (s : string) : option json :=
  smap_lookup s sample_documents.

Definition dump_member (kv : string * json) : string :=
  dq kv.1 +:+ ":" +:+
  match kv.2 with
  | JString s => dq s
  | JInt z => pretty z
  | JBool true => "true"
  | JBool false => "false"
  | _ => "null"
  end.

Definition sample_dump (indent : option nat) (j : json) : string :=
  match j with
  | JObject m => "{" +:+ String.concat "," (dump_member <$> m) +:+ "}"
  | _ => "null"
  end.

Definition sample_what (e : json_exn) : string :=
  match e with
  | parse_error => "parse error"
  | type_error _ => "type error"
  end.

Definition sample_escape (s : string) : string := s.

Definition sample_mt19937 (n : nat) : Z := Z.of_nat n.

Definition sample_world (now : Z) (net : list CurlOutcome)
    (files : gmap string string) : World.t :=
  {| World.now := now; World.net := net; World.environ := ∅;
     World.pw_dir := None; World.files := files; World.read_only := ∅;
     World.draws := 0; World.effects := [] |}.

Definition sample_backend (credentials : option GeminiOAuthCredentials.t)
    (project_id : string) (w : World.t) : Backend.t :=
  {| Backend.oauth_manager_ :=
       {| OAuthManager.oauth_path_ := Some "oauth_creds.json";
          OAuthManager.client_id_ := GEMINI_OAUTH_CLIENT_ID;
          OAuthManager.client_secret_ := GEMINI_OAUTH_CLIENT_SECRET;
          OAuthManager.credentials_ := credentials;
          OAuthManager.project_id_ := "" |};
     Backend.project_id_ := project_id;
     Backend.world := w |}.

Definition sample_credentials (access_token refresh_token : string)
    (expiry_date : Z) : GeminiOAuthCredentials.t :=
  {| GeminiOAuthCredentials.access_token := access_token;
     GeminiOAuthCredentials.refresh_token := refresh_token;
     GeminiOAuthCredentials.token_type := "Bearer";
     GeminiOAuthCredentials.expiry_date := expiry_date |}.

(** A call of the tool [name] by the provider. *)
Definition sample_tool_call (name : string) : ToolCall.t :=
  {| ToolCall.id := "call_1"; ToolCall.type := "function";
     ToolCall.function :=
       {| FunctionCall.name := name;
          FunctionCall.arguments := JObject [("city", JString "Paris")] |} |}.

(** A tool handler that answers [sunny], one that throws a
    [std::runtime_error] and one that throws an [int]. *)
Definition sample_handler : ToolHandler :=
  fun _ =>
    inl {| ToolResult.result_type := Some ToolResultType.Success;
           ToolResult.text_result_for_llm := Some "sunny";
           ToolResult.binary_result := None;
           ToolResult.session_log := None |}.

Definition sample_failing_handler : ToolHandler :=
  fun _ => inr (StdException "no network").

Definition sample_escaping_handler : ToolHandler := fun _ => inr OtherThrown.

(** A fresh session with event handler [0] and the three tool handlers. *)
Definition sample_host (streaming : bool) : Host.t :=
  on 0%nat
    (register_tool_handler "get_time" sample_failing_handler
       (register_tool_handler "get_news" sample_escaping_handler
       (register_tool_handler "get_weather" sample_handler
          {| Host.session :=
               new_session "s1" "gemini-2.5-pro" [] None None None streaming 0;
             Host.received := [] |}))).

Definition sample_options : MessageOptions.t :=
  {| MessageOptions.prompt := "Weather in Paris?";
     MessageOptions.context := Some "Be brief." |}.

(** A backend with a valid credential and a project, whose provider
    streams [hello] twice, the transfer cut in the middle of a line. *)
Definition sample_streaming_backend : Backend.t :=
  sample_backend (Some (sample_credentials "tok" "ref" 1000000)) "proj-1"
    (sample_world 1000
       [CurlPerformed None 200
          [ "data: " +:+ text_hello;
            String LF ("data: " +:+ text_hello +:+ String LF "") ]] ∅).


Section Program.

(** ** What the libraries provide

    [json_parse] is [json::parse] ([None] for a [parse_error]),
    [json_dump] is [json::dump] with its indentation, [json_what] the
    [what()] text of a library exception, [curl_easy_escape] the URL
    escaping of libcurl and [mt19937] the outputs of the random engine. *)
Variable json_parse : string -> option json.
Variable json_dump : option nat -> json -> string.
Variable json_what : json_exn -> string.
Variable curl_easy_escape : string -> string.
Variable mt19937 : nat -> Z.

Definition parse (s : string) : result json :=
  match json_parse s with
  | Some j => Ok j
  | None => Throw (JsonException parse_error)
  end.

(** [e.what()]; a value that is no [std::exception] has none, and no
    handler that asks for it catches one. *)
Definition what (e : error) : string :=
  match e with
  | JsonException x => json_what x
  | CredentialsNotFoundError p => "Credentials not found at " +:+ p
  | TokenRefreshError m _ _ => m
  | ConnectionError m => m
  | APIError m _ => m
  | RateLimitError m => m
  | PermissionDeniedError m => m
  | NotFoundError m => m
  | OnboardingError m _ => m
  | SessionClosedError _ => "Session is closed"
  | NonStdException => ""
  end.

(** [j.dump(indent)]: the text, or [type_error] 316. *)
Definition dump (indent : option nat) (j : json) : result string :=
  if dumpable j then Ok (json_dump indent j)
  else Throw (JsonException (type_error 316)).

(** ** OAuthManager ([auth.cpp]) *)

Definition get_credential_path (b : Backend.t) : string :=
  get_gemini_credential_path
    (OAuthManager.oauth_path_ (Backend.oauth_manager_ b)) (Backend.world b).

Definition load_cached_credentials : M Backend.t GeminiOAuthCredentials.t :=
  let* key_file := gets get_credential_path in
  let* file := gets (fun b => World.files (Backend.world b) !! key_file) in
  match file with
  | None => throw (CredentialsNotFoundError key_file)
  | Some buffer =>
      let* j := lift (parse buffer) in
      lift (GeminiOAuthCredentials.from_json j)
  end.

Definition save_credentials (credentials : GeminiOAuthCredentials.t) :
    M Backend.t unit :=
  let* key_file := gets get_credential_path in
  modify (with_world
    (write_file key_file
       (json_dump (Some 2) (GeminiOAuthCredentials.to_json credentials)))).

(** The scopes joined by single blanks. *)
Fixpoint join_scopes (i : nat) (scopes : list string) : string :=
  match scopes with
  | [] => ""
  | s :: rest =>
      (if bool_decide (0 < i) then " " else "") +:+ s +:+
      join_scopes (S i) rest
  end.

(** The credential read from the answer of the token endpoint at time
    [now]. *)
Definition new_credentials_of (token_data : json)
    (credentials : GeminiOAuthCredentials.t) (now : Z) :
    result GeminiOAuthCredentials.t :=
  rbind (value_string token_data "access_token" "") (fun access_token =>
  rbind (value_string token_data "refresh_token"
           (GeminiOAuthCredentials.refresh_token credentials))
    (fun refresh_token =>
  rbind (value_string token_data "token_type" "Bearer") (fun token_type =>
  rbind (value_int token_data "expires_in" 3600%Z) (fun expires_in =>
  Ok {| GeminiOAuthCredentials.access_token := access_token;
        GeminiOAuthCredentials.refresh_token := refresh_token;
        GeminiOAuthCredentials.token_type := token_type;
        GeminiOAuthCredentials.expiry_date :=
          int64 (now + int64 (expires_in * 1000)) |})))).

(** The request of a token refresh. *)
Definition refresh_request (credentials : GeminiOAuthCredentials.t)
    (om : OAuthManager.t) : Effect :=
  let scope := join_scopes 0 GEMINI_OAUTH_SCOPES in
  let post_fields :=
    "grant_type=refresh_token" +:+
    "&refresh_token=" +:+ GeminiOAuthCredentials.refresh_token credentials +:+
    "&client_id=" +:+ OAuthManager.client_id_ om +:+
    "&client_secret=" +:+ OAuthManager.client_secret_ om +:+
    "&scope=" +:+ curl_easy_escape scope in
  HttpPost GEMINI_OAUTH_TOKEN_ENDPOINT
    [ "Content-Type: application/x-www-form-urlencoded";
      "Accept: application/json" ]
    post_fields.

Definition refresh_access_token (credentials : GeminiOAuthCredentials.t) :
    M Backend.t GeminiOAuthCredentials.t :=
  if string_empty (GeminiOAuthCredentials.refresh_token credentials) then
    throw (TokenRefreshError "No refresh token available in credentials."
             None "")
  else
    let* curl := curl_easy_init in
    match curl with
    | CurlInitFailed =>
        throw (TokenRefreshError "Failed to initialize CURL" None "")
    | CurlPerformed res http_code received =>
        let* om := gets Backend.oauth_manager_ in
        do effect (refresh_request credentials om)
        then
        let response := String.concat "" received in
        match res with
        | Some strerror =>
            throw (TokenRefreshError ("CURL error: " +:+ strerror) None "")
        | None =>
            if negb (http_code =? 200)%Z then
              throw (TokenRefreshError
                       ("Token refresh failed: " +:+ pretty http_code)
                       (Some (int32 http_code)) response)
            else
              let* token_data := lift (parse response) in
              if contains token_data "error" then
                let* error :=
                  lift (value_string token_data "error" "Unknown error") in
                let* error_desc :=
                  lift (value_string token_data "error_description" "") in
                throw (TokenRefreshError (error +:+ ": " +:+ error_desc)
                         None "")
              else
                let* now := current_time_ms in
                let* new_credentials :=
                  lift (new_credentials_of token_data credentials now) in
                do save_credentials new_credentials
                then ret new_credentials
        end
    end.

Definition is_token_valid (credentials : GeminiOAuthCredentials.t) :
    M Backend.t bool :=
  if (GeminiOAuthCredentials.expiry_date credentials =? 0)%Z then ret false
  else
    let* now := current_time_ms in
    ret (now <? int64 (GeminiOAuthCredentials.expiry_date credentials
                       - TOKEN_REFRESH_BUFFER_MS))%Z.

Definition invalidate_credentials : M Backend.t unit :=
  modify (with_credentials None).

Definition ensure_authenticated (force_refresh : bool) :
    M Backend.t string :=
  let* cached := gets credentials_ in
  let* loaded :=
    match cached with
    | Some c => ret c
    | None =>
        let* c := load_cached_credentials in
        do modify (with_credentials (Some c))
        then ret c
    end in
  let* stale :=
    if force_refresh then ret true
    else let* valid := is_token_valid loaded in ret (negb valid) in
  let* current :=
    if stale : bool then
      let* c := refresh_access_token loaded in
      do modify (with_credentials (Some c))
      then ret c
    else ret loaded in
  ret (GeminiOAuthCredentials.access_token current).

Definition get_api_endpoint : string :=
  GEMINI_CODE_ASSIST_ENDPOINT +:+ "/" +:+ GEMINI_CODE_ASSIST_API_VERSION.

Definition is_quote (c : option ascii) : bool :=
  match c with
  | Some a => Ascii.eqb a DQUOTE || Ascii.eqb a SQUOTE
  | None => false
  end.

(** The value of the first [GOOGLE_CLOUD_PROJECT=] line of a [.env] file,
    with one quote removed at either end. *)
Fixpoint env_file_project (lines : list string) : option string :=
  match lines with
  | [] => None
  | line :: rest =>
      if starts_with "GOOGLE_CLOUD_PROJECT=" line then
        let value := substr_from 21 line in
        let value :=
          if negb (string_empty value) && is_quote (front value)
          then substr_from 1 value else value in
        let value :=
          if negb (string_empty value) && is_quote (back value)
          then pop_back value else value in
        Some value
      else env_file_project rest
  end.

(** [OAuthManager::get_project_id]. *)
Definition get_project_id (b : Backend.t) : string :=
  let w := Backend.world b in
  match World.environ w !! "GOOGLE_CLOUD_PROJECT" with
  | Some env_project => env_project
  | None =>
      let from_file :=
        match World.files w !! get_gemini_env_path None w with
        | Some text => env_file_project (getlines text)
        | None => None
        end in
      match from_file with
      | Some value => value
      | None => OAuthManager.project_id_ (Backend.oauth_manager_ b)
      end
  end.

(** ** Identifiers ([generate_uuid], [types.cpp]) *)

Definition count_draw (w : World.t) : World.t :=
  {| World.now := World.now w; World.net := World.net w;
     World.environ := World.environ w; World.pw_dir := World.pw_dir w;
     World.files := World.files w; World.read_only := World.read_only w;
     World.draws := S (World.draws w); World.effects := World.effects w |}.

(** [std::uniform_int_distribution<>(lo, hi)] applied to the engine. *)
Definition uniform (lo hi : Z) : M Backend.t Z :=
  let* n := gets (fun b => World.draws (Backend.world b)) in
  do modify (with_world count_draw)
  then ret (lo + mt19937 n mod (hi - lo + 1))%Z.

(** [ss << std::hex << v] for [0 <= v < 16]. *)
Definition hex (v : Z) : string :=
  match String.get (Z.to_nat v) "0123456789abcdef" with
  | Some c => String c ""
  | None => ""
  end.

Fixpoint hex_digits (n : nat) : M Backend.t string :=
  match n with
  | O => ret ""
  | S n' =>
      let* v := uniform 0 15 in
      let* rest := hex_digits n' in
      ret (hex v +:+ rest)
  end.

Definition generate_uuid : M Backend.t string :=
  let* g1 := hex_digits 8 in
  let* g2 := hex_digits 4 in
  let* g3 := hex_digits 3 in
  let* v := uniform 8 11 in
  let* g4 := hex_digits 3 in
  let* g5 := hex_digits 12 in
  ret (g1 +:+ "-" +:+ g2 +:+ "-4" +:+ g3 +:+ "-" +:+ hex v +:+ g4 +:+
       "-" +:+ g5).

(** ** Backend ([backend.cpp]) *)

Definition ONBOARD_MAX_RETRIES : nat := 30.
Definition ONBOARD_SLEEP_SECONDS : Z := 2.

Definition alphabet : string :=
  "ABCDEFGHIJKLMNOPQRSTUVWXYZabcdefghijklmnopqrstuvwxyz0123456789+/".

Definition alphabet_at (i : Z) : string :=
  match String.get (Z.to_nat i) alphabet with
  | Some c => String c ""
  | None => ""
  end.

Definition octet (b : byte) : Z := Z.of_N (Byte.to_N b).

(** The four characters of one group of three octets. *)
Definition sextets (octet_a octet_b octet_c : Z) : string :=
  let triple :=
    (Z.shiftl octet_a 16 + Z.shiftl octet_b 8 + octet_c)%Z in
  alphabet_at (Z.land (Z.shiftr triple 18) 63) +:+
  alphabet_at (Z.land (Z.shiftr triple 12) 63) +:+
  alphabet_at (Z.land (Z.shiftr triple 6) 63) +:+
  alphabet_at (Z.land triple 63).

Fixpoint encode_groups (data : list byte) : string :=
  match data with
  | [] => ""
  | [a] => sextets (octet a) 0 0
  | [a; b] => sextets (octet a) (octet b) 0
  | a :: b :: c :: rest =>
      sextets (octet a) (octet b) (octet c) +:+ encode_groups rest
  end.

(** [s[i] = c]. *)
Fixpoint string_set (i : nat) (c : ascii) (s : string) : string :=
  match s, i with
  | EmptyString, _ => EmptyString
  | String _ s', O => String c s'
  | String d s', S i' => String d (string_set i' c s')
  end.

Definition base64_encode (data : list byte) : string :=
  let result := encode_groups data in
  let mod_ := (length data mod 3)%nat in
  if bool_decide (0 < mod_) then
    fold_left
      (fun result j => string_set (String.length result - 1 - j) "=" result)
      (seq 0 (3 - mod_)) result
  else result.

(** [Backend::get_auth_headers]: a [std::map], so ordered by key. *)
Definition get_auth_headers (force_refresh : bool) :
    M Backend.t (smap string) :=
  let* access_token := ensure_authenticated force_refresh in
  ret (smap_of_list
         [ ("Content-Type", "application/json");
           ("Authorization", "Bearer " +:+ access_token) ]).

(** [headers["Authorization"]]. *)
Definition header (key : string) (headers : smap string) : string :=
  default "" (smap_lookup key headers).

Definition header_list (headers : smap string) : list string :=
  (fun kv => kv.1 +:+ ": " +:+ kv.2) <$> headers.

Definition provider_role (role : Role.t) : string :=
  match role with
  | Role.Assistant => "model"
  | _ => "user"
  end.

(** The entries one content part of a message adds to [content_parts]. *)
Definition push_part (content_parts : list json) (part : ContentPart.t) :
    list json :=
  let content_parts :=
    match ContentPart.text part with
    | Some text => content_parts ++ [obj [("text", JString text)]]
    | None => content_parts
    end in
  match ContentPart.image_data part, ContentPart.image_mime_type part with
  | Some image_data, Some image_mime_type =>
      content_parts ++
      [obj [("inlineData",
             obj [("mimeType", JString image_mime_type);
                  ("data", JString (base64_encode image_data))])]]
  | _, _ => content_parts
  end.

Definition push_tool_call (content_parts : list json) (tc : ToolCall.t) :
    list json :=
  content_parts ++
  [obj [("functionCall",
         obj [("name", JString (FunctionCall.name (ToolCall.function tc)));
              ("args", FunctionCall.arguments (ToolCall.function tc))])]].

(** The [content_parts] array built for one message. *)
Definition content_parts_of (msg : Message.t) : list json :=
  let content_parts :=
    if negb (string_empty (Message.content msg))
    then [obj [("text", JString (Message.content msg))]] else [] in
  let content_parts := fold_left push_part (Message.parts msg) content_parts in
  let content_parts :=
    fold_left push_tool_call (Message.tool_calls msg) content_parts in
  match Message.tool_call_id msg with
  | Some _ =>
      content_parts ++
      [obj [("functionResponse",
             obj [("name", JString (default "" (Message.name msg)));
                  ("response",
                   obj [("result", JString (Message.content msg))])])]]
  | None => content_parts
  end.

(** One turn of the loop of [prepare_messages]. *)
Definition push_message (result : list json) (msg : Message.t) : list json :=
  let role := provider_role (Message.role msg) in
  let content_parts := content_parts_of msg in
  if bool_decide (content_parts = []) then result
  else result ++ [obj [("role", JString role);
                       ("parts", JArray content_parts)]].

Definition prepare_messages (messages : list Message.t) : json :=
  JArray (fold_left push_message messages []).

Definition push_tool (func_decls : list json) (tool : Tool.t) :
    result (list json) :=
  let func_def :=
    [ ("name", JString (Tool.name tool));
      ("description", JString (Tool.description tool)) ] in
  match Tool.parameters tool with
  | Some parameters =>
      rbind (value_json parameters "properties" (JObject [])) (fun props =>
      rbind (value_json parameters "required" (JArray [])) (fun req =>
      Ok (func_decls ++
          [obj (func_def ++
                [("parameters",
                  obj [("type", JString "object");
                       ("properties", props);
                       ("required", req)])])])))
  | None => Ok (func_decls ++ [obj func_def])
  end.

Fixpoint push_tools (func_decls : list json) (tools : list Tool.t) :
    result (list json) :=
  match tools with
  | [] => Ok func_decls
  | tool :: rest =>
      rbind (push_tool func_decls tool) (fun d => push_tools d rest)
  end.

Definition prepare_tools (tools : list Tool.t) : result json :=
  match tools with
  | [] => Ok JNull
  | _ =>
      rbind (push_tools [] tools) (fun func_decls =>
      Ok (JArray [obj [("functionDeclarations", JArray func_decls)]]))
  end.

Definition set_opt {A} (key : string) (to_json : A -> json) (v : option A)
    (m : smap json) : smap json :=
  match v with
  | Some x => smap_insert key (to_json x) m
  | None => m
  end.

(** 0.7 as a [double]. *)
Definition default_temperature : float := 0x1.6666666666666p-1%float.

Definition build_request_payload (model : string)
    (messages : list Message.t)
    (generation_config : option GenerationConfig.t)
    (thinking_config : option ThinkingConfig.t)
    (tools : list Tool.t) (project_id : string) : result json :=
  let gen_config := smap_of_list [("temperature", JFloat default_temperature)] in
  let gen_config :=
    match generation_config with
    | Some gc =>
        set_opt "stopSequences" (fun l => JArray (JString <$> l))
          (GenerationConfig.stop_sequences gc)
          (set_opt "topK" JInt (GenerationConfig.top_k gc)
             (set_opt "topP" JFloat (GenerationConfig.top_p gc)
                (set_opt "maxOutputTokens" JInt
                   (GenerationConfig.max_output_tokens gc)
                   (smap_insert "temperature"
                      (JFloat (GenerationConfig.temperature gc))
                      gen_config))))
    | None => gen_config
    end in
  let gen_config :=
    match thinking_config with
    | Some tc =>
        if ThinkingConfig.include_thoughts tc then
          let thinking_cfg :=
            set_opt "thinkingBudget" JInt (ThinkingConfig.thinking_budget tc)
              (smap_of_list [("includeThoughts", JBool true)]) in
          smap_insert "thinkingConfig" (JObject thinking_cfg) gen_config
        else gen_config
    | None => gen_config
    end in
  let request_body :=
    smap_of_list [ ("contents", prepare_messages messages);
                   ("generationConfig", JObject gen_config) ] in
  rbind (prepare_tools tools) (fun prepared_tools =>
  let request_body :=
    if negb (is_null prepared_tools) && negb (json_empty prepared_tools)
    then smap_insert "tools" prepared_tools request_body
    else request_body in
  let payload :=
    smap_of_list [ ("model", JString model);
                   ("request", JObject request_body) ] in
  Ok (JObject
        (if negb (string_empty project_id)
         then smap_insert "project" (JString project_id) payload
         else payload))).

Definition json_of_project (env_project_id : string) : json :=
  if string_empty env_project_id then JNull else JString env_project_id.

Definition client_metadata (env_project_id : string) : json :=
  obj [ ("ideType", JString "IDE_UNSPECIFIED");
        ("platform", JString "PLATFORM_UNSPECIFIED");
        ("pluginType", JString "GEMINI");
        ("duetProject", json_of_project env_project_id) ].

Definition bearer_headers (access_token : string) : list string :=
  [ "Authorization: Bearer " +:+ access_token;
    "Content-Type: application/json" ].

Definition set_project_id (pid : string) : M Backend.t unit :=
  modify (with_project_id pid).

(** The loop of [onboard_for_project] with [n] turns left.  [Some pid] is
    a [return pid] from inside the loop; [None] is the loop left, by
    [break] or after its last turn. *)
Fixpoint onboard_poll (n : nat) (url request_body access_token : string)
    (tier_id : string) : M Backend.t (option string) :=
  match n with
  | O => ret None
  | S n' =>
      let* curl := curl_easy_init in
      match curl with
      | CurlInitFailed =>
          onboard_poll n' url request_body access_token tier_id
      | CurlPerformed res http_code received =>
          do effect (HttpPost url (bearer_headers access_token) request_body)
          then
          let response := String.concat "" received in
          if bool_decide (res ≠ None) || negb (http_code =? 200)%Z then
            throw (OnboardingError "Onboard request failed" tier_id)
          else
            let* lro_data := lift (parse response) in
            let* done_ := lift (value_bool lro_data "done" false) in
            if done_ : bool then
              let* has_project :=
                if contains lro_data "response" then
                  let* response_ := lift (at_key lro_data "response") in
                  ret (contains response_ "cloudaicompanionProject")
                else ret false in
              if has_project : bool then
                let* response_ := lift (at_key lro_data "response") in
                let* project :=
                  lift (at_key response_ "cloudaicompanionProject") in
                let* pid := lift (value_string project "id" "") in
                do set_project_id pid
                then ret (Some pid)
              else ret None
            else
              do sleep_for ONBOARD_SLEEP_SECONDS
              then onboard_poll n' url request_body access_token tier_id
      end
  end.

(** [onboard_for_project] is private and called by [ensure_project_id]
    alone.  Its request holds the project of the environment, which
    [ensure_project_id] has dumped before, and a tier read from parsed JSON,
    so the [dump] of every turn gives the text. *)
Definition onboard_for_project (access_token env_project_id tier_id : string) :
    M Backend.t string :=
  let onboard_request :=
    if String.eqb tier_id "free-tier" then
      obj [ ("tierId", JString tier_id);
            ("cloudaicompanionProject", JNull);
            ("metadata", client_metadata env_project_id) ]
    else
      obj [ ("tierId", JString tier_id);
            ("cloudaicompanionProject", JString env_project_id);
            ("metadata", client_metadata env_project_id) ] in
  let url := get_api_endpoint +:+ ":onboardUser" in
  let* returned :=
    onboard_poll ONBOARD_MAX_RETRIES url (json_dump None onboard_request)
      access_token tier_id in
  match returned with
  | Some pid => ret pid
  | None =>
      if String.eqb tier_id "free-tier" then
        do set_project_id ""
        then ret ""
      else throw (OnboardingError "Failed to complete onboarding" tier_id)
  end.

(** The tier chosen among [allowedTiers]: the first default one. *)
Fixpoint default_tier (tiers : list json) (tier_id : string) :
    result string :=
  match tiers with
  | [] => Ok tier_id
  | tier :: rest =>
      rbind (value_bool tier "isDefault" false) (fun is_default =>
      if is_default : bool then value_string tier "id" "free-tier"
      else default_tier rest tier_id)
  end.

Definition ensure_project_id (access_token : string) : M Backend.t string :=
  let* cached := gets Backend.project_id_ in
  if negb (string_empty cached) then ret cached
  else
    let* env_project_id := gets get_project_id in
    let load_request :=
      obj [ ("cloudaicompanionProject", json_of_project env_project_id);
            ("metadata", client_metadata env_project_id) ] in
    let url := get_api_endpoint +:+ ":loadCodeAssist" in
    let* curl := curl_easy_init in
    match curl with
    | CurlInitFailed => throw (ConnectionError "Failed to initialize CURL")
    | CurlPerformed res http_code received =>
        let* request_body := lift (dump None load_request) in
        do effect (HttpPost url (bearer_headers access_token) request_body)
        then
        let response := String.concat "" received in
        if bool_decide (res ≠ None) || negb (http_code =? 200)%Z then
          throw (APIError ("Gemini Code Assist access denied: " +:+ response)
                   (int32 http_code))
        else
          let* data := lift (parse response) in
          if contains data "currentTier" then
            let* pid :=
              lift (value_string data "cloudaicompanionProject"
                      env_project_id) in
            do set_project_id pid
            then ret pid
          else
            let* tier_id :=
              if contains data "allowedTiers" then
                let* allowed := lift (at_key data "allowedTiers") in
                if is_array allowed
                then lift (default_tier (items allowed) "free-tier")
                else ret "free-tier"
              else ret "free-tier" in
            onboard_for_project access_token env_project_id tier_id
    end.

(** The body of the loop over [parts], shared by the buffered and the
    streaming path: text is appended, a thought replaces the reasoning, a
    function call becomes a tool call with a fresh identifier. *)
Definition absorb_part (chunk : LLMChunk.t) (part : json) :
    M Backend.t LLMChunk.t :=
  let* content :=
    if contains part "text" then
      let* text := lift (rbind (at_key part "text") get_string) in
      ret (LLMChunk.content chunk +:+ text)
    else ret (LLMChunk.content chunk) in
  let* reasoning_content :=
    if contains part "thought" then
      let* thought := lift (rbind (at_key part "thought") get_string) in
      ret (Some thought)
    else ret (LLMChunk.reasoning_content chunk) in
  let* tool_calls :=
    if contains part "functionCall" then
      let* function_call := lift (at_key part "functionCall") in
      let* id := generate_uuid in
      let* name := lift (value_string function_call "name" "") in
      let* arguments := lift (value_json function_call "arguments" (JObject [])) in
      let* args := lift (value_json function_call "args" arguments) in
      ret (LLMChunk.tool_calls chunk ++
           [ {| ToolCall.id := id; ToolCall.type := "function";
                ToolCall.function :=
                  {| FunctionCall.name := name;
                     FunctionCall.arguments := args |} |} ])
    else ret (LLMChunk.tool_calls chunk) in
  ret {| LLMChunk.content := content;
         LLMChunk.reasoning_content := reasoning_content;
         LLMChunk.tool_calls := tool_calls;
         LLMChunk.usage := LLMChunk.usage chunk;
         LLMChunk.finish_reason := LLMChunk.finish_reason chunk |}.

Fixpoint absorb_parts (chunk : LLMChunk.t) (parts : list json) :
    M Backend.t LLMChunk.t :=
  match parts with
  | [] => ret chunk
  | part :: rest =>
      let* chunk := absorb_part chunk part in
      absorb_parts chunk rest
  end.

(** [data.contains("response") ? data["response"] : data]. *)
Definition response_data_of (data : json) : result json :=
  if contains data "response" then at_key data "response" else Ok data.

(** The candidate's parts read into a fresh chunk; [None] when there is no
    candidate. *)
Definition read_candidate (response_data : json) :
    M Backend.t (option (json * LLMChunk.t)) :=
  let* candidates :=
    if contains response_data "candidates"
    then lift (at_key response_data "candidates") else ret JNull in
  if negb (contains response_data "candidates") || json_empty candidates
  then ret None
  else
    let* candidate := lift (at_index candidates 0) in
    let* content := lift (value_json candidate "content" (JObject [])) in
    let* parts := lift (value_json content "parts" (JArray [])) in
    let* chunk := absorb_parts LLMChunk.empty (items parts) in
    ret (Some (candidate, chunk)).

Definition read_usage (usage_data : json) : result LLMUsage.t :=
  rbind (value_int64 usage_data "promptTokenCount" 0%Z) (fun p =>
  rbind (value_int64 usage_data "candidatesTokenCount" 0%Z) (fun c =>
  rbind (value_int64 usage_data "totalTokenCount" 0%Z) (fun t =>
  Ok {| LLMUsage.prompt_tokens := p; LLMUsage.completion_tokens := c;
        LLMUsage.total_tokens := t |}))).

Definition parse_completion_response (data : json) :
    M Backend.t LLMChunk.t :=
  let* response_data := lift (response_data_of data) in
  let* read := read_candidate response_data in
  match read with
  | None => ret LLMChunk.empty
  | Some (candidate, chunk) =>
      let* usage :=
        if contains data "usageMetadata" then
          let* u := lift (rbind (at_key data "usageMetadata") read_usage) in
          ret (Some u)
        else if contains response_data "usageMetadata" then
          let* u :=
            lift (rbind (at_key response_data "usageMetadata") read_usage) in
          ret (Some u)
        else ret None in
      let* finish_reason :=
        if contains candidate "finishReason" then
          let* r := lift (rbind (at_key candidate "finishReason") get_string) in
          ret (Some r)
        else ret (LLMChunk.finish_reason chunk) in
      ret {| LLMChunk.content := LLMChunk.content chunk;
             LLMChunk.reasoning_content := LLMChunk.reasoning_content chunk;
             LLMChunk.tool_calls := LLMChunk.tool_calls chunk;
             LLMChunk.usage := usage;
             LLMChunk.finish_reason := finish_reason |}
  end.

(** The message [handle_http_error] reports: the [error.message] of the
    body when the body is JSON that has one, the body itself otherwise. *)
Definition error_message (body : string) : string :=
  match parse body with
  | Ok data =>
      if contains data "error" then
        match rbind (at_key data "error") (fun e =>
                if contains e "message"
                then rbind (at_key e "message") get_string
                else Ok body) with
        | Ok msg => msg
        | Throw _ => body
        end
      else body
  | Throw _ => body
  end.

Definition handle_http_error (status_code : Z) (body : string) :
    M Backend.t unit :=
  let error_msg := error_message body in
  if (status_code =? 429)%Z then
    throw (RateLimitError ("Rate limit exceeded: " +:+ error_msg))
  else if (status_code =? 403)%Z then
    throw (PermissionDeniedError ("Permission denied: " +:+ error_msg))
  else throw (APIError ("API error: " +:+ error_msg) status_code).

(** One execution of the body of [complete_with_retry].  The function
    calls itself only when [retry_count] is 0, and then with [retry_count]
    1: the recursive call is the argument [retry]. *)
Definition complete_attempt (retry : M Backend.t LLMChunk.t)
    (model : string) (messages : list Message.t)
    (generation_config : option GenerationConfig.t)
    (thinking_config : option ThinkingConfig.t)
    (tools : list Tool.t) (retry_count : Z) : M Backend.t LLMChunk.t :=
  let* headers := get_auth_headers (0 <? retry_count)%Z in
  let access_token := substr_from 7 (header "Authorization" headers) in
  let* project_id := ensure_project_id access_token in
  let url := get_api_endpoint +:+ ":generateContent" in
  let* payload :=
    lift (build_request_payload model messages generation_config
            thinking_config tools project_id) in
  let* curl := curl_easy_init in
  match curl with
  | CurlInitFailed => throw (ConnectionError "Failed to initialize CURL")
  | CurlPerformed res http_code received =>
      let* request_body := lift (dump None payload) in
      do effect (HttpPost url (header_list headers) request_body)
      then
      let response := String.concat "" received in
      if ((http_code =? 401)%Z || (http_code =? 403)%Z) &&
         (retry_count =? 0)%Z
      then
        do invalidate_credentials
        then retry
      else
        match res with
        | Some strerror => throw (ConnectionError ("CURL error: " +:+ strerror))
        | None =>
            do (if negb (http_code =? 200)%Z
                then handle_http_error (int32 http_code) response
                else ret tt)
            then
            let* data := lift (parse response) in
            parse_completion_response data
        end
  end.

Definition complete_with_retry (model : string) (messages : list Message.t)
    (generation_config : option GenerationConfig.t)
    (thinking_config : option ThinkingConfig.t)
    (tools : list Tool.t) (retry_count : Z) : M Backend.t LLMChunk.t :=
  complete_attempt
    (complete_attempt (ret LLMChunk.empty) model messages generation_config
       thinking_config tools 1)
    model messages generation_config thinking_config tools retry_count.

Definition complete (model : string) (messages : list Message.t)
    (generation_config : option GenerationConfig.t)
    (thinking_config : option ThinkingConfig.t)
    (tools : list Tool.t) : M Backend.t LLMChunk.t :=
  complete_with_retry model messages generation_config thinking_config
    tools 0.

(** *** The streaming path

    The stream callback belongs to the caller: it updates the caller's
    state [X] and cannot reach the backend.  A streaming computation runs
    on both. *)
Section Streaming.
Context {X : Type}.
Variable callback : LLMChunk.t -> X -> X.

Definition on_backend {A} (m : M Backend.t A) : M (X * Backend.t) A :=
  fun s =>
    let '(r, b) := m s.2 in
    (r, (s.1, b)).

Definition on_caller (f : X -> X) : M (X * Backend.t) unit :=
  fun s => (Ok tt, (f s.1, s.2)).

Definition is_eol (c : option ascii) : bool :=
  match c with
  | Some a => Ascii.eqb a CR || Ascii.eqb a LF
  | None => false
  end.

(** [while (!line.empty() && (line.back() == '\r' || line.back() == '\n'))
    line.pop_back();] *)
Fixpoint trim_loop (fuel : nat) (line : string) : string :=
  match fuel with
  | O => line
  | S fuel' =>
      if negb (string_empty line) && is_eol (back line)
      then trim_loop fuel' (pop_back line)
      else line
  end.

Definition trim (line : string) : string :=
  trim_loop (String.length line) line.

(** [data.find_first_not_of(" \t")]. *)
Fixpoint find_first_not_of_blank (s : string) : option nat :=
  match s with
  | EmptyString => None
  | String c s' =>
      if Ascii.eqb c SPACE || Ascii.eqb c TAB
      then S <$> find_first_not_of_blank s'
      else Some O
  end.

(** The payload of a [data:] line. *)
Definition payload_of (line : string) : string :=
  let data := substr_from 5 line in
  match find_first_not_of_blank data with
  | Some start => substr_from start data
  | None => data
  end.

(** The chunk of one frame and its delivery, inside the [try]. *)
Definition deliver (data : string) : M (X * Backend.t) unit :=
  let* parsed := lift (parse data) in
  let* response_data := lift (response_data_of parsed) in
  let* read := on_backend (read_candidate response_data) in
  let chunk :=
    match read with
    | Some (_, chunk) => chunk
    | None => LLMChunk.empty
    end in
  on_caller (callback chunk).

(** The body of the loop over complete lines. *)
Definition sse_line (line : string) : M (X * Backend.t) unit :=
  let line := trim line in
  if string_empty line || bool_decide (front line = Some ":"%char)
  then ret tt
  else if starts_with "data:" line then
    let data := payload_of line in
    if String.eqb data "[DONE]" then ret tt
    else catch (deliver data) (fun _ => ret tt)
  else ret tt.

(** [while ((pos = buf->find('\n')) != std::string::npos) ...]; the
    result is what stays in the buffer. *)
Fixpoint drain (fuel : nat) (buf : string) : M (X * Backend.t) string :=
  match fuel with
  | O => ret buf
  | S fuel' =>
      match find_char LF buf with
      | None => ret buf
      | Some pos =>
          let line := substr_to pos buf in
          let buf := substr_from (pos + 1) buf in
          do sse_line line
          then drain fuel' buf
      end
  end.

(** The write callback [stream_write] on one piece of received bytes. *)
Definition stream_write (buf contents : string) :
    M (X * Backend.t) string :=
  let buf := buf +:+ contents in
  drain (String.length buf) buf.

(** [curl_easy_perform] feeding the pieces to [stream_write]. *)
Fixpoint perform_stream (buf : string) (received : list string) :
    M (X * Backend.t) string :=
  match received with
  | [] => ret buf
  | contents :: rest =>
      let* buf := stream_write buf contents in
      perform_stream buf rest
  end.

(** The lines of the stream, for the properties: the complete lines of a
    text, each without its line feed, and what follows the last line
    feed. *)
Fixpoint lines_of (s : string) : list string * string :=
  match s with
  | EmptyString => ([], EmptyString)
  | String c s' =>
      let '(ls, r) := lines_of s' in
      if Ascii.eqb c LF then (EmptyString :: ls, r)
      else
        match ls with
        | [] => ([], String c r)
        | l :: ls' => (String c l :: ls', r)
        end
  end.

(** The loop body run on some lines, one after the other. *)
Fixpoint sse_lines (ls : list string) : M (X * Backend.t) unit :=
  match ls with
  | [] => ret tt
  | line :: rest =>
      do sse_line line
      then sse_lines rest
  end.

(** The loop body run on the complete lines of a text; the result is the
    text after its last line feed. *)
Definition feed (text : string) : M (X * Backend.t) string :=
  do sse_lines (lines_of text).1
  then ret (lines_of text).2.

Definition complete_streaming_attempt (retry : M (X * Backend.t) unit)
    (model : string) (messages : list Message.t)
    (generation_config : option GenerationConfig.t)
    (thinking_config : option ThinkingConfig.t)
    (tools : list Tool.t) (retry_count : Z) : M (X * Backend.t) unit :=
  let* headers := on_backend (get_auth_headers (0 <? retry_count)%Z) in
  let access_token := substr_from 7 (header "Authorization" headers) in
  let* project_id := on_backend (ensure_project_id access_token) in
  let url := get_api_endpoint +:+ ":streamGenerateContent?alt=sse" in
  let* payload :=
    lift (build_request_payload model messages generation_config
            thinking_config tools project_id) in
  let* curl := on_backend curl_easy_init in
  match curl with
  | CurlInitFailed => throw (ConnectionError "Failed to initialize CURL")
  | CurlPerformed res http_code received =>
      let* request_body := lift (dump None payload) in
      do on_backend (effect (HttpPost url (header_list headers) request_body))
      then
      let* buffer := perform_stream "" received in
      if ((http_code =? 401)%Z || (http_code =? 403)%Z) &&
         (retry_count =? 0)%Z
      then
        do on_backend invalidate_credentials
        then retry
      else
        match res with
        | Some strerror =>
            throw (ConnectionError ("CURL error: " +:+ strerror))
        | None =>
            if negb (http_code =? 200)%Z
            then on_backend (handle_http_error (int32 http_code) buffer)
            else ret tt
        end
  end.

Definition complete_streaming_with_retry (model : string)
    (messages : list Message.t)
    (generation_config : option GenerationConfig.t)
    (thinking_config : option ThinkingConfig.t)
    (tools : list Tool.t) (retry_count : Z) : M (X * Backend.t) unit :=
  complete_streaming_attempt
    (complete_streaming_attempt (ret tt) model messages generation_config
       thinking_config tools 1)
    model messages generation_config thinking_config tools retry_count.

Definition complete_streaming (model : string)
    (messages : list Message.t)
    (generation_config : option GenerationConfig.t)
    (thinking_config : option ThinkingConfig.t)
    (tools : list Tool.t) : M (X * Backend.t) unit :=
  complete_streaming_with_retry model messages generation_config
    thinking_config tools 0.
End Streaming.


(** ** Session ([session.cpp]): one turn *)

(** A turn runs on the session's host and on the backend the session
    shares. *)
Definition host_do (f : Host.t -> Host.t) : M (Host.t * Backend.t) unit :=
  fun s => (Ok tt, (f s.1, s.2)).

Definition backend_do {A} (m : M Backend.t A) : M (Host.t * Backend.t) A :=
  fun s =>
    let '(r, b) := m s.2 in
    (r, (s.1, b)).

Definition the_session : M (Host.t * Backend.t) Session.t :=
  gets (fun s => Host.session s.1).

(** [std::cerr << line << std::endl]. *)
Definition cerr (line : string) : M (Host.t * Backend.t) unit :=
  backend_do (effect (Stderr line)).

(** The arguments of an invocation: the members of the call's argument
    object, nothing when the arguments are no object. *)
Definition invocation_arguments (arguments : json) : gmap string json :=
  match arguments with
  | JObject m => fold_left (fun acc kv => <[kv.1 := kv.2]> acc) m ∅
  | _ => ∅
  end.

(** The body of the loop of [handle_tool_calls].  The [try] around the
    handler catches [const std::exception&] only: any other thrown value
    leaves the loop, after the [ToolCall] event and before any result. *)
Definition handle_tool_call (tc : ToolCall.t) : M (Host.t * Backend.t) unit :=
  let tool_name := FunctionCall.name (ToolCall.function tc) in
  let arguments := FunctionCall.arguments (ToolCall.function tc) in
  do host_do (emit EventType.ToolCall
                (obj [ ("name", JString tool_name);
                       ("arguments", arguments);
                       ("callId", JString (ToolCall.id tc)) ]))
  then
  let* s := the_session in
  match Session.tool_handlers_ s !! tool_name with
  | None =>
      do cerr ("Warning: No handler for tool: " +:+ tool_name)
      then
      host_do (push_back_message
                 (tool_message ("Error: Tool '" +:+ tool_name +:+ "' not found")
                    tool_name (ToolCall.id tc)))
  | Some handler =>
      let invocation :=
        {| ToolInvocation.name := tool_name;
           ToolInvocation.arguments := invocation_arguments arguments;
           ToolInvocation.call_id := ToolCall.id tc |} in
      match handler invocation with
      | inl result =>
          let result_text :=
            default "Success" (ToolResult.text_result_for_llm result) in
          do host_do (emit EventType.ToolResult
                        (obj [ ("name", JString tool_name);
                               ("callId", JString (ToolCall.id tc));
                               ("result", JString result_text) ]))
          then
          host_do (push_back_message
                     (tool_message result_text tool_name (ToolCall.id tc)))
      | inr OtherThrown => throw NonStdException
      | inr (StdException e_what) =>
          let error_msg_str :=
            "Error executing tool '" +:+ tool_name +:+ "': " +:+ e_what in
          do cerr error_msg_str
          then
          do host_do (emit EventType.ToolResult
                        (obj [ ("name", JString tool_name);
                               ("callId", JString (ToolCall.id tc));
                               ("error", JString error_msg_str) ]))
          then
          host_do (push_back_message
                     (tool_message error_msg_str tool_name (ToolCall.id tc)))
      end
  end.

Fixpoint handle_tool_calls (tool_calls : list ToolCall.t) :
    M (Host.t * Backend.t) unit :=
  match tool_calls with
  | [] => ret tt
  | tc :: rest =>
      do handle_tool_call tc
      then handle_tool_calls rest
  end.

Definition tool_call_json (tc : ToolCall.t) : json :=
  obj [ ("id", JString (ToolCall.id tc));
        ("type", JString (ToolCall.type tc));
        ("function",
         obj [ ("name", JString (FunctionCall.name (ToolCall.function tc)));
               ("arguments", FunctionCall.arguments (ToolCall.function tc)) ]) ].

Definition usage_json (usage : LLMUsage.t) : json :=
  obj [ ("promptTokens", JInt (LLMUsage.prompt_tokens usage));
        ("completionTokens", JInt (LLMUsage.completion_tokens usage));
        ("totalTokens", JInt (LLMUsage.total_tokens usage)) ].

(** The payload of the [AssistantMessage] event. *)
Definition msg_data (content : string) (tool_calls : list ToolCall.t)
    (usage : option LLMUsage.t) : json :=
  let m := smap_of_list [("content", JString content)] in
  let m :=
    if bool_decide (tool_calls ≠ [])
    then smap_insert "toolCalls" (JArray (tool_call_json <$> tool_calls)) m
    else m in
  JObject (set_opt "usage" usage_json usage m).

Definition assistant_message (content : string)
    (tool_calls : list ToolCall.t) : Message.t :=
  {| Message.role := Role.Assistant; Message.content := content;
     Message.parts := []; Message.name := None;
     Message.tool_calls := tool_calls; Message.tool_call_id := None |}.

(** What follows the provider call in both [stream_response] and
    [get_response]; [reasoning] is the text of the [AssistantReasoning]
    event, if one is due. *)
Definition finish_turn (content : string) (reasoning : option string)
    (tool_calls : list ToolCall.t) (usage : option LLMUsage.t) :
    M (Host.t * Backend.t) unit :=
  do (if bool_decide (tool_calls ≠ []) then handle_tool_calls tool_calls
      else ret tt)
  then
  do host_do (push_back_message (assistant_message content tool_calls))
  then
  do match reasoning with
     | Some text =>
         host_do (emit EventType.AssistantReasoning
                    (obj [("content", JString text)]))
     | None => ret tt
     end
  then
  do host_do (emit EventType.AssistantMessage
                (msg_data content tool_calls usage))
  then host_do (emit EventType.SessionIdle JNull).

Definition get_response : M (Host.t * Backend.t) unit :=
  let* s := the_session in
  let msgs := Session.messages_ s in
  let current_tools := Session.tools_ s in
  let* chunk :=
    backend_do
      (complete (Session.model_ s) msgs (Session.generation_config_ s)
         (Session.thinking_config_ s) current_tools) in
  finish_turn (LLMChunk.content chunk) (LLMChunk.reasoning_content chunk)
    (LLMChunk.tool_calls chunk) (LLMChunk.usage chunk).

(** The lambda handed to [complete_streaming]. *)
Definition on_chunk (chunk : LLMChunk.t) (x : Captured.t * Host.t) :
    Captured.t * Host.t :=
  let '(c, h) := x in
  let '(full_content, h) :=
    if negb (string_empty (LLMChunk.content chunk)) then
      let full_content := Captured.full_content c +:+ LLMChunk.content chunk in
      (full_content,
       emit EventType.AssistantMessageDelta
         (obj [ ("deltaContent", JString (LLMChunk.content chunk));
                ("content", JString full_content) ]) h)
    else (Captured.full_content c, h) in
  let '(full_reasoning, h) :=
    match LLMChunk.reasoning_content chunk with
    | Some reasoning =>
        let full_reasoning := Captured.full_reasoning c +:+ reasoning in
        (full_reasoning,
         emit EventType.AssistantReasoningDelta
           (obj [ ("deltaContent", JString reasoning);
                  ("content", JString full_reasoning) ]) h)
    | None => (Captured.full_reasoning c, h)
    end in
  ({| Captured.full_content := full_content;
      Captured.full_reasoning := full_reasoning;
      Captured.all_tool_calls :=
        Captured.all_tool_calls c ++ LLMChunk.tool_calls chunk;
      Captured.final_usage :=
        match LLMChunk.usage chunk with
        | Some u => Some u
        | None => Captured.final_usage c
        end |}, h).

(** Run a streaming computation with fresh captured variables and hand
    them back when it returns. *)
Definition capturing {A} (m : M ((Captured.t * Host.t) * Backend.t) A) :
    M (Host.t * Backend.t) (A * Captured.t) :=
  fun s =>
    let c0 :=
      {| Captured.full_content := ""; Captured.full_reasoning := "";
         Captured.all_tool_calls := []; Captured.final_usage := None |} in
    match m ((c0, s.1), s.2) with
    | (Ok a, (x, b)) => (Ok (a, x.1), (x.2, b))
    | (Throw e, (x, b)) => (Throw e, (x.2, b))
    end.

Definition stream_response : M (Host.t * Backend.t) unit :=
  let* s := the_session in
  let msgs := Session.messages_ s in
  let current_tools := Session.tools_ s in
  let* streamed :=
    capturing
      (complete_streaming on_chunk (Session.model_ s) msgs (Session.generation_config_ s)
         (Session.thinking_config_ s) current_tools) in
  let c := streamed.2 in
  finish_turn (Captured.full_content c)
    (if negb (string_empty (Captured.full_reasoning c))
     then Some (Captured.full_reasoning c) else None)
    (Captured.all_tool_calls c) (Captured.final_usage c).

Definition user_content (options : MessageOptions.t) : string :=
  match MessageOptions.context options with
  | Some context =>
      context +:+ String LF (String LF "") +:+ MessageOptions.prompt options
  | None => MessageOptions.prompt options
  end.

Definition send (options : MessageOptions.t) : M (Host.t * Backend.t) unit :=
  let* s := the_session in
  if Session.closed_ s then throw (SessionClosedError (Session.session_id_ s))
  else
    let user_message := plain_message Role.User (user_content options) in
    let* now := backend_do current_time_ms in
    do host_do (fun h =>
         with_session (with_modified_time now) (push_back_message user_message h))
    then
    catch_std
      (let* s := the_session in
       if Session.streaming_ s then stream_response else get_response)
      (fun e =>
         do host_do (emit EventType.SessionError
                       (obj [("error", JString (what e))]))
         then throw e).

(** ** Vocabulary of the properties *)

(** The URLs of the requests among some effects, in order. *)
Definition posted_urls (l : list Effect) : list string :=
  omap (fun e => match e with HttpPost url _ _ => Some url | _ => None end) l.

(** An answer of [onboardUser] that says the operation is still running:
    status 200 and a body whose [done] is false or absent. *)
Definition still_running (o : CurlOutcome) : Prop :=
  exists (received : list string) (lro_data : json),
    o = CurlPerformed None 200 received /\
    json_parse (String.concat "" received) = Some lro_data /\
    value_bool lro_data "done" false = Ok false.

(** The request body of [onboard_for_project]. *)
Definition onboard_request_body (env_project_id tier_id : string) : string :=
  json_dump None
    (if String.eqb tier_id "free-tier" then
       obj [ ("tierId", JString tier_id);
             ("cloudaicompanionProject", JNull);
             ("metadata", client_metadata env_project_id) ]
     else
       obj [ ("tierId", JString tier_id);
             ("cloudaicompanionProject", JString env_project_id);
             ("metadata", client_metadata env_project_id) ]).

(** The completion request sent with [headers] for [payload]. *)
Definition completion_request (headers : smap string) (payload : json) :
    Effect :=
  HttpPost (get_api_endpoint +:+ ":generateContent") (header_list headers)
    (json_dump None payload).

(** The state after the transfer of a completion request. *)
Definition after_request (headers : smap string) (payload : json)
    (rest : list CurlOutcome) (b : Backend.t) : Backend.t :=
  with_world (record_effect (completion_request headers payload))
    (with_world (with_net rest) b).


(** The event [emit] builds on host [h]. *)
Definition session_event (h : Host.t) (event_type : EventType.t)
    (data : json) : SessionEvent.t :=
  {| SessionEvent.event_type := event_type; SessionEvent.data := data;
     SessionEvent.session_id := Session.session_id_ (Host.session h) |}.

(** Some events handed, one after the other, to each of some handlers. *)
Definition broadcast (handlers : list EventHandler)
    (events : list SessionEvent.t) : list (EventHandler * SessionEvent.t) :=
  events ≫= fun event => (fun handler => (handler, event)) <$> handlers.

(** From [h] to [h'] the registered handlers were handed [events], in this
    order, and the registrations, the identifier and the open or closed
    state of the session stayed as they were. *)
Definition emitted (events : list SessionEvent.t) (h h' : Host.t) : Prop :=
  Session.event_handlers_ (Host.session h') =
    Session.event_handlers_ (Host.session h) /\
  Session.tool_handlers_ (Host.session h') =
    Session.tool_handlers_ (Host.session h) /\
  Session.session_id_ (Host.session h') =
    Session.session_id_ (Host.session h) /\
  Session.closed_ (Host.session h') = Session.closed_ (Host.session h) /\
  Host.received h' =
    Host.received h ++
    broadcast (Session.event_handlers_ (Host.session h)) events.

Definition kinds (events : list SessionEvent.t) : list EventType.t :=
  SessionEvent.event_type <$> events.

(** The kinds of the events of one tool call: the call, and its result when
    a handler is registered for the tool. *)
Definition tool_call_kinds (tool_handlers : gmap string ToolHandler)
    (tc : ToolCall.t) : list EventType.t :=
  match tool_handlers !! FunctionCall.name (ToolCall.function tc) with
  | Some _ => [EventType.ToolCall; EventType.ToolResult]
  | None => [EventType.ToolCall]
  end.

(** The name and the call the message [msg] answers. *)
Definition answers (msg : Message.t) : option string * option string :=
  (Message.name msg, Message.tool_call_id msg).

(** The name and the id a message that answers the call [tc] carries. *)
Definition asked_by (tc : ToolCall.t) : option string * option string :=
  (Some (FunctionCall.name (ToolCall.function tc)), Some (ToolCall.id tc)).

(** The invocation the session hands the handler of the call [tc]. *)
Definition invocation_of (tc : ToolCall.t) : ToolInvocation.t :=
  {| ToolInvocation.name := FunctionCall.name (ToolCall.function tc);
     ToolInvocation.arguments :=
       invocation_arguments (FunctionCall.arguments (ToolCall.function tc));
     ToolInvocation.call_id := ToolCall.id tc |}.

(** The handler registered for the call [tc] throws a value that is no
    [std::exception]. *)
Definition escapes (tool_handlers : gmap string ToolHandler)
    (tc : ToolCall.t) : bool :=
  match tool_handlers !! FunctionCall.name (ToolCall.function tc) with
  | Some handler =>
      match handler (invocation_of tc) with
      | inr OtherThrown => true
      | _ => false
      end
  | None => false
  end.

(** The calls before the first one whose handler's throw escapes. *)
Fixpoint handled (tool_handlers : gmap string ToolHandler)
    (tool_calls : list ToolCall.t) : list ToolCall.t :=
  match tool_calls with
  | [] => []
  | tc :: rest =>
      if escapes tool_handlers tc then []
      else tc :: handled tool_handlers rest
  end.

(** The first call whose handler's throw escapes, if there is one. *)
Definition left_at (tool_handlers : gmap string ToolHandler)
    (tool_calls : list ToolCall.t) : option ToolCall.t :=
  List.find (escapes tool_handlers) tool_calls.


(** The backend [b] after the lines [lines] went to the error stream and
    nothing else happened to it. *)
Definition wrote_to_stderr (lines : list string) (b : Backend.t) : Backend.t :=
  fold_left (fun b line => with_world (record_effect (Stderr line)) b) lines b.

(** Every run of the streaming computation [m] relates the caller's state
    before it to the caller's state after it by [R]. *)
Definition keeps {X A : Type} (R : X -> X -> Prop)
    (m : M (X * Backend.t) A) : Prop :=
  forall (st st' : X * Backend.t) (r : result A),
    m st = (r, st') -> R st.1 st'.1.

Definition is_delta (k : EventType.t) : Prop :=
  k = EventType.AssistantMessageDelta \/ k = EventType.AssistantReasoningDelta.

(** From [x] to [x'] the handlers were handed delta events only, and the
    transcript stayed as it was. *)
Definition streamed (x x' : Captured.t * Host.t) : Prop :=
  exists events : list SessionEvent.t,
    emitted events x.2 x'.2 /\
    Forall is_delta (kinds events) /\
    Session.messages_ (Host.session x'.2) =
      Session.messages_ (Host.session x.2).

(** A string read against a pattern: one test per character. *)
Fixpoint matches (pattern : list (ascii -> bool)) (s : string) : bool :=
  match pattern, s with
  | [], EmptyString => true
  | p :: pattern', String c s' => p c && matches pattern' s'
  | _, _ => false
  end.

Definition one_of (chars : string) (c : ascii) : bool :=
  existsb (Ascii.eqb c) (list_ascii_of_string chars).

Definition is_hex : ascii -> bool := one_of "0123456789abcdef".

(** The shape [xxxxxxxx-xxxx-4xxx-yxxx-xxxxxxxxxxxx] of a version 4
    identifier: [x] a lower-case hexadecimal digit, [y] one of 8, 9, a, b. *)
Definition uuid_v4 : list (ascii -> bool) :=
  replicate 8 is_hex ++ [one_of "-"] ++
  replicate 4 is_hex ++ [one_of "-"; one_of "4"] ++
  replicate 3 is_hex ++ [one_of "-"] ++
  [one_of "89ab"] ++ replicate 3 is_hex ++ [one_of "-"] ++
  replicate 12 is_hex.

(** Base64 written group by group: three octets give four characters, a
    last group of one octet gives two characters and [==], a last group of
    two octets gives three characters and [=]. *)
Fixpoint encode_padded (data : list byte) : string :=
  match data with
  | [] => ""
  | [a] => substr_to 2 (sextets (octet a) 0 0) +:+ "=="
  | [a; b] => substr_to 3 (sextets (octet a) (octet b) 0) +:+ "="
  | a :: b :: c :: rest =>
      sextets (octet a) (octet b) (octet c) +:+ encode_padded rest
  end.

(** A call that changes a registry. *)
Inductive RegistryCall : Type :=
  | RegisterTool (tool : Tool.t) (handler : ToolHandler)
  | Unregister (name : string).

Definition registry_call (r : ToolRegistry.t) (call : RegistryCall) :
    ToolRegistry.t :=
  match call with
  | RegisterTool tool handler => register_tool tool handler r
  | Unregister name => unregister name r
  end.

(** The registration of [name] in force after [calls], when [current] was
    in force before them: the last [register_tool] of a tool of that name,
    unless an [unregister] of the name came after it. *)
Fixpoint in_force (name : string) (calls : list RegistryCall)
    (current : option (Tool.t * ToolHandler)) :
    option (Tool.t * ToolHandler) :=
  match calls with
  | [] => current
  | RegisterTool tool handler :: rest =>
      in_force name rest
        (if String.eqb (Tool.name tool) name then Some (tool, handler)
         else current)
  | Unregister name' :: rest =>
      in_force name rest (if String.eqb name' name then None else current)
  end.

(** The declaration of a tool defined with the builder. *)
Definition declaration (name description : string)
    (builder : ToolParametersBuilder.t) : json :=
  obj [ ("name", JString name);
        ("description", JString description);
        ("parameters",
         obj [ ("type", JString "object");
               ("properties",
                JObject (ToolParametersBuilder.properties_ builder));
               ("required",
                JArray (JString <$> ToolParametersBuilder.required_ builder))
             ]) ].

(** The text a content delta carries. *)
Definition delta_text (event : SessionEvent.t) : option string :=
  match SessionEvent.event_type event with
  | EventType.AssistantMessageDelta =>
      match at_key (SessionEvent.data event) "deltaContent" with
      | Ok (JString text) => Some text
      | _ => None
      end
  | _ => None
  end.

Definition delta_texts (events : list SessionEvent.t) : list string :=
  omap delta_text events.

(** From [x] to [x'] the handlers were handed delta events only, the
    transcript stayed as it was, and the captured content grew by the texts
    of the content deltas. *)
Definition accumulated (x x' : Captured.t * Host.t) : Prop :=
  exists events : list SessionEvent.t,
    emitted events x.2 x'.2 /\
    Forall is_delta (kinds events) /\
    Session.messages_ (Host.session x'.2) =
      Session.messages_ (Host.session x.2) /\
    Captured.full_content x'.1 =
      Captured.full_content x.1 +:+ String.concat "" (delta_texts events).

(** A content part that adds nothing to the payload: no text, and no image
    that has both its data and its type. *)
Definition part_is_empty (part : ContentPart.t) : Prop :=
  ContentPart.text part = None /\
  (ContentPart.image_data part = None \/
   ContentPart.image_mime_type part = None).

(** A message that adds nothing to the payload. *)
Definition message_is_empty (msg : Message.t) : Prop :=
  Message.content msg = "" /\
  Forall part_is_empty (Message.parts msg) /\
  Message.tool_calls msg = [] /\
  Message.tool_call_id msg = None.
(* ===================================================================== *)
(** * Part II. Properties                                                 *)
(* ===================================================================== *)

(** ** Machine integers *)

Lemma wrap_small (w x : Z) :
  (1 <= w)%Z -> (- 2 ^ (w - 1) <= x < 2 ^ (w - 1))%Z -> wrap w x = x.
Proof.
  intros Hw Hx. unfold wrap.
  assert (H2 : (2 ^ w = 2 * 2 ^ (w - 1))%Z).
  { replace w with (Z.succ (w - 1)) at 1 by lia. apply Z.pow_succ_r. lia. }
  rewrite Z.mod_small; lia.
Qed.

Lemma int64_small (x : Z) : in_int64 x -> int64 x = x.
Proof. intros Hx. apply wrap_small; [lia | exact Hx]. Qed.

(** ** Credentials: the persisted form *)

Lemma to_json_members (c : GeminiOAuthCredentials.t) :
  GeminiOAuthCredentials.to_json c =
  JObject
    [ ("access_token", JString (GeminiOAuthCredentials.access_token c));
      ("expiry_date", JInt (GeminiOAuthCredentials.expiry_date c));
      ("refresh_token", JString (GeminiOAuthCredentials.refresh_token c));
      ("token_type", JString (GeminiOAuthCredentials.token_type c)) ].
Proof. destruct c. vm_compute. reflexivity. Qed.

(** C9. A credential written with [to_json] and read back with [from_json]
    is the credential itself, in all four fields: the access token, the
    refresh token, the token type and the expiry date (an [int64_t]). *)
Theorem credentials_json_roundtrip (c : GeminiOAuthCredentials.t) :
  in_int64 (GeminiOAuthCredentials.expiry_date c) ->
  GeminiOAuthCredentials.from_json (GeminiOAuthCredentials.to_json c) = Ok c.
Proof.
  intros Hrange. rewrite to_json_members.
  destruct c as [at_ rt tt_ ed]. simpl in Hrange.
  unfold GeminiOAuthCredentials.from_json. cbn.
  fold (int64 ed). rewrite int64_small by exact Hrange. reflexivity.
Qed.

(** ** The provider payload *)

Lemma push_message_app (result : list json) (msg : Message.t) :
  push_message result msg = result ++ push_message [] msg.
Proof.
  unfold push_message. case_bool_decide; [by rewrite app_nil_r | done].
Qed.

Lemma fold_push_message (messages : list Message.t) (result : list json) :
  fold_left push_message messages result =
  result ++ mjoin (push_message [] <$> messages).
Proof.
  revert result. induction messages as [|msg messages IH]; intros result.
  - by rewrite app_nil_r.
  - cbn [fold_left fmap list_fmap mjoin list_join].
    rewrite IH, push_message_app, <- app_assoc. reflexivity.
Qed.

Lemma entry_members (role parts : json) :
  obj [("role", role); ("parts", parts)] =
  JObject [("parts", parts); ("role", role)].
Proof. vm_compute. reflexivity. Qed.

Lemma push_part_extends (content_parts : list json) (part : ContentPart.t) :
  exists more : list json,
    push_part content_parts part = content_parts ++ more /\
    (more = [] <-> part_is_empty part).
Proof.
  unfold push_part, part_is_empty.
  destruct (ContentPart.text part) as [text|],
    (ContentPart.image_data part) as [image_data|],
    (ContentPart.image_mime_type part) as [image_mime_type|].
  1: eexists [_; _]; rewrite <- app_assoc.
  2, 3, 4, 5: eexists [_].
  6, 7, 8: exists []; rewrite app_nil_r.
  all: split; [reflexivity |]; split; try done.
  all: try (intros [? [?|?]]; discriminate).
  all: try (intros _; split; [reflexivity |]; by (left + right)).
Qed.

Lemma fold_push_part_extends (parts : list ContentPart.t)
    (content_parts : list json) :
  exists more : list json,
    fold_left push_part parts content_parts = content_parts ++ more /\
    (more = [] <-> Forall part_is_empty parts).
Proof.
  revert content_parts. induction parts as [|part parts IH];
    intros content_parts; cbn [fold_left].
  - exists []. rewrite app_nil_r. split; [done |]. split; by constructor.
  - destruct (push_part_extends content_parts part) as (m1 & -> & H1).
    destruct (IH (content_parts ++ m1)) as (m2 & -> & H2).
    exists (m1 ++ m2). rewrite app_assoc. split; [done |].
    rewrite Forall_cons, <- H1, <- H2. split.
    + by intros [-> ->]%app_eq_nil.
    + by intros [-> ->].
Qed.

Lemma fold_push_tool_call_extends (tool_calls : list ToolCall.t)
    (content_parts : list json) :
  exists more : list json,
    fold_left push_tool_call tool_calls content_parts = content_parts ++ more /\
    (more = [] <-> tool_calls = []).
Proof.
  revert content_parts. induction tool_calls as [|tc tool_calls IH];
    intros content_parts; cbn [fold_left].
  - exists []. by rewrite app_nil_r.
  - destruct (IH (push_tool_call content_parts tc)) as (m & -> & _).
    unfold push_tool_call. eexists (_ :: m). rewrite <- app_assoc.
    split; [reflexivity |]. by split.
Qed.

(** The parts of a message start with its text, when it has one, and are
    none exactly when the message is empty. *)
Lemma content_parts_of_shape (msg : Message.t) :
  exists more : list json,
    content_parts_of msg =
      (if negb (string_empty (Message.content msg))
       then [obj [("text", JString (Message.content msg))]] else []) ++ more /\
    (content_parts_of msg = [] <-> message_is_empty msg).
Proof.
  unfold content_parts_of, message_is_empty.
  set (first := if negb (string_empty (Message.content msg)) then _ else _).
  destruct (fold_push_part_extends (Message.parts msg) first)
    as (m1 & -> & H1).
  destruct (fold_push_tool_call_extends (Message.tool_calls msg)
              (first ++ m1)) as (m2 & -> & H2).
  assert (Hfirst : first = [] <-> Message.content msg = "").
  { subst first. destruct (Message.content msg); by split. }
  destruct (Message.tool_call_id msg) as [id|].
  - eexists (m1 ++ m2 ++ [_]). rewrite <- !app_assoc.
    split; [reflexivity |]. split.
    + intros H. apply app_eq_nil in H as [_ H].
      apply app_eq_nil in H as [_ H]. apply app_eq_nil in H as [_ H].
      discriminate.
    + by intros (_ & _ & _ & ?).
  - exists (m1 ++ m2). rewrite <- !app_assoc. split; [reflexivity |].
    rewrite <- Hfirst, <- H1, <- H2. split.
    + intros H. apply app_eq_nil in H as [-> H].
      by apply app_eq_nil in H as [-> ->].
    + by intros (-> & -> & -> & _).
Qed.

(** C10. [prepare_messages] turns the messages, in order, into at most one
    entry each.  A message that is empty (an empty content, no tool calls,
    no tool_call_id, and no part that carries a text or a typed image) has
    no entry at all.  Every other message has exactly one entry, whose
    provider role is "model" when the message's role is Assistant and
    "user" when it is User or System, and whose parts are not empty; when
    the message has a content, its text is the first of the parts. *)
Theorem prepare_messages_roles (messages : list Message.t) :
  prepare_messages messages = JArray (mjoin (push_message [] <$> messages)) /\
  forall msg : Message.t,
    (message_is_empty msg -> push_message [] msg = []) /\
    (~ message_is_empty msg ->
     content_parts_of msg <> [] /\
     push_message [] msg =
       [JObject
          [ ("parts", JArray (content_parts_of msg));
            ("role",
             JString match Message.role msg with
                     | Role.Assistant => "model"
                     | Role.User => "user"
                     | Role.System => "user"
                     end) ]]) /\
    (Message.content msg <> "" ->
     exists rest : list json,
       content_parts_of msg =
         JObject [("text", JString (Message.content msg))] :: rest) /\
    (Message.content msg = "" -> Message.parts msg = [] ->
     Message.tool_calls msg = [] -> Message.tool_call_id msg = None ->
     push_message [] msg = []).
Proof.
  split.
  - unfold prepare_messages. by rewrite fold_push_message.
  - intros msg.
    destruct (content_parts_of_shape msg) as (more & Hshape & Hnil).
    split; [|split; [|split]].
    + intros Hempty. apply Hnil in Hempty.
      unfold push_message. by rewrite Hempty.
    + intros Hfull.
      assert (Hparts : content_parts_of msg <> [])
        by (intros H; by apply Hfull, Hnil).
      split; [exact Hparts |].
      unfold push_message. rewrite bool_decide_eq_false_2 by exact Hparts.
      rewrite entry_members. cbn [app]. by destruct (Message.role msg).
    + intros Hcontent. exists more. rewrite Hshape.
      destruct (Message.content msg); [done | reflexivity].
    + intros Hc Hp Ht Hi. unfold push_message, content_parts_of.
      rewrite Hc, Hp, Ht, Hi. reflexivity.
Qed.

(** ** The status-to-error mapping *)

Lemma handle_http_error_throws (status_code : Z) (body : string)
    (b : Backend.t) :
  handle_http_error status_code body b =
  (Throw
     (if (status_code =? 429)%Z then
        RateLimitError ("Rate limit exceeded: " +:+ error_message body)
      else if (status_code =? 403)%Z then
        PermissionDeniedError ("Permission denied: " +:+ error_message body)
      else APIError ("API error: " +:+ error_message body) status_code),
   b).
Proof.
  unfold handle_http_error.
  destruct (status_code =? 429)%Z; [reflexivity |].
  destruct (status_code =? 403)%Z; reflexivity.
Qed.

(** C8, at status 404.  [handle_http_error] has no case for 404: the status
    falls to the default of the switch and the error raised is the generic
    [APIError] carrying 404, not the [NotFoundError] that [errors.hpp]
    declares for this status. *)
Theorem handle_http_error_404 (body : string) (b : Backend.t) :
  handle_http_error 404 body b =
  (Throw (APIError ("API error: " +:+ error_message body) 404), b) /\
  forall message : string,
    (handle_http_error 404 body b).1 <> Throw (NotFoundError message).
Proof.
  rewrite handle_http_error_throws. cbn. split; [reflexivity | discriminate].
Qed.

(** ** The token manager *)

Lemma is_token_valid_eq (c : GeminiOAuthCredentials.t) (b : Backend.t) :
  is_token_valid c b =
  (Ok (negb (GeminiOAuthCredentials.expiry_date c =? 0)%Z &&
       (World.now (Backend.world b) <?
        int64 (GeminiOAuthCredentials.expiry_date c - TOKEN_REFRESH_BUFFER_MS))%Z),
   b).
Proof.
  unfold is_token_valid.
  destruct (GeminiOAuthCredentials.expiry_date c =? 0)%Z; reflexivity.
Qed.

(** With a cached credential and no forced refresh, [ensure_authenticated]
    is decided by [is_token_valid] alone. *)
Lemma ensure_authenticated_cached (c : GeminiOAuthCredentials.t)
    (b : Backend.t) :
  credentials_ b = Some c ->
  ensure_authenticated false b =
  if negb (GeminiOAuthCredentials.expiry_date c =? 0)%Z &&
     (World.now (Backend.world b) <?
      int64 (GeminiOAuthCredentials.expiry_date c - TOKEN_REFRESH_BUFFER_MS))%Z
  then (Ok (GeminiOAuthCredentials.access_token c), b)
  else
    (let* n := refresh_access_token c in
     do modify (with_credentials (Some n))
     then ret (GeminiOAuthCredentials.access_token n)) b.
Proof.
  intros Hc. unfold ensure_authenticated, bind at 1, gets at 1.
  rewrite Hc. unfold bind at 1, ret at 1. unfold bind at 1, bind at 1.
  rewrite is_token_valid_eq. unfold ret at 1.
  destruct (_ && _); cbn [negb]; unfold bind, ret; [reflexivity |].
  destruct (refresh_access_token c b) as [[n|e] b']; reflexivity.
Qed.

(** C3. A cached credential whose expiry lies more than the five-minute
    buffer after the current time is still valid: [ensure_authenticated]
    without a forced refresh returns its access token and leaves the whole
    state as it was, so no request is sent, no file is written and the
    cached credential is not touched.  The clock shows a time after the
    epoch. *)
Theorem valid_token_returned_unchanged (c : GeminiOAuthCredentials.t)
    (b : Backend.t) :
  credentials_ b = Some c ->
  in_int64 (GeminiOAuthCredentials.expiry_date c) ->
  (0 <= World.now (Backend.world b))%Z ->
  (GeminiOAuthCredentials.expiry_date c - World.now (Backend.world b) >
   TOKEN_REFRESH_BUFFER_MS)%Z ->
  ensure_authenticated false b =
  (Ok (GeminiOAuthCredentials.access_token c), b).
Proof.
  intros Hc Hrange Hnow Hvalid.
  rewrite (ensure_authenticated_cached c b Hc).
  unfold in_int64, TOKEN_REFRESH_BUFFER_MS in *.
  rewrite int64_small by (unfold in_int64, TOKEN_REFRESH_BUFFER_MS; lia).
  replace (GeminiOAuthCredentials.expiry_date c =? 0)%Z with false
    by (symmetry; apply Z.eqb_neq; lia).
  replace (World.now (Backend.world b) <?
           GeminiOAuthCredentials.expiry_date c - 5 * 60 * 1000)%Z with true
    by (symmetry; apply Z.ltb_lt; lia).
  reflexivity.
Qed.

(** *** Running a computation step by step *)

Lemma bind_ok {S A B} (m : M S A) (k : A -> M S B) (s s' : S) (a : A) :
  m s = (Ok a, s') -> bind m k s = k a s'.
Proof. intros H. unfold bind. by rewrite H. Qed.

Lemma bind_throw {S A B} (m : M S A) (k : A -> M S B) (s s' : S) (e : error) :
  m s = (Throw e, s') -> bind m k s = (Throw e, s').
Proof. intros H. unfold bind. by rewrite H. Qed.

Lemma string_empty_false (s : string) : s <> "" -> string_empty s = false.
Proof. by destruct s. Qed.

Lemma string_empty_true (s : string) : string_empty s = true -> s = "".
Proof. by destruct s. Qed.

Lemma curl_easy_init_next (b : Backend.t) (o : CurlOutcome)
    (rest : list CurlOutcome) :
  World.net (Backend.world b) = o :: rest ->
  curl_easy_init b = (Ok o, with_world (with_net rest) b).
Proof.
  intros Hnet. unfold curl_easy_init, take_outcome. by rewrite Hnet.
Qed.

(** The refresh of a credential when the token endpoint answers 200 with a
    body that names no error. *)
Lemma refresh_access_token_ok (c fresh : GeminiOAuthCredentials.t)
    (b : Backend.t) (received : list string) (rest : list CurlOutcome)
    (token_data : json) :
  GeminiOAuthCredentials.refresh_token c <> "" ->
  World.net (Backend.world b) = CurlPerformed None 200 received :: rest ->
  json_parse (String.concat "" received) = Some token_data ->
  contains token_data "error" = false ->
  new_credentials_of token_data c (World.now (Backend.world b)) = Ok fresh ->
  get_credential_path b ∉ World.read_only (Backend.world b) ->
  exists b',
    refresh_access_token c b = (Ok fresh, b') /\
    credentials_ b' = credentials_ b /\
    Backend.project_id_ b' = Backend.project_id_ b /\
    World.now (Backend.world b') = World.now (Backend.world b) /\
    World.files (Backend.world b') =
      <[get_credential_path b :=
          json_dump (Some 2) (GeminiOAuthCredentials.to_json fresh)]>
        (World.files (Backend.world b)) /\
    effects b' =
      effects b ++
      [ refresh_request c (Backend.oauth_manager_ b);
        FileWrite (get_credential_path b)
          (json_dump (Some 2) (GeminiOAuthCredentials.to_json fresh)) ] /\
    World.net (Backend.world b') = rest.
Proof.
  intros Hrt Hnet Hparse Herr Hnew Hrw.
  unfold refresh_access_token. rewrite (string_empty_false _ Hrt).
  rewrite (bind_ok _ _ _ _ _ (curl_easy_init_next b _ _ Hnet)).
  unfold bind, gets, effect, modify, lift, parse, current_time_ms,
    save_credentials, ret. cbn.
  rewrite Hparse, Herr. cbn. rewrite Hnew.
  eexists. split; [reflexivity |].
  assert (Hpath :
    get_credential_path
      (with_world (record_effect (refresh_request c (Backend.oauth_manager_ b)))
         (with_world (with_net rest) b)) = get_credential_path b)
    by reflexivity.
  rewrite Hpath. unfold write_file, credentials_, effects. cbn.
  rewrite bool_decide_eq_false_2 by exact Hrw. cbn.
  rewrite <- app_assoc. repeat split.
Qed.

(** C4, as amended.  A cached credential that is expired or within the
    five-minute buffer, and that carries a refresh token, is refreshed by
    [ensure_authenticated] without a forced refresh: when the token endpoint
    answers 200 with a body that names no error and the credential file can
    be written, exactly one request is sent (the token exchange), the new
    credential replaces the cached one and the content of the credential
    file, and its access token is returned. *)
Theorem stale_token_refreshed_and_persisted
    (c fresh : GeminiOAuthCredentials.t) (b : Backend.t)
    (received : list string) (rest : list CurlOutcome) (token_data : json) :
  credentials_ b = Some c ->
  (- 2 ^ 63 + TOKEN_REFRESH_BUFFER_MS <=
   GeminiOAuthCredentials.expiry_date c < 2 ^ 63)%Z ->
  (GeminiOAuthCredentials.expiry_date c - World.now (Backend.world b) <=
   TOKEN_REFRESH_BUFFER_MS)%Z ->
  GeminiOAuthCredentials.refresh_token c <> "" ->
  World.net (Backend.world b) = CurlPerformed None 200 received :: rest ->
  json_parse (String.concat "" received) = Some token_data ->
  contains token_data "error" = false ->
  new_credentials_of token_data c (World.now (Backend.world b)) = Ok fresh ->
  get_credential_path b ∉ World.read_only (Backend.world b) ->
  exists b',
    ensure_authenticated false b =
      (Ok (GeminiOAuthCredentials.access_token fresh), b') /\
    credentials_ b' = Some fresh /\
    World.files (Backend.world b') =
      <[get_credential_path b :=
          json_dump (Some 2) (GeminiOAuthCredentials.to_json fresh)]>
        (World.files (Backend.world b)) /\
    effects b' =
      effects b ++
      [ refresh_request c (Backend.oauth_manager_ b);
        FileWrite (get_credential_path b)
          (json_dump (Some 2) (GeminiOAuthCredentials.to_json fresh)) ] /\
    World.net (Backend.world b') = rest.
Proof.
  intros Hc Hrange Hstale Hrt Hnet Hparse Herr Hnew Hrw.
  rewrite (ensure_authenticated_cached c b Hc).
  replace (negb (GeminiOAuthCredentials.expiry_date c =? 0)%Z &&
           (World.now (Backend.world b) <?
            int64 (GeminiOAuthCredentials.expiry_date c -
                   TOKEN_REFRESH_BUFFER_MS))%Z) with false.
  2:{ symmetry. apply andb_false_iff. right. apply Z.ltb_ge.
      rewrite int64_small; unfold in_int64, TOKEN_REFRESH_BUFFER_MS in *; lia. }
  destruct (refresh_access_token_ok c fresh b received rest token_data
              Hrt Hnet Hparse Herr Hnew Hrw)
    as (b1 & Hrefresh & _ & _ & _ & Hfiles & Heff & Hnet1).
  rewrite (bind_ok _ _ _ _ _ Hrefresh).
  unfold bind, modify, ret.
  eexists. split; [reflexivity |].
  destruct b1 as [om1 pid1 w1]. unfold credentials_, effects in *. cbn in *.
  repeat split; assumption.
Qed.

(** ** The project binding *)

Lemma ensure_project_id_cached (access_token : string) (b : Backend.t) :
  Backend.project_id_ b <> "" ->
  ensure_project_id access_token b = (Ok (Backend.project_id_ b), b).
Proof.
  intros H. unfold ensure_project_id, bind, gets.
  by rewrite (string_empty_false _ H).
Qed.

(** Take a run apart: every [bind], [match] and [if] on the way to the
    result is decided, and the equations collected. *)
Ltac run_apart H :=
  unfold bind, ret, throw, lift, gets, modify, effect in H;
  repeat (case_match; simplify_eq; try discriminate);
  simplify_eq.

Lemma onboard_poll_sets (n : nat) (url body access_token tier_id pid : string)
    (b b' : Backend.t) :
  onboard_poll n url body access_token tier_id b = (Ok (Some pid), b') ->
  Backend.project_id_ b' = pid.
Proof.
  revert b. induction n as [|n IH]; intros b H; cbn [onboard_poll] in H.
  - discriminate.
  - unfold bind at 1 in H.
    destruct (curl_easy_init b) as [[[|res code received]|e] b1]; cycle 2.
    + discriminate.
    + by apply IH in H.
    + unfold bind at 1, effect at 1, modify at 1 in H.
      destruct (_ || _) in H; [discriminate |].
      unfold bind at 1 in H. destruct (lift _ _) as [[lro|e] b2]; [|discriminate].
      unfold bind at 1 in H. destruct (lift _ _) as [[[|]|e] b3]; cycle 2.
      * discriminate.
      * unfold bind at 1 in H.
        destruct (_ b3) as [[[|]|e] b4] in H; cycle 2.
        -- discriminate.
        -- unfold sleep_for, set_project_id in H. run_apart H. reflexivity.
        -- discriminate.
      * unfold bind at 1 in H.
        destruct (sleep_for _ b3) as [[[]|e] b4]; [|discriminate].
        by apply IH in H.
Qed.

Lemma onboard_for_project_sets (access_token env_project_id tier_id pid : string)
    (b b' : Backend.t) :
  onboard_for_project access_token env_project_id tier_id b = (Ok pid, b') ->
  Backend.project_id_ b' = pid.
Proof.
  unfold onboard_for_project. generalize ONBOARD_MAX_RETRIES. intros n H.
  unfold bind at 1 in H.
  destruct (onboard_poll _ _ _ _ _ b) as [[[p|]|e] b1] eqn:Hpoll.
  - apply onboard_poll_sets in Hpoll. unfold ret in H. by simplify_eq.
  - unfold set_project_id in H. run_apart H. reflexivity.
  - discriminate.
Qed.

Lemma ensure_project_id_sets (access_token pid : string) (b b' : Backend.t) :
  ensure_project_id access_token b = (Ok pid, b') ->
  Backend.project_id_ b' = pid.
Proof.
  unfold ensure_project_id. intros H. unfold bind at 1, gets at 1 in H.
  destruct (string_empty (Backend.project_id_ b)); cbn [negb] in H.
  2:{ unfold ret in H. by simplify_eq. }
  unfold bind at 1, gets at 1 in H. unfold bind at 1 in H.
  destruct (curl_easy_init b) as [[[|res code received]|e] b1];
    [discriminate | | discriminate].
  unfold bind at 1, lift at 1 in H.
  destruct (dump None _) as [request_body|e] in H; [|discriminate].
  unfold bind at 1, effect at 1, modify at 1 in H.
  destruct (_ || _) in H; [discriminate |].
  unfold bind at 1 in H. destruct (lift _ _) as [[data|e] b2]; [|discriminate].
  destruct (contains data "currentTier").
  - unfold set_project_id in H. run_apart H. reflexivity.
  - unfold bind at 1 in H.
    destruct (_ b2) as [[tier|e] b3] in H; [|discriminate].
    by apply onboard_for_project_sets in H.
Qed.

(** [n] polls that are all answered "still running": [n] requests, each
    followed by a pause of two seconds, and the loop is left without a
    project. *)
Lemma onboard_poll_still_running (n : nat)
    (url body access_token tier_id : string) (pending rest : list CurlOutcome)
    (b : Backend.t) :
  length pending = n ->
  World.net (Backend.world b) = pending ++ rest ->
  Forall still_running pending ->
  exists b',
    onboard_poll n url body access_token tier_id b = (Ok None, b') /\
    effects b' =
      effects b ++
      mjoin (replicate n [ HttpPost url (bearer_headers access_token) body;
                           Sleep ONBOARD_SLEEP_SECONDS ]) /\
    World.net (Backend.world b') = rest /\
    Backend.project_id_ b' = Backend.project_id_ b.
Proof.
  revert pending b. induction n as [|n IH]; intros pending b Hlen Hnet Hall.
  - destruct pending; [|discriminate]. cbn in *.
    eexists. split; [reflexivity |]. by rewrite app_nil_r.
  - destruct pending as [|o pending]; [discriminate |].
    apply Forall_cons in Hall as [(received & lro & -> & Hparse & Hdone) Hall].
    cbn [onboard_poll].
    rewrite (bind_ok _ _ _ _ _ (curl_easy_init_next b _ _ Hnet)).
    unfold bind at 1, effect at 1, modify at 1. cbn [orb negb Z.eqb Pos.eqb].
    rewrite bool_decide_eq_false_2 by (intros Hn; by apply Hn). cbn [orb].
    unfold bind at 1, lift at 1, parse. rewrite Hparse.
    unfold bind at 1, lift at 1. rewrite Hdone.
    unfold bind at 1, sleep_for, bind at 1, effect, modify.
    edestruct (IH pending) as (b' & Hrun & Heff & Hnet' & Hpid);
      [by injection Hlen | | exact Hall | ].
    2:{ eexists. split; [exact Hrun |]. rewrite Heff, Hnet', Hpid.
        unfold effects. cbn. rewrite <- !app_assoc. repeat split. }
    reflexivity.
Qed.

(** C7, as amended.  A call of [ensure_project_id] that succeeds with a
    project id that is not empty leaves that id cached, and every call made
    while it is cached returns it and leaves the state as it is: no
    discovery request, no onboarding request.  (An empty id, the free-tier
    outcome, is not recognised as cached by the next call.)  In
    [onboard_for_project], thirty polls that are all answered "still
    running" are thirty requests, each followed by a pause of two seconds;
    after them a tier other than the free tier fails with [OnboardingError],
    and the free tier succeeds with the empty project id. *)
Theorem project_id_memoized_when_not_empty :
  (forall (access_token pid : string) (b b' : Backend.t),
     ensure_project_id access_token b = (Ok pid, b') ->
     pid <> "" ->
     Backend.project_id_ b' = pid /\
     forall (later_token : string) (later : Backend.t),
       Backend.project_id_ later = pid ->
       ensure_project_id later_token later = (Ok pid, later)) /\
  (forall (access_token env_project_id tier_id : string)
          (pending rest : list CurlOutcome) (b : Backend.t),
     length pending = ONBOARD_MAX_RETRIES ->
     World.net (Backend.world b) = pending ++ rest ->
     Forall still_running pending ->
     exists b',
       onboard_for_project access_token env_project_id tier_id b =
         (if String.eqb tier_id "free-tier" then Ok ""
          else Throw (OnboardingError "Failed to complete onboarding" tier_id),
          b') /\
       effects b' =
         effects b ++
         mjoin (replicate ONBOARD_MAX_RETRIES
                  [ HttpPost (get_api_endpoint +:+ ":onboardUser")
                      (bearer_headers access_token)
                      (onboard_request_body env_project_id tier_id);
                    Sleep 2 ]) /\
       World.net (Backend.world b') = rest /\
       (String.eqb tier_id "free-tier" = true -> Backend.project_id_ b' = "")).
Proof.
  split.
  - intros access_token pid b b' Hrun Hne. split.
    + by apply ensure_project_id_sets in Hrun.
    + intros later_token later Hlater. subst pid.
      by apply ensure_project_id_cached.
  - intros access_token env_project_id tier_id pending rest b Hlen Hnet Hall.
    destruct (onboard_poll_still_running ONBOARD_MAX_RETRIES
                (get_api_endpoint +:+ ":onboardUser")
                (onboard_request_body env_project_id tier_id)
                access_token tier_id pending rest b Hlen Hnet Hall)
      as (b1 & Hpoll & Heff & Hnet1 & Hpid).
    unfold onboard_for_project.
    change (json_dump None _) with (onboard_request_body env_project_id tier_id).
    rewrite (bind_ok _ _ _ _ _ Hpoll).
    destruct (String.eqb tier_id "free-tier").
    + unfold bind, set_project_id, modify, ret.
      eexists. split; [reflexivity |]. clear Hpoll.
      split; [exact Heff |]. split; [exact Hnet1 | reflexivity].
    + unfold throw. eexists. split; [reflexivity |]. clear Hpoll.
      split; [exact Heff |]. split; [exact Hnet1 | discriminate].
Qed.

(** ** The retry protocol of [complete] *)

Section Retry.

Variables (model : string) (messages : list Message.t)
  (generation_config : option GenerationConfig.t)
  (thinking_config : option ThinkingConfig.t) (tools : list Tool.t).

(** An attempt up to the end of its transfer. *)
Lemma complete_attempt_transfer (retry : M Backend.t LLMChunk.t)
    (retry_count : Z) (b b1 b2 : Backend.t) (headers : smap string)
    (pid : string) (payload : json) (res : option string) (code : Z)
    (received : list string) (rest : list CurlOutcome) :
  get_auth_headers (0 <? retry_count)%Z b = (Ok headers, b1) ->
  ensure_project_id (substr_from 7 (header "Authorization" headers)) b1 =
    (Ok pid, b2) ->
  build_request_payload model messages generation_config thinking_config
    tools pid = Ok payload ->
  World.net (Backend.world b2) = CurlPerformed res code received :: rest ->
  dumpable payload = true ->
  complete_attempt retry model messages generation_config thinking_config
    tools retry_count b =
  (if ((code =? 401)%Z || (code =? 403)%Z) && (retry_count =? 0)%Z then
     do invalidate_credentials
     then retry
   else
     match res with
     | Some strerror => throw (ConnectionError ("CURL error: " +:+ strerror))
     | None =>
         do (if negb (code =? 200)%Z
             then handle_http_error (int32 code) (String.concat "" received)
             else ret tt)
         then
         let* data := lift (parse (String.concat "" received)) in
         parse_completion_response data
     end)
    (after_request headers payload rest b2).
Proof.
  intros Hauth Hpid Hpayload Hnet Hdump. unfold complete_attempt.
  rewrite (bind_ok _ _ _ _ _ Hauth), (bind_ok _ _ _ _ _ Hpid), Hpayload.
  unfold bind at 1, lift at 1.
  rewrite (bind_ok _ _ _ _ _ (curl_easy_init_next b2 _ _ Hnet)).
  unfold bind at 1, lift at 1, dump. rewrite Hdump.
  unfold bind at 1, effect at 1, modify at 1. reflexivity.
Qed.

(** An attempt whose payload cannot be dumped: it ends before any
    transfer. *)
Lemma complete_attempt_undumpable (retry : M Backend.t LLMChunk.t)
    (retry_count : Z) (b b1 b2 : Backend.t) (headers : smap string)
    (pid : string) (payload : json) (res : option string) (code : Z)
    (received : list string) (rest : list CurlOutcome) :
  get_auth_headers (0 <? retry_count)%Z b = (Ok headers, b1) ->
  ensure_project_id (substr_from 7 (header "Authorization" headers)) b1 =
    (Ok pid, b2) ->
  build_request_payload model messages generation_config thinking_config
    tools pid = Ok payload ->
  World.net (Backend.world b2) = CurlPerformed res code received :: rest ->
  dumpable payload = false ->
  complete_attempt retry model messages generation_config thinking_config
    tools retry_count b =
  (Throw (JsonException (type_error 316)), with_world (with_net rest) b2).
Proof.
  intros Hauth Hpid Hpayload Hnet Hdump. unfold complete_attempt.
  rewrite (bind_ok _ _ _ _ _ Hauth), (bind_ok _ _ _ _ _ Hpid), Hpayload.
  unfold bind at 1, lift at 1.
  rewrite (bind_ok _ _ _ _ _ (curl_easy_init_next b2 _ _ Hnet)).
  unfold bind at 1, lift at 1, dump. rewrite Hdump. reflexivity.
Qed.

(** An attempt made with [retry_count = 1] never calls itself. *)
Lemma retried_attempt_is_final (retry retry' : M Backend.t LLMChunk.t)
    (b : Backend.t) :
  complete_attempt retry model messages generation_config thinking_config
    tools 1 b =
  complete_attempt retry' model messages generation_config thinking_config
    tools 1 b.
Proof.
  unfold complete_attempt, bind.
  repeat (case_match; try reflexivity; simplify_eq).
  all: rewrite andb_false_r in *; congruence.
Qed.

(** A forced refresh with nothing cached: the credential is loaded from the
    file and exchanged, whatever its expiry. *)
Lemma forced_refresh_after_invalidation (b : Backend.t) :
  credentials_ b = None ->
  ensure_authenticated true b =
  (let* c := load_cached_credentials in
   do modify (with_credentials (Some c))
   then
   let* n := refresh_access_token c in
   do modify (with_credentials (Some n))
   then ret (GeminiOAuthCredentials.access_token n)) b.
Proof.
  intros Hc. unfold ensure_authenticated, bind at 1, gets at 1. rewrite Hc.
  unfold bind, ret, modify.
  repeat (case_match; simplify_eq); reflexivity.
Qed.

(** X1. When the payload of the first attempt of [complete] can be dumped
    (every string of it is well-formed UTF-8) and its transfer ends with
    status 401 or 403, the cached credential is dropped and the whole call
    is made once more with [retry_count = 1]: that run starts from a state
    with nothing cached, so its forced refresh loads the credential file and
    exchanges the refresh token whatever the expiry date says.  What the
    retried run would do on a further 401 is not a further call: its result
    does not depend on the recursive call at all. *)
Theorem complete_retries_once_after_unauthorized
    (b b1 b2 : Backend.t) (headers : smap string) (pid : string)
    (payload : json) (res : option string) (code : Z)
    (received : list string) (rest : list CurlOutcome) :
  get_auth_headers false b = (Ok headers, b1) ->
  ensure_project_id (substr_from 7 (header "Authorization" headers)) b1 =
    (Ok pid, b2) ->
  build_request_payload model messages generation_config thinking_config
    tools pid = Ok payload ->
  World.net (Backend.world b2) = CurlPerformed res code received :: rest ->
  dumpable payload = true ->
  code = 401%Z \/ code = 403%Z ->
  let dropped := with_credentials None (after_request headers payload rest b2) in
  credentials_ dropped = None /\
  (forall retry : M Backend.t LLMChunk.t,
     complete model messages generation_config thinking_config tools b =
     complete_attempt retry model messages generation_config thinking_config
       tools 1 dropped) /\
  ensure_authenticated true dropped =
    (let* c := load_cached_credentials in
     do modify (with_credentials (Some c))
     then
     let* n := refresh_access_token c in
     do modify (with_credentials (Some n))
     then ret (GeminiOAuthCredentials.access_token n)) dropped.
Proof.
  intros Hauth Hpid Hpayload Hnet Hdump Hcode dropped.
  assert (Hdropped : credentials_ dropped = None) by reflexivity.
  split; [exact Hdropped |]. split.
  - intros retry. unfold complete, complete_with_retry.
    rewrite (complete_attempt_transfer _ 0 b b1 b2 headers pid payload res code
               received rest Hauth Hpid Hpayload Hnet Hdump).
    replace (((code =? 401)%Z || (code =? 403)%Z) && (0 =? 0)%Z) with true
      by (destruct Hcode; subst code; reflexivity).
    unfold bind at 1, invalidate_credentials, modify.
    apply retried_attempt_is_final.
  - by apply forced_refresh_after_invalidation.
Qed.

(** X2. A 401 or 403 that answers the retried attempt is reported to the
    caller: 403 as [PermissionDeniedError], 401 as [APIError] with status
    401 (a failed transfer as [ConnectionError]).  The call ends with this
    transfer; the outcomes that follow in the script are left untouched.
    This is so when the payload can be dumped, as it can when the first
    attempt has dumped the same messages; an attempt whose payload cannot
    be dumped throws [type_error] 316 and sends nothing. *)
Theorem retried_unauthorized_is_reported (retry : M Backend.t LLMChunk.t)
    (b b1 b2 : Backend.t) (headers : smap string) (pid : string)
    (payload : json) (res : option string) (code : Z)
    (received : list string) (rest : list CurlOutcome) :
  get_auth_headers true b = (Ok headers, b1) ->
  ensure_project_id (substr_from 7 (header "Authorization" headers)) b1 =
    (Ok pid, b2) ->
  build_request_payload model messages generation_config thinking_config
    tools pid = Ok payload ->
  World.net (Backend.world b2) = CurlPerformed res code received :: rest ->
  code = 401%Z \/ code = 403%Z ->
  complete_attempt retry model messages generation_config thinking_config
    tools 1 b =
  (if dumpable payload then
     (Throw
        match res with
        | Some strerror => ConnectionError ("CURL error: " +:+ strerror)
        | None =>
            if (code =? 403)%Z then
              PermissionDeniedError
                ("Permission denied: " +:+
                 error_message (String.concat "" received))
            else
              APIError
                ("API error: " +:+ error_message (String.concat "" received))
                401
        end,
      after_request headers payload rest b2)
   else
     (Throw (JsonException (type_error 316)), with_world (with_net rest) b2)) /\
  World.net (Backend.world (after_request headers payload rest b2)) = rest.
Proof.
  intros Hauth Hpid Hpayload Hnet Hcode. split; [|reflexivity].
  destruct (dumpable payload) eqn:Hdump.
  - rewrite (complete_attempt_transfer retry 1 b b1 b2 headers pid payload res
               code received rest Hauth Hpid Hpayload Hnet Hdump).
    rewrite andb_false_r. destruct res as [strerror|]; [reflexivity |].
    destruct Hcode; subst code; cbn [Z.eqb Pos.eqb negb];
      unfold bind at 1; rewrite handle_http_error_throws; reflexivity.
  - apply (complete_attempt_undumpable retry 1 b b1 b2 headers pid payload res
             code received rest Hauth Hpid Hpayload Hnet Hdump).
Qed.

(** X3. A transfer that fails below HTTP is not retried: when the payload
    of the first attempt can be dumped (every string of it is well-formed
    UTF-8) and the attempt ends with a [CURLcode] other than [CURLE_OK] and
    a status that is neither 401 nor 403, [complete] throws
    [ConnectionError] with the text of the code, after this one request. *)
Theorem transport_failure_is_not_retried
    (b b1 b2 : Backend.t) (headers : smap string) (pid : string)
    (payload : json) (strerror : string) (code : Z)
    (received : list string) (rest : list CurlOutcome) :
  get_auth_headers false b = (Ok headers, b1) ->
  ensure_project_id (substr_from 7 (header "Authorization" headers)) b1 =
    (Ok pid, b2) ->
  build_request_payload model messages generation_config thinking_config
    tools pid = Ok payload ->
  World.net (Backend.world b2) =
    CurlPerformed (Some strerror) code received :: rest ->
  dumpable payload = true ->
  code <> 401%Z -> code <> 403%Z ->
  complete model messages generation_config thinking_config tools b =
  (Throw (ConnectionError ("CURL error: " +:+ strerror)),
   after_request headers payload rest b2).
Proof.
  intros Hauth Hpid Hpayload Hnet Hdump H401 H403.
  unfold complete, complete_with_retry.
  rewrite (complete_attempt_transfer _ 0 b b1 b2 headers pid payload _ code
             received rest Hauth Hpid Hpayload Hnet Hdump).
  apply Z.eqb_neq in H401, H403. rewrite H401, H403. reflexivity.
Qed.

(** X29. A request that cannot be dumped is not sent: when a string of the
    payload is not well-formed UTF-8, [complete] throws [type_error] 316
    after the authentication and the resolution of the project, and
    records no request; the attempt is not repeated. *)
Theorem undumpable_request_is_not_sent
    (b b1 b2 : Backend.t) (headers : smap string) (pid : string)
    (payload : json) (res : option string) (code : Z)
    (received : list string) (rest : list CurlOutcome) :
  get_auth_headers false b = (Ok headers, b1) ->
  ensure_project_id (substr_from 7 (header "Authorization" headers)) b1 =
    (Ok pid, b2) ->
  build_request_payload model messages generation_config thinking_config
    tools pid = Ok payload ->
  World.net (Backend.world b2) = CurlPerformed res code received :: rest ->
  dumpable payload = false ->
  exists b' : Backend.t,
    complete model messages generation_config thinking_config tools b =
    (Throw (JsonException (type_error 316)), b') /\
    effects b' = effects b2 /\
    credentials_ b' = credentials_ b2 /\
    Backend.project_id_ b' = Backend.project_id_ b2.
Proof.
  intros Hauth Hpid Hpayload Hnet Hdump.
  exists (with_world (with_net rest) b2). split; [|by repeat split].
  unfold complete, complete_with_retry.
  apply (complete_attempt_undumpable _ 0 b b1 b2 headers pid payload res code
           received rest Hauth Hpid Hpayload Hnet Hdump).
Qed.

End Retry.

(** X4. [handle_http_error] never returns: whatever the status and the
    body, it throws and leaves the backend as it is.  Status 429 gives
    [RateLimitError], 403 gives [PermissionDeniedError], every other status
    gives [APIError] carrying that status; the message ends with the body
    itself when the body is not JSON. *)
Theorem http_error_mapping (status_code : Z) (body : string) (b : Backend.t) :
  exists e : error,
    handle_http_error status_code body b = (Throw e, b) /\
    (status_code = 429%Z ->
     e = RateLimitError ("Rate limit exceeded: " +:+ error_message body)) /\
    (status_code = 403%Z ->
     e = PermissionDeniedError ("Permission denied: " +:+ error_message body)) /\
    (status_code <> 429%Z -> status_code <> 403%Z ->
     e = APIError ("API error: " +:+ error_message body) status_code) /\
    (json_parse body = None -> error_message body = body).
Proof.
  rewrite handle_http_error_throws. eexists. split; [reflexivity |].
  repeat split.
  - by intros ->.
  - by intros ->.
  - intros H429 H403. apply Z.eqb_neq in H429, H403. by rewrite H429, H403.
  - intros Hparse. unfold error_message, parse. by rewrite Hparse.
Qed.

(** ** The stream of server-sent events *)

Lemma append_cons (c : ascii) (s t : string) :
  String c s +:+ t = String c (s +:+ t).
Proof. reflexivity. Qed.

Lemma append_nil_l (t : string) : "" +:+ t = t.
Proof. reflexivity. Qed.

Lemma append_nil_r (s : string) : s +:+ "" = s.
Proof.
  induction s as [|c s IH]; [done |]. by rewrite append_cons, IH.
Qed.

Lemma append_assoc (s t u : string) : (s +:+ t) +:+ u = s +:+ (t +:+ u).
Proof.
  induction s as [|c s IH]; [done |]. by rewrite !append_cons, IH.
Qed.

Lemma length_append (s t : string) :
  String.length (s +:+ t) = String.length s + String.length t.
Proof.
  induction s as [|c s IH]; [done |]. rewrite append_cons. cbn. by rewrite IH.
Qed.

(** Where [find] finds the first line feed, the text is the part before
    it, the line feed and the part after it. *)
Lemma find_char_split (c : ascii) (s : string) (pos : nat) :
  find_char c s = Some pos ->
  s = substr_to pos s +:+ String c (substr_from (pos + 1) s) /\
  find_char c (substr_to pos s) = None /\
  String.length (substr_from (pos + 1) s) < String.length s.
Proof.
  revert pos. induction s as [|d s IH]; intros pos H; cbn in H; [done |].
  destruct (Ascii.eqb_spec d c) as [->|Hne].
  - injection H as <-. cbn. repeat split; lia.
  - destruct (find_char c s) as [p|] eqn:Hf; [|done].
    injection H as <-. destruct (IH p eq_refl) as (Hs & Hnone & Hlen).
    cbn. rewrite append_cons, <- Hs, Hnone.
    apply Ascii.eqb_neq in Hne. rewrite Hne.
    repeat split. lia.
Qed.

Lemma lines_of_no_lf (s : string) :
  find_char LF s = None -> lines_of s = ([], s).
Proof.
  induction s as [|c s IH]; cbn; [done |].
  destruct (Ascii.eqb c LF); [done |].
  destruct (find_char LF s); [done |]. intros _. by rewrite IH.
Qed.

Lemma lines_of_line (line rest : string) :
  find_char LF line = None ->
  lines_of (line +:+ String LF rest) =
  (line :: (lines_of rest).1, (lines_of rest).2).
Proof.
  induction line as [|c line IH].
  - intros _. rewrite append_nil_l. cbn. by destruct (lines_of rest).
  - rewrite append_cons. cbn. destruct (Ascii.eqb c LF); [done |].
    destruct (find_char LF line); [done |]. intros _.
    rewrite IH by done. reflexivity.
Qed.

Lemma lines_of_rest_no_lf (s : string) : find_char LF (lines_of s).2 = None.
Proof.
  induction s as [|c s IH]; cbn; [done |].
  destruct (lines_of s) as [ls r]. cbn in IH.
  destruct (Ascii.eqb c LF) eqn:Hc; [done |].
  destruct ls; cbn; [by rewrite Hc, IH | done].
Qed.

(** The lines of a text that arrives in two parts: the lines of the first
    part, then the lines of what the first part left over followed by the
    second part. *)
Lemma lines_of_app (s t : string) :
  lines_of (s +:+ t) =
  ((lines_of s).1 ++ (lines_of ((lines_of s).2 +:+ t)).1,
   (lines_of ((lines_of s).2 +:+ t)).2).
Proof.
  induction s as [|c s IH].
  - rewrite append_nil_l. cbn. rewrite append_nil_l. by destruct (lines_of t).
  - rewrite append_cons. cbn. rewrite IH. destruct (lines_of s) as [l1 r1]. cbn.
    destruct (lines_of (r1 +:+ t)) as [l2 r2] eqn:H2.
    destruct (Ascii.eqb c LF) eqn:Hc; cbn.
    + by rewrite H2.
    + destruct l1 as [|l l1]; cbn.
      * rewrite append_cons. cbn. rewrite H2, Hc. by destruct l2.
      * by rewrite H2.
Qed.

Section Stream.

Context {X : Type}.
Variable callback : LLMChunk.t -> X -> X.

(** A line never throws: whatever goes wrong with a frame is caught. *)
Lemma sse_line_ok (line : string) (st : X * Backend.t) :
  exists st', sse_line callback line st = (Ok tt, st').
Proof.
  unfold sse_line.
  destruct (_ || _); [by eexists |].
  destruct (starts_with _ _); [|by eexists].
  destruct (String.eqb _ _); [by eexists |].
  unfold catch. destruct (deliver callback _ st) as [[[]|e] st']; by eexists.
Qed.

Lemma sse_lines_ok (ls : list string) (st : X * Backend.t) :
  exists st', sse_lines callback ls st = (Ok tt, st').
Proof.
  revert st. induction ls as [|l ls IH]; intros st; cbn [sse_lines];
    [by eexists |].
  destruct (sse_line_ok l st) as [st1 H1]. destruct (IH st1) as [st2 H2].
  exists st2. unfold bind. by rewrite H1.
Qed.

Lemma sse_lines_app (l1 l2 : list string) (st : X * Backend.t) :
  sse_lines callback (l1 ++ l2) st =
  (do sse_lines callback l1 then sse_lines callback l2) st.
Proof.
  revert st. induction l1 as [|l l1 IH]; intros st; cbn [sse_lines app].
  { unfold bind, ret. reflexivity. }
  destruct (sse_line_ok l st) as [st1 H1].
  unfold bind at 1. rewrite H1, IH. unfold bind. by rewrite H1.
Qed.

(** The loop of the write callback, given fuel for every character of the
    buffer, handles the complete lines of the buffer and leaves the rest. *)
Lemma drain_feed (fuel : nat) (buf : string) (st : X * Backend.t) :
  String.length buf <= fuel ->
  drain callback fuel buf st = feed callback buf st.
Proof.
  revert buf st. induction fuel as [|fuel IH]; intros buf st Hlen.
  - destruct buf; [reflexivity | cbn in Hlen; lia].
  - cbn [drain]. destruct (find_char LF buf) as [pos|] eqn:Hfind.
    + destruct (find_char_split _ _ _ Hfind) as (Hbuf & Hline & Hrest).
      remember (substr_to pos buf) as line eqn:El.
      remember (substr_from (pos + 1) buf) as rest eqn:Er.
      clear El Er Hfind. subst buf.
      unfold feed. rewrite lines_of_line by exact Hline.
      cbn [fst snd sse_lines].
      destruct (sse_line_ok line st) as [st1 H1].
      unfold bind at 1. rewrite H1, IH by lia.
      unfold feed, bind. by rewrite H1.
    + unfold feed. rewrite lines_of_no_lf by exact Hfind. reflexivity.
Qed.

Lemma stream_write_feed (buf contents : string) (st : X * Backend.t) :
  stream_write callback buf contents st = feed callback (buf +:+ contents) st.
Proof. unfold stream_write. by apply drain_feed. Qed.

Lemma feed_ok (text : string) (st : X * Backend.t) :
  exists st', feed callback text st = (Ok (lines_of text).2, st').
Proof.
  unfold feed. destruct (sse_lines_ok (lines_of text).1 st) as [st' H].
  exists st'. unfold bind. by rewrite H.
Qed.

(** Feeding a text and then, with what it left over, a second text is
    feeding both at once. *)
Lemma feed_app (s t : string) (st : X * Backend.t) :
  (let* rest := feed callback s in feed callback (rest +:+ t)) st =
  feed callback (s +:+ t) st.
Proof.
  unfold feed. rewrite (lines_of_app s t). cbn [fst snd].
  destruct (sse_lines_ok (lines_of s).1 st) as [st2 H2].
  unfold bind at 1 2. rewrite H2. unfold ret at 1.
  unfold bind at 2. rewrite sse_lines_app. unfold bind at 2. rewrite H2.
  reflexivity.
Qed.

Lemma perform_stream_feed (buf : string) (received : list string)
    (st : X * Backend.t) :
  find_char LF buf = None ->
  perform_stream callback buf received st =
  feed callback (buf +:+ String.concat "" received) st.
Proof.
  revert buf st. induction received as [|piece rest IH]; intros buf st Hbuf.
  - cbn. rewrite append_nil_r. unfold feed.
    rewrite lines_of_no_lf by exact Hbuf. reflexivity.
  - cbn [perform_stream].
    assert (Hconcat : String.concat "" (piece :: rest) =
                      piece +:+ String.concat "" rest).
    { destruct rest; [by rewrite append_nil_r | reflexivity]. }
    rewrite Hconcat, <- append_assoc, <- feed_app.
    unfold bind. rewrite stream_write_feed.
    destruct (feed_ok (buf +:+ piece) st) as [st1 H1]. rewrite H1.
    apply IH, lines_of_rest_no_lf.
Qed.

(** X5. What the stream parser does depends on the bytes received, not on
    how the transfer cut them into pieces: two sequences of pieces with the
    same concatenation leave the same state and the same unfinished line in
    the buffer.  The parser never throws, and what it leaves in the buffer
    holds no line feed. *)
Theorem stream_independent_of_chunking (received received' : list string)
    (st : X * Backend.t) :
  String.concat "" received = String.concat "" received' ->
  perform_stream callback "" received st =
    perform_stream callback "" received' st /\
  exists (rest : string) (st' : X * Backend.t),
    perform_stream callback "" received st = (Ok rest, st') /\
    find_char LF rest = None.
Proof.
  intros Hsame. rewrite !perform_stream_feed by reflexivity.
  rewrite !append_nil_l, Hsame. split; [reflexivity |].
  destruct (feed_ok (String.concat "" received') st) as [st' H].
  exists (lines_of (String.concat "" received')).2, st'.
  split; [exact H | apply lines_of_rest_no_lf].
Qed.

(** X6. A line changes nothing and is no error when, after the carriage
    returns at its end are trimmed, it is empty, starts with a colon, does
    not start with [data:], carries the payload [[DONE]], or carries a
    payload that is not JSON. *)
Theorem sse_line_skips (line : string) (st : X * Backend.t) :
  trim line = "" \/
  front (trim line) = Some ":"%char \/
  starts_with "data:" (trim line) = false \/
  payload_of (trim line) = "[DONE]" \/
  json_parse (payload_of (trim line)) = None ->
  sse_line callback line st = (Ok tt, st).
Proof.
  intros Hcase. unfold sse_line.
  destruct (string_empty (trim line) ||
            bool_decide (front (trim line) = Some ":"%char)) eqn:Hskip;
    [reflexivity |].
  apply orb_false_iff in Hskip as [Hempty Hcolon].
  destruct (starts_with "data:" (trim line)) eqn:Hdata; [|reflexivity].
  destruct (String.eqb_spec (payload_of (trim line)) "[DONE]") as [|Hnot];
    [reflexivity |].
  destruct Hcase as [Hc|[Hc|[Hc|[Hc|Hc]]]].
  - rewrite Hc in Hempty. discriminate.
  - apply bool_decide_eq_false in Hcolon. contradiction.
  - discriminate.
  - contradiction.
  - unfold catch, deliver, bind, lift, parse. rewrite Hc. reflexivity.
Qed.

(** X7. A [data:] line whose payload is JSON from which a chunk can be
    read hands exactly that chunk to the callback, once; the backend moves
    on by the identifiers drawn for the chunk's tool calls.  A payload with
    no candidates gives the empty chunk. *)
Theorem sse_line_delivers (line : string) (x : X) (b b' : Backend.t)
    (parsed response_data : json) (read : option (json * LLMChunk.t)) :
  trim line <> "" ->
  front (trim line) <> Some ":"%char ->
  starts_with "data:" (trim line) = true ->
  payload_of (trim line) <> "[DONE]" ->
  json_parse (payload_of (trim line)) = Some parsed ->
  response_data_of parsed = Ok response_data ->
  read_candidate response_data b = (Ok read, b') ->
  sse_line callback line (x, b) =
  (Ok tt,
   (callback match read with
             | Some (_, chunk) => chunk
             | None => LLMChunk.empty
             end x, b')).
Proof.
  intros Hne Hcolon Hdata Hdone Hparse Hrd Hread. unfold sse_line.
  rewrite (string_empty_false _ Hne), Hdata.
  rewrite bool_decide_eq_false_2 by exact Hcolon. cbn [orb].
  destruct (String.eqb_spec (payload_of (trim line)) "[DONE]") as [|_];
    [contradiction |].
  unfold catch, deliver, bind, lift, parse, on_backend, on_caller.
  rewrite Hparse, Hrd. cbn [fst snd]. rewrite Hread. reflexivity.
Qed.

End Stream.

(** ** The session: events and transcript *)

Lemma broadcast_app (handlers : list EventHandler)
    (e1 e2 : list SessionEvent.t) :
  broadcast handlers (e1 ++ e2) = broadcast handlers e1 ++ broadcast handlers e2.
Proof. unfold broadcast. apply bind_app. Qed.

Lemma emitted_refl (h : Host.t) : emitted [] h h.
Proof. unfold emitted, broadcast. cbn. by rewrite app_nil_r. Qed.

Lemma emitted_trans (e1 e2 : list SessionEvent.t) (h1 h2 h3 : Host.t) :
  emitted e1 h1 h2 -> emitted e2 h2 h3 -> emitted (e1 ++ e2) h1 h3.
Proof.
  intros (Hh1 & Ht1 & Hi1 & Hc1 & Hr1) (Hh2 & Ht2 & Hi2 & Hc2 & Hr2).
  unfold emitted. rewrite Hh2, Ht2, Hi2, Hc2, Hr2, Hr1, Hh1, broadcast_app.
  by rewrite app_assoc.
Qed.

Lemma emitted_emit (event_type : EventType.t) (data : json) (h : Host.t) :
  emitted [session_event h event_type data] h (emit event_type data h).
Proof.
  unfold emitted, emit, broadcast. cbn. by rewrite app_nil_r.
Qed.

Lemma emitted_push_back (msg : Message.t) (h : Host.t) :
  emitted [] h (push_back_message msg h).
Proof. unfold emitted, broadcast. cbn. by rewrite app_nil_r. Qed.


Lemma wrote_to_stderr_app (lines1 lines2 : list string) (b : Backend.t) :
  wrote_to_stderr lines2 (wrote_to_stderr lines1 b) =
  wrote_to_stderr (lines1 ++ lines2) b.
Proof. unfold wrote_to_stderr. by rewrite fold_left_app. Qed.

Lemma handled_all (tool_handlers : gmap string ToolHandler)
    (tool_calls : list ToolCall.t) :
  left_at tool_handlers tool_calls = None ->
  handled tool_handlers tool_calls = tool_calls.
Proof.
  unfold left_at. induction tool_calls as [|tc rest IH]; [done |].
  cbn [List.find handled]. destruct (escapes tool_handlers tc); [done |].
  intros Hnone. by rewrite IH.
Qed.

(** One tool call.  When the handler throws a value that is no
    [std::exception] the call stops after its [ToolCall] event, with no
    message; otherwise it returns, its events are the call and, with a
    registered handler, the result, and it appends one message that answers
    the call.  The backend sees lines on the error stream and nothing
    else. *)
Lemma handle_tool_call_run (tc : ToolCall.t) (h : Host.t) (b : Backend.t) :
  let tool_handlers := Session.tool_handlers_ (Host.session h) in
  exists (h' : Host.t) (lines : list string) (events : list SessionEvent.t),
    emitted events h h' /\
    if escapes tool_handlers tc then
      handle_tool_call tc (h, b) =
        (Throw NonStdException, (h', wrote_to_stderr lines b)) /\
      kinds events = [EventType.ToolCall] /\
      Session.messages_ (Host.session h') = Session.messages_ (Host.session h)
    else
      exists msg : Message.t,
        handle_tool_call tc (h, b) = (Ok tt, (h', wrote_to_stderr lines b)) /\
        kinds events = tool_call_kinds tool_handlers tc /\
        Session.messages_ (Host.session h') =
          Session.messages_ (Host.session h) ++ [msg] /\
        answers msg = asked_by tc.
Proof.
  cbv zeta.
  unfold handle_tool_call, escapes, invocation_of, tool_call_kinds, bind,
    host_do, the_session, gets, cerr, backend_do, effect, modify, throw.
  cbn [fst snd].
  change (Session.tool_handlers_ (Host.session (emit _ _ h)))
    with (Session.tool_handlers_ (Host.session h)).
  destruct (Session.tool_handlers_ (Host.session h) !! _) as [handler|].
  - destruct (handler _) as [result|[e_what|]]; cbn [fst snd].
    + eexists _, [], [_; _]. split.
      { eapply (emitted_trans [_] [_]); [apply emitted_emit |].
        eapply (emitted_trans [_] []); [apply emitted_emit |].
        apply emitted_push_back. }
      eexists. by repeat split.
    + eexists _, [_], [_; _]. split.
      { eapply (emitted_trans [_] [_]); [apply emitted_emit |].
        eapply (emitted_trans [_] []); [apply emitted_emit |].
        apply emitted_push_back. }
      eexists. by repeat split.
    + eexists _, [], [_]. split; [apply emitted_emit |]. by repeat split.
  - cbn [fst snd]. eexists _, [_], [_]. split.
    { eapply (emitted_trans [_] []); [apply emitted_emit |].
      apply emitted_push_back. }
    eexists. by repeat split.
Qed.

(** The tool loop, call by call, up to the first call whose handler's throw
    escapes. *)
Lemma handle_tool_calls_run (tool_calls : list ToolCall.t)
    (h : Host.t) (b : Backend.t) :
  let tool_handlers := Session.tool_handlers_ (Host.session h) in
  exists (h' : Host.t) (lines : list string) (events : list SessionEvent.t)
         (msgs : list Message.t),
    handle_tool_calls tool_calls (h, b) =
      (match left_at tool_handlers tool_calls with
       | None => Ok tt
       | Some _ => Throw NonStdException
       end, (h', wrote_to_stderr lines b)) /\
    emitted events h h' /\
    kinds events =
      (handled tool_handlers tool_calls ≫= tool_call_kinds tool_handlers) ++
      match left_at tool_handlers tool_calls with
      | None => []
      | Some _ => [EventType.ToolCall]
      end /\
    Session.messages_ (Host.session h') =
      Session.messages_ (Host.session h) ++ msgs /\
    answers <$> msgs = asked_by <$> handled tool_handlers tool_calls.
Proof.
  cbv zeta. revert h b. induction tool_calls as [|tc rest IH]; intros h b.
  - exists h, [], [], []. cbn. rewrite app_nil_r.
    repeat split; try reflexivity. apply emitted_refl.
  - destruct (handle_tool_call_run tc h b) as (h1 & l1 & e1 & Hem1 & Hcase).
    cbv zeta in Hcase. unfold left_at. cbn [List.find handled handle_tool_calls].
    unfold bind at 1.
    destruct (escapes (Session.tool_handlers_ (Host.session h)) tc).
    + destruct Hcase as (Hrun1 & Hk1 & Hmsg1). rewrite Hrun1.
      exists h1, l1, e1, []. rewrite app_nil_r.
      split; [reflexivity |]. split; [exact Hem1 |]. split; [exact Hk1 |].
      split; [exact Hmsg1 | reflexivity].
    + destruct Hcase as (msg & Hrun1 & Hk1 & Hmsg1 & Hans1). rewrite Hrun1.
      destruct (IH h1 (wrote_to_stderr l1 b))
        as (h2 & l2 & e2 & msgs & Hrun2 & Hem2 & Hk2 & Hmsg2 & Hans2).
      pose proof Hem1 as (_ & Hth & _). rewrite Hth in Hrun2, Hk2, Hans2.
      rewrite wrote_to_stderr_app in Hrun2.
      exists h2, (l1 ++ l2), (e1 ++ e2), (msg :: msgs).
      split; [exact Hrun2 |].
      split; [by eapply emitted_trans |].
      split.
      { unfold kinds in *. rewrite fmap_app, Hk1, Hk2. cbn [mbind list_bind].
        by rewrite <- app_assoc. }
      split; [by rewrite Hmsg2, Hmsg1, <- app_assoc |].
      cbn [fmap list_fmap]. by rewrite Hans1, Hans2.
Qed.

(** X10. The tool loop works through the calls in the order given and
    sends no request: the backend is left as it was but for lines on the
    error stream.  A handler that returns or throws a [std::exception] does
    not stop it: the registered event handlers are handed a [ToolCall]
    event, followed by a [ToolResult] event exactly when a tool handler is
    registered under the call's name, and one message that carries the
    tool's name and the call's id is appended to the transcript.  A handler
    that throws a value of another type does stop it: that value leaves the
    loop right after the [ToolCall] event of its call, which gets no
    [ToolResult] event and no message, and the calls after it are not
    looked at.  (Event handlers are taken to return.) *)
Theorem tool_loop_recovers_locally (tool_calls : list ToolCall.t)
    (h : Host.t) (b : Backend.t) :
  let tool_handlers := Session.tool_handlers_ (Host.session h) in
  exists (h' : Host.t) (lines : list string) (events : list SessionEvent.t)
         (msgs : list Message.t),
    handle_tool_calls tool_calls (h, b) =
      (match left_at tool_handlers tool_calls with
       | None => Ok tt
       | Some _ => Throw NonStdException
       end, (h', wrote_to_stderr lines b)) /\
    emitted events h h' /\
    kinds events =
      (handled tool_handlers tool_calls ≫= tool_call_kinds tool_handlers) ++
      match left_at tool_handlers tool_calls with
      | None => []
      | Some _ => [EventType.ToolCall]
      end /\
    Session.messages_ (Host.session h') =
      Session.messages_ (Host.session h) ++ msgs /\
    answers <$> msgs = asked_by <$> handled tool_handlers tool_calls.
Proof. apply handle_tool_calls_run. Qed.




(** *** What a streaming computation does to its caller *)

Section Keeps.

Context {X : Type} (R : X -> X -> Prop) `{!PreOrder R}.
Variable callback : LLMChunk.t -> X -> X.
Hypothesis callback_keeps : forall (chunk : LLMChunk.t) (x : X),
  R x (callback chunk x).

Lemma keeps_ret {A} (a : A) : keeps R (ret a).
Proof. intros st st' r H. unfold ret in H. by simplify_eq. Qed.

Lemma keeps_throw {A} (e : error) : keeps R (@throw _ A e).
Proof. intros st st' r H. unfold throw in H. by simplify_eq. Qed.

Lemma keeps_lift {A} (r : result A) : keeps R (lift r).
Proof. intros st st' r' H. unfold lift in H. by simplify_eq. Qed.

Lemma keeps_on_backend {A} (m : M Backend.t A) : keeps R (on_backend m).
Proof.
  intros st st' r H. unfold on_backend in H.
  destruct (m st.2) as [r' b]. by simplify_eq.
Qed.

Lemma keeps_on_caller : forall chunk, keeps R (on_caller (callback chunk)).
Proof.
  intros chunk st st' r H. unfold on_caller in H. simplify_eq. cbn.
  apply callback_keeps.
Qed.

Lemma keeps_bind {A B} (m : M (X * Backend.t) A)
    (k : A -> M (X * Backend.t) B) :
  keeps R m -> (forall a, keeps R (k a)) -> keeps R (bind m k).
Proof.
  intros Hm Hk st st' r H. unfold bind in H.
  destruct (m st) as [[a|e] st1] eqn:Hrun.
  - etransitivity; [by eapply Hm | by eapply Hk].
  - simplify_eq. by eapply Hm.
Qed.

Lemma keeps_catch {A} (m : M (X * Backend.t) A)
    (handler : error -> M (X * Backend.t) A) :
  keeps R m -> (forall e, keeps R (handler e)) -> keeps R (catch m handler).
Proof.
  intros Hm Hh st st' r H. unfold catch in H.
  destruct (m st) as [[a|e] st1] eqn:Hrun.
  - simplify_eq. by eapply Hm.
  - etransitivity; [by eapply Hm | by eapply Hh].
Qed.

Lemma keeps_sse_line (line : string) :
  keeps R (sse_line callback line).
Proof.
  unfold sse_line.
  destruct (_ || _); [apply keeps_ret |].
  destruct (starts_with _ _); [|apply keeps_ret].
  destruct (String.eqb _ _); [apply keeps_ret |].
  apply keeps_catch; [|intros; apply keeps_ret].
  unfold deliver.
  apply keeps_bind; [apply keeps_lift | intros parsed].
  apply keeps_bind; [apply keeps_lift | intros response_data].
  apply keeps_bind; [apply keeps_on_backend | intros read].
  apply keeps_on_caller.
Qed.

Lemma keeps_sse_lines (ls : list string) :
  keeps R (sse_lines callback ls).
Proof.
  induction ls as [|l ls IH]; cbn [sse_lines]; [apply keeps_ret |].
  apply keeps_bind; [apply keeps_sse_line | intros; exact IH].
Qed.

Lemma keeps_perform_stream (received : list string) :
  keeps R (perform_stream callback "" received).
Proof.
  intros st st' r H. rewrite perform_stream_feed in H by reflexivity.
  revert st st' r H. unfold feed.
  apply keeps_bind; [apply keeps_sse_lines | intros; apply keeps_ret].
Qed.

Lemma keeps_complete_streaming_attempt (retry : M (X * Backend.t) unit)
    (model : string) (messages : list Message.t)
    (generation_config : option GenerationConfig.t)
    (thinking_config : option ThinkingConfig.t) (tools : list Tool.t)
    (retry_count : Z) :
  keeps R retry ->
  keeps R
    (complete_streaming_attempt callback retry model messages generation_config thinking_config tools
       retry_count).
Proof.
  intros Hretry. unfold complete_streaming_attempt.
  apply keeps_bind; [apply keeps_on_backend | intros headers].
  apply keeps_bind; [apply keeps_on_backend | intros project_id].
  apply keeps_bind; [apply keeps_lift | intros payload].
  apply keeps_bind; [apply keeps_on_backend | intros curl].
  destruct curl as [|res code received]; [apply keeps_throw |].
  apply keeps_bind; [apply keeps_lift | intros request_body].
  apply keeps_bind; [apply keeps_on_backend | intros _].
  apply keeps_bind; [apply keeps_perform_stream | intros buffer].
  destruct (_ && _).
  - apply keeps_bind; [apply keeps_on_backend | intros _; exact Hretry].
  - destruct res; [apply keeps_throw |].
    destruct (negb _); [apply keeps_on_backend | apply keeps_ret].
Qed.

Lemma keeps_complete_streaming (model : string) (messages : list Message.t)
    (generation_config : option GenerationConfig.t)
    (thinking_config : option ThinkingConfig.t) (tools : list Tool.t) :
  keeps R
    (complete_streaming callback model messages generation_config thinking_config tools).
Proof.
  unfold complete_streaming, complete_streaming_with_retry.
  apply keeps_complete_streaming_attempt, keeps_complete_streaming_attempt.
  apply keeps_ret.
Qed.

End Keeps.

#[local] Instance streamed_preorder : PreOrder streamed.
Proof.
  split.
  - intros x. exists []. split; [apply emitted_refl |]. by split.
  - intros x y z (e1 & Hem1 & Hd1 & Hm1) (e2 & Hem2 & Hd2 & Hm2).
    exists (e1 ++ e2). split; [by eapply emitted_trans |]. split.
    + unfold kinds in *. rewrite fmap_app. by apply Forall_app.
    + congruence.
Qed.








(** *** Failures of authentication *)

Lemma take_outcome_keeps (w w' : World.t) (o : CurlOutcome) :
  take_outcome w = (o, w') ->
  World.files w' = World.files w /\ World.effects w' = World.effects w /\
  World.now w' = World.now w /\ World.environ w' = World.environ w.
Proof.
  unfold take_outcome. destruct (World.net w); intros [= <- <-]; by cbn.
Qed.

Lemma refresh_access_token_throws (c : GeminiOAuthCredentials.t)
    (b b' : Backend.t) (e : error) :
  refresh_access_token c b = (Throw e, b') ->
  World.files (Backend.world b') = World.files (Backend.world b) /\
  Backend.oauth_manager_ b' = Backend.oauth_manager_ b /\
  Backend.project_id_ b' = Backend.project_id_ b /\
  (effects b' = effects b \/
   effects b' = effects b ++ [refresh_request c (Backend.oauth_manager_ b)]).
Proof.
  unfold refresh_access_token, current_time_ms, save_credentials, bind,
    curl_easy_init, gets, effect, modify, lift, throw, ret, effects.
  intros H.
  repeat (case_match; simplify_eq);
    repeat match goal with
           | Htake : take_outcome _ = _ |- _ =>
               apply take_outcome_keeps in Htake as (Hfiles & Heff & _)
           end;
    cbn in *; simplify_eq; cbn; rewrite ?Hfiles, ?Heff; auto.
Qed.

(** X16. A failed authentication damages nothing: whenever
    [ensure_authenticated] throws, the credential file and every other file
    are as before, the cached credential is as before, or is the credential
    just loaded from the file when none was cached, and at most one request
    (the token exchange) was sent. *)
Theorem failed_authentication_keeps_credentials (force_refresh : bool)
    (b b' : Backend.t) (e : error) :
  ensure_authenticated force_refresh b = (Throw e, b') ->
  World.files (Backend.world b') = World.files (Backend.world b) /\
  Backend.project_id_ b' = Backend.project_id_ b /\
  (credentials_ b' = credentials_ b \/
   credentials_ b = None /\
   exists c, load_cached_credentials b = (Ok c, b) /\
             credentials_ b' = Some c) /\
  (effects b' = effects b \/
   exists c, effects b' =
             effects b ++ [refresh_request c (Backend.oauth_manager_ b)]).
Proof.
  unfold ensure_authenticated. unfold bind at 1, gets at 1.
  destruct (credentials_ b) as [c|] eqn:Hcached.
  - unfold bind at 1, ret at 1.
    assert (Hstale : exists stale : bool,
      (if force_refresh then ret true
       else let* valid := is_token_valid c in ret (negb valid)) b =
      (Ok stale, b)).
    { destruct force_refresh; [by exists true |].
      unfold bind, is_token_valid, current_time_ms, gets, ret.
      destruct (_ =? 0)%Z; eauto. }
    destruct Hstale as [stale Hstale].
    unfold bind at 1. rewrite Hstale.
    destruct stale; [|discriminate].
    unfold bind at 1, bind at 1.
    destruct (refresh_access_token c b) as [[fresh|e'] b1] eqn:Hrefresh;
      [discriminate |].
    intros [= <- <-].
    apply refresh_access_token_throws in Hrefresh
      as (Hfiles & Hom & Hpid & Heff).
    split; [exact Hfiles |]. split; [exact Hpid |].
    split; [left; unfold credentials_; by rewrite Hom, <- Hcached |].
    destruct Heff; eauto.
  - unfold bind at 1, bind at 1.
    destruct (load_cached_credentials b) as [[c|e'] b0] eqn:Hload.
    + assert (b0 = b) as ->.
      { revert Hload.
        unfold load_cached_credentials, bind, gets, lift, throw.
        intros H. repeat (case_match; simplify_eq); reflexivity. }
      unfold bind at 1, modify at 1, ret at 1.
      set (b1 := with_credentials (Some c) b).
      assert (Hstale : exists stale : bool,
        (if force_refresh then ret true
         else let* valid := is_token_valid c in ret (negb valid)) b1 =
        (Ok stale, b1)).
      { destruct force_refresh; [by exists true |].
        unfold bind, is_token_valid, current_time_ms, gets, ret.
        destruct (_ =? 0)%Z; eauto. }
      destruct Hstale as [stale Hstale].
      unfold bind at 1. rewrite Hstale.
      destruct stale; [|discriminate].
      unfold bind at 1, bind at 1.
      destruct (refresh_access_token c b1) as [[fresh|e''] b2] eqn:Hrefresh;
        [discriminate |].
      intros [= <- <-].
      apply refresh_access_token_throws in Hrefresh
        as (Hfiles & Hom & Hpid & Heff).
      split; [exact Hfiles |]. split; [exact Hpid |].
      split.
      * right. split; [reflexivity |]. exists c. split; [reflexivity |].
        unfold credentials_. by rewrite Hom.
      * destruct Heff as [Heff|Heff]; [by left |].
        right. exists c. exact Heff.
    + intros [= <- <-].
      assert (b0 = b) as ->.
      { revert Hload.
        unfold load_cached_credentials, bind, gets, lift, throw.
        intros H. repeat (case_match; simplify_eq); reflexivity. }
      repeat split; auto.
Qed.

(** X17. A credential that has to be refreshed but holds no refresh token
    cannot be refreshed: [ensure_authenticated] throws [TokenRefreshError]
    without sending a request and without changing anything. *)
Theorem refresh_needs_a_refresh_token (force_refresh : bool)
    (c : GeminiOAuthCredentials.t) (b : Backend.t) :
  credentials_ b = Some c ->
  GeminiOAuthCredentials.refresh_token c = "" ->
  force_refresh = true \/
  GeminiOAuthCredentials.expiry_date c = 0%Z \/
  (World.now (Backend.world b) >=
   int64 (GeminiOAuthCredentials.expiry_date c - TOKEN_REFRESH_BUFFER_MS))%Z ->
  ensure_authenticated force_refresh b =
  (Throw (TokenRefreshError "No refresh token available in credentials."
            None ""), b).
Proof.
  intros Hcached Hrt Hstale.
  unfold ensure_authenticated. unfold bind at 1, gets at 1. rewrite Hcached.
  unfold bind at 1, ret at 1.
  assert (Hs :
    (if force_refresh then ret true
     else let* valid := is_token_valid c in ret (negb valid)) b =
    (Ok true, b)).
  { destruct force_refresh; [reflexivity |].
    destruct Hstale as [|Hstale]; [discriminate |].
    unfold bind, is_token_valid, current_time_ms, gets, ret.
    destruct (_ =? 0)%Z eqn:Hzero; [reflexivity |].
    destruct Hstale as [Hstale|Hstale]; [rewrite Hstale in Hzero; discriminate |].
    cbn [negb]. f_equal. f_equal.
    apply negb_true_iff, Z.ltb_ge. lia. }
  unfold bind at 1. rewrite Hs.
  unfold bind at 1, bind at 1, refresh_access_token. rewrite Hrt. reflexivity.
Qed.

(** *** The project named by the environment *)

Lemma starts_with_app (p s : string) : starts_with p (p +:+ s) = true.
Proof.
  induction p as [|c p IH]; [done |].
  rewrite append_cons. cbn. by rewrite Ascii.eqb_refl, IH.
Qed.

Lemma substr_from_app (p s : string) :
  substr_from (String.length p) (p +:+ s) = s.
Proof. induction p as [|c p IH]; [by destruct s | exact IH]. Qed.

Lemma back_app (v : string) (q : ascii) : back (v +:+ String q "") = Some q.
Proof.
  induction v as [|c v IH]; [done |].
  rewrite append_cons. cbn. rewrite IH.
  destruct (v +:+ String q "") eqn:Hv; [by destruct v | done].
Qed.

Lemma pop_back_app (v : string) (q : ascii) : pop_back (v +:+ String q "") = v.
Proof.
  induction v as [|c v IH]; [done |].
  rewrite append_cons. cbn. rewrite IH.
  destruct (v +:+ String q "") eqn:Hv; [by destruct v | done].
Qed.

Lemma env_file_project_skip (before rest : list string) :
  Forall (fun line => starts_with "GOOGLE_CLOUD_PROJECT=" line = false) before ->
  env_file_project (before ++ rest) = env_file_project rest.
Proof.
  induction 1 as [|line before Hline _ IH]; [done |].
  cbn [app env_file_project]. by rewrite Hline.
Qed.

Lemma env_file_project_none (lines : list string) :
  Forall (fun line => starts_with "GOOGLE_CLOUD_PROJECT=" line = false) lines ->
  env_file_project lines = None.
Proof.
  intros H. rewrite <- (app_nil_r lines). by rewrite env_file_project_skip.
Qed.

(** X18. Where the project comes from.  The environment variable
    [GOOGLE_CLOUD_PROJECT] wins whenever it is set, whatever the [.env] file
    holds and whether it exists.  When the variable is not set, the first
    line of the [.env] file that starts with [GOOGLE_CLOUD_PROJECT=]
    decides: a value written between two quote characters (single or
    double, and not necessarily the same at both ends) is returned without
    them, and a value that neither starts nor ends with a quote character
    is returned as it is.  When there is neither the variable nor such a
    line, or no [.env] file, the stored project id is returned. *)
Theorem project_id_from_env_file (b : Backend.t) :
  let w := Backend.world b in
  let prefixed line := starts_with "GOOGLE_CLOUD_PROJECT=" line in
  (forall p : string,
     World.environ w !! "GOOGLE_CLOUD_PROJECT" = Some p ->
     get_project_id b = p) /\
  (World.environ w !! "GOOGLE_CLOUD_PROJECT" = None ->
   (forall (text : string) (before after : list string) (q q' : ascii)
           (v : string),
      World.files w !! get_gemini_env_path None w = Some text ->
      getlines text =
        before ++
        ("GOOGLE_CLOUD_PROJECT=" +:+ String q (v +:+ String q' "")) :: after ->
      Forall (fun line => prefixed line = false) before ->
      is_quote (Some q) = true ->
      is_quote (Some q') = true ->
      get_project_id b = v) /\
   (forall (text : string) (before after : list string) (v : string),
      World.files w !! get_gemini_env_path None w = Some text ->
      getlines text = before ++ ("GOOGLE_CLOUD_PROJECT=" +:+ v) :: after ->
      Forall (fun line => prefixed line = false) before ->
      is_quote (front v) = false ->
      is_quote (back v) = false ->
      get_project_id b = v) /\
   (forall text : string,
      World.files w !! get_gemini_env_path None w = Some text ->
      Forall (fun line => prefixed line = false) (getlines text) ->
      get_project_id b = OAuthManager.project_id_ (Backend.oauth_manager_ b)) /\
   (World.files w !! get_gemini_env_path None w = None ->
    get_project_id b = OAuthManager.project_id_ (Backend.oauth_manager_ b))).
Proof.
  intros w prefixed. split.
  - intros p Henv. unfold get_project_id. fold w. by rewrite Henv.
  - intros Henv. unfold get_project_id. fold w. rewrite Henv.
    split; [|split; [|split]].
    + intros text before after q q' v Hfile Hlines Hbefore Hq Hq'.
      rewrite Hfile, Hlines, (env_file_project_skip _ _ Hbefore).
      cbn [env_file_project]. rewrite starts_with_app.
      change 21 with (String.length "GOOGLE_CLOUD_PROJECT=").
      rewrite substr_from_app.
      cbn [string_empty negb front andb substr_from]. rewrite Hq.
      rewrite back_app, Hq', pop_back_app.
      destruct (v +:+ String q' "") eqn:Hv; [by destruct v | done].
    + intros text before after v Hfile Hlines Hbefore Hfront Hback.
      rewrite Hfile, Hlines, (env_file_project_skip _ _ Hbefore).
      cbn [env_file_project]. rewrite starts_with_app.
      change 21 with (String.length "GOOGLE_CLOUD_PROJECT=").
      rewrite substr_from_app. cbv zeta.
      rewrite Hfront, andb_false_r, Hback, andb_false_r. reflexivity.
    + intros text Hfile Hnone.
      by rewrite Hfile, (env_file_project_none _ Hnone).
    + intros Hfile. by rewrite Hfile.
Qed.

(** *** Identifiers *)

Lemma matches_app (p1 p2 : list (ascii -> bool)) (s1 s2 : string) :
  matches p1 s1 = true -> matches p2 s2 = true ->
  matches (p1 ++ p2) (s1 +:+ s2) = true.
Proof.
  revert s1. induction p1 as [|p p1 IH]; intros [|c s1] H1 H2;
    try discriminate; [exact H2 |].
  rewrite append_cons. cbn in *.
  apply andb_true_iff in H1 as [-> H1]. by apply IH.
Qed.

Lemma uniform_run (lo hi : Z) (b : Backend.t) :
  (lo <= hi)%Z ->
  exists v : Z,
    uniform lo hi b = (Ok v, with_world count_draw b) /\ (lo <= v <= hi)%Z.
Proof.
  intros Hle.
  exists (lo + mt19937 (World.draws (Backend.world b)) mod (hi - lo + 1))%Z.
  split; [reflexivity |].
  pose proof (Z.mod_pos_bound
                (mt19937 (World.draws (Backend.world b))) (hi - lo + 1)
                ltac:(lia)).
  lia.
Qed.

Lemma get_substr_from (k n : nat) (s : string) :
  String.get (k + n) s = String.get n (substr_from k s).
Proof.
  revert s. induction k as [|k IH]; intros s; [done |].
  destruct s as [|c s]; [by destruct n | apply IH].
Qed.

(** The digit [hex] writes for a value of the range that starts at [lo] and
    has the digits [chars]. *)
Lemma hex_digit (v : Z) (chars : string) (lo : Z) :
  (lo <= v < lo + Z.of_nat (String.length chars))%Z ->
  (0 <= lo)%Z ->
  substr_from (Z.to_nat lo) "0123456789abcdef" =
    chars +:+ substr_from (Z.to_nat lo + String.length chars)
                "0123456789abcdef" ->
  exists c, hex v = String c "" /\ one_of chars c = true.
Proof.
  intros Hv Hlo Hsub. unfold hex.
  replace (Z.to_nat v) with (Z.to_nat lo + Z.to_nat (v - lo)) by lia.
  rewrite get_substr_from, Hsub.
  assert (Hn : Z.to_nat (v - lo) < String.length chars) by lia.
  revert Hn. generalize (Z.to_nat (v - lo)).
  generalize (substr_from (Z.to_nat lo + String.length chars)
                "0123456789abcdef").
  unfold one_of. clear.
  induction chars as [|d chars IH]; intros rest n Hn; [cbn in Hn; lia |].
  rewrite append_cons. destruct n as [|n].
  - exists d. cbn. by rewrite Ascii.eqb_refl.
  - cbn in Hn. destruct (IH rest n ltac:(lia)) as (c & Hc & Hin).
    exists c. cbn. cbn in Hc. destruct (String.get n (chars +:+ rest));
      [|discriminate].
    injection Hc as ->. rewrite Hin, orb_true_r. by split.
Qed.

Lemma hex_digits_run (n : nat) (b : Backend.t) :
  exists s : string,
    hex_digits n b = (Ok s, with_world (Nat.iter n count_draw) b) /\
    matches (replicate n is_hex) s = true.
Proof.
  revert b. induction n as [|n IH]; intros b.
  - exists "". split; [by destruct b | done].
  - destruct (uniform_run 0 15 b ltac:(lia)) as (v & Hv & Hrange).
    destruct (IH (with_world count_draw b)) as (s & Hs & Hmatch).
    destruct (hex_digit v "0123456789abcdef" 0 ltac:(cbn; lia) ltac:(lia)
                eq_refl) as (c & Hc & Hhex).
    exists (hex v +:+ s). split.
    + cbn [hex_digits]. unfold bind at 1. rewrite Hv.
      unfold bind at 1. rewrite Hs. unfold ret, with_world.
      cbn [Backend.world Backend.oauth_manager_ Backend.project_id_].
      by rewrite Nat.iter_succ_r.
    + rewrite Hc, append_cons, append_nil_l. cbn [replicate matches].
      unfold is_hex at 1. by rewrite Hhex.
Qed.

Lemma generate_uuid_run (b : Backend.t) :
  exists u : string,
    generate_uuid b = (Ok u, with_world (Nat.iter 31 count_draw) b) /\
    matches uuid_v4 u = true /\
    String.length u = 36.
Proof.
  assert (Hlen : forall (p : list (ascii -> bool)) (s : string),
            matches p s = true -> String.length s = length p).
  { induction p as [|t p IH]; intros [|c s] H; try discriminate; [done |].
    cbn in *. apply andb_true_iff in H as [_ H]. f_equal. by apply IH. }
  destruct (hex_digits_run 8 b) as (g1 & H1 & M1).
  set (b1 := with_world (Nat.iter 8 count_draw) b) in *.
  destruct (hex_digits_run 4 b1) as (g2 & H2 & M2).
  set (b2 := with_world (Nat.iter 4 count_draw) b1) in *.
  destruct (hex_digits_run 3 b2) as (g3 & H3 & M3).
  set (b3 := with_world (Nat.iter 3 count_draw) b2) in *.
  destruct (uniform_run 8 11 b3 ltac:(lia)) as (v & Hv & Hrange).
  set (b4 := with_world count_draw b3) in *.
  destruct (hex_digits_run 3 b4) as (g4 & H4 & M4).
  set (b5 := with_world (Nat.iter 3 count_draw) b4) in *.
  destruct (hex_digits_run 12 b5) as (g5 & H5 & M5).
  destruct (hex_digit v "89ab" 8 ltac:(cbn; lia) ltac:(lia) eq_refl)
    as (y & Hy & Hvariant).
  assert (Hshape :
    matches uuid_v4
      (g1 +:+ "-" +:+ g2 +:+ "-4" +:+ g3 +:+ "-" +:+ hex v +:+ g4 +:+
       "-" +:+ g5) = true).
  { unfold uuid_v4. rewrite Hy.
    repeat (apply matches_app;
            [first [ assumption | reflexivity
                   | cbn [matches]; rewrite Hvariant; reflexivity ] |]).
    exact M5. }
  eexists. split; [|split; [exact Hshape |]].
  - unfold generate_uuid.
    unfold bind at 1. rewrite H1. unfold bind at 1. rewrite H2.
    unfold bind at 1. rewrite H3. unfold bind at 1. rewrite Hv.
    unfold bind at 1. rewrite H4. unfold bind at 1. rewrite H5.
    reflexivity.
  - by rewrite (Hlen _ _ Hshape).
Qed.

(** X19. Every identifier [generate_uuid] returns has the shape of a
    version 4 identifier, [xxxxxxxx-xxxx-4xxx-yxxx-xxxxxxxxxxxx] with [x] a
    lower-case hexadecimal digit and [y] one of 8, 9, a, b, whatever the
    random engine puts out; a call draws 31 numbers from the engine and
    does nothing else. *)
Theorem generate_uuid_shape (b : Backend.t) :
  exists u : string,
    generate_uuid b = (Ok u, with_world (Nat.iter 31 count_draw) b) /\
    matches uuid_v4 u = true /\
    String.length u = 36.
Proof. apply generate_uuid_run. Qed.

(** *** Base64 *)

Lemma triples_ind (P : list byte -> Prop) :
  P [] -> (forall a, P [a]) -> (forall a b, P [a; b]) ->
  (forall a b c rest, P rest -> P (a :: b :: c :: rest)) ->
  forall data, P data.
Proof.
  intros H0 H1 H2 H3. fix IH 1.
  intros [|a [|b [|c rest]]]; [exact H0 | apply H1 | apply H2 |].
  apply H3, IH.
Qed.

Lemma octet_range (a : byte) : (0 <= octet a < 256)%Z.
Proof. unfold octet. pose proof (Byte.to_N_bounded a). lia. Qed.

Lemma octet_inj (a b : byte) : octet a = octet b -> a = b.
Proof.
  unfold octet. intros H. apply N2Z.inj in H.
  pose proof (Byte.of_to_N a) as Ha. pose proof (Byte.of_to_N b) as Hb.
  rewrite H in Ha. congruence.
Qed.

Lemma alphabet_table :
  forallb
    (fun n =>
       match String.get n alphabet with
       | Some c =>
           match find_char c alphabet with
           | Some m => Nat.eqb m n
           | None => false
           end && negb (Ascii.eqb c "=")
       | None => false
       end)
    (seq 0 64) = true.
Proof. vm_compute. reflexivity. Qed.

(** Every index below 64 has one character, which is not the padding
    character and is found in the alphabet at that index. *)
Lemma alphabet_at_char (i : Z) :
  (0 <= i < 64)%Z ->
  exists c : ascii,
    alphabet_at i = String c "" /\
    find_char c alphabet = Some (Z.to_nat i) /\ c <> "="%char.
Proof.
  intros Hi. pose proof alphabet_table as Htable.
  rewrite forallb_forall in Htable.
  specialize (Htable (Z.to_nat i)). unfold alphabet_at.
  destruct (String.get (Z.to_nat i) alphabet) as [c|].
  - exists c. split; [reflexivity |].
    assert (Hin : In (Z.to_nat i) (seq 0 64)) by (apply in_seq; lia).
    apply Htable, andb_true_iff in Hin as [Hfind Hpad].
    destruct (find_char c alphabet) as [m|]; [|discriminate].
    apply Nat.eqb_eq in Hfind as ->. split; [reflexivity |].
    intros ->. discriminate.
  - assert (Hin : In (Z.to_nat i) (seq 0 64)) by (apply in_seq; lia).
    apply Htable in Hin. discriminate.
Qed.

Lemma sextet_range (t k : Z) : (0 <= Z.land (Z.shiftr t k) 63 < 64)%Z.
Proof.
  change 63%Z with (Z.ones 6). rewrite Z.land_ones by lia.
  apply Z.mod_pos_bound. lia.
Qed.

Lemma sextet_div (t k : Z) :
  (0 <= k)%Z -> Z.land (Z.shiftr t k) 63 = ((t / 2 ^ k) mod 64)%Z.
Proof.
  intros Hk. change 63%Z with (Z.ones 6).
  rewrite Z.land_ones, Z.shiftr_div_pow2 by lia. reflexivity.
Qed.

(** The four characters of a group and the sextets they stand for. *)
Lemma sextets_chars (a b c : Z) :
  let t := (a * 65536 + b * 256 + c)%Z in
  exists c1 c2 c3 c4 : ascii,
    sextets a b c = String c1 (String c2 (String c3 (String c4 ""))) /\
    find_char c1 alphabet = Some (Z.to_nat ((t / 262144) mod 64)) /\
    find_char c2 alphabet = Some (Z.to_nat ((t / 4096) mod 64)) /\
    find_char c3 alphabet = Some (Z.to_nat ((t / 64) mod 64)) /\
    find_char c4 alphabet = Some (Z.to_nat (t mod 64)) /\
    c1 <> "="%char /\ c2 <> "="%char /\ c3 <> "="%char /\ c4 <> "="%char.
Proof.
  intros t. unfold sextets.
  rewrite !Z.shiftl_mul_pow2 by lia.
  change (2 ^ 16)%Z with 65536%Z. change (2 ^ 8)%Z with 256%Z. fold t.
  rewrite !sextet_div by lia.
  change 63%Z with (Z.ones 6). rewrite Z.land_ones by lia.
  change (2 ^ 18)%Z with 262144%Z. change (2 ^ 12)%Z with 4096%Z.
  change (2 ^ 6)%Z with 64%Z.
  destruct (alphabet_at_char ((t / 262144) mod 64))
    as (c1 & -> & H1 & P1); [apply Z.mod_pos_bound; lia |].
  destruct (alphabet_at_char ((t / 4096) mod 64))
    as (c2 & -> & H2 & P2); [apply Z.mod_pos_bound; lia |].
  destruct (alphabet_at_char ((t / 64) mod 64))
    as (c3 & -> & H3 & P3); [apply Z.mod_pos_bound; lia |].
  destruct (alphabet_at_char (t mod 64))
    as (c4 & -> & H4 & P4); [apply Z.mod_pos_bound; lia |].
  exists c1, c2, c3, c4. by repeat split.
Qed.

Lemma sextets_length (a b c : Z) : String.length (sextets a b c) = 4.
Proof. destruct (sextets_chars a b c) as (? & ? & ? & ? & -> & _). done. Qed.

Lemma encode_groups_length (data : list byte) :
  data <> [] -> 4 <= String.length (encode_groups data).
Proof.
  destruct data as [|a [|b [|c rest]]]; [done | | |]; intros _;
    cbn [encode_groups]; rewrite ?length_append, sextets_length; lia.
Qed.

Lemma string_set_length (i : nat) (c : ascii) (s : string) :
  String.length (string_set i c s) = String.length s.
Proof.
  revert i. induction s as [|d s IH]; intros [|i]; cbn; auto.
Qed.

Lemma string_set_app (i : nat) (c : ascii) (s t : string) :
  string_set (String.length s + i) c (s +:+ t) = s +:+ string_set i c t.
Proof.
  induction s as [|d s IH]; [done |].
  rewrite !append_cons. cbn. by rewrite IH.
Qed.

(** The padding loop touches the last group only. *)
Lemma padding_app (s t : string) (js : list nat) :
  Forall (fun j => j < String.length t) js ->
  fold_left
    (fun result j => string_set (String.length result - 1 - j) "=" result)
    js (s +:+ t) =
  s +:+
  fold_left
    (fun result j => string_set (String.length result - 1 - j) "=" result)
    js t.
Proof.
  revert t. induction js as [|j js IH]; intros t Hjs; [done |].
  apply Forall_cons in Hjs as [Hj Hjs]. cbn [fold_left].
  rewrite length_append.
  replace (String.length s + String.length t - 1 - j)
    with (String.length s + (String.length t - 1 - j)) by lia.
  rewrite string_set_app. apply IH.
  by rewrite string_set_length.
Qed.

Lemma base64_encode_eq (data : list byte) :
  base64_encode data = encode_padded data.
Proof.
  induction data as [|a|a b|a b c rest IH] using triples_ind.
  - reflexivity.
  - unfold base64_encode. cbn [encode_groups encode_padded length].
    destruct (sextets_chars (octet a) 0 0) as (c1 & c2 & c3 & c4 & -> & _).
    reflexivity.
  - unfold base64_encode. cbn [encode_groups encode_padded length].
    destruct (sextets_chars (octet a) (octet b) 0)
      as (c1 & c2 & c3 & c4 & -> & _).
    reflexivity.
  - cbn [encode_padded]. rewrite <- IH. unfold base64_encode.
    cbn [encode_groups length].
    replace (S (S (S (length rest))) mod 3) with (length rest mod 3)
      by (rewrite <- (Nat.Div0.mod_add (length rest) 1 3); f_equal; lia).
    destruct (bool_decide (0 < length rest mod 3)) eqn:Hmod; [|reflexivity].
    apply bool_decide_eq_true in Hmod.
    apply padding_app.
    assert (rest <> []) as Hrest by (intros ->; cbn in Hmod; lia).
    apply encode_groups_length in Hrest.
    apply Forall_forall. intros j Hj. apply elem_of_seq in Hj. lia.
Qed.

(** X20. The padding of [base64_encode], written in place over the last
    characters of the result, gives the encoding of RFC 4648 group by
    group: four characters for every three octets, two characters and [==]
    for a last single octet, three characters and [=] for a last pair. *)
Theorem base64_encode_padded (data : list byte) :
  base64_encode data = encode_padded data.
Proof. apply base64_encode_eq. Qed.

(** The octets of a group can be read back from its sextets, the first
    from two of them, the second from three. *)
Lemma sextets_inj (a b c a' b' c' : Z) :
  (0 <= a < 256)%Z -> (0 <= b < 256)%Z -> (0 <= c < 256)%Z ->
  (0 <= a' < 256)%Z -> (0 <= b' < 256)%Z -> (0 <= c' < 256)%Z ->
  let t := (a * 65536 + b * 256 + c)%Z in
  let t' := (a' * 65536 + b' * 256 + c')%Z in
  ((t / 262144) mod 64 = (t' / 262144) mod 64)%Z ->
  ((t / 4096) mod 64 = (t' / 4096) mod 64)%Z ->
  a = a' /\
  (((t / 64) mod 64 = (t' / 64) mod 64)%Z ->
   b = b' /\ ((t mod 64 = t' mod 64)%Z -> c = c')).
Proof.
  intros Ha Hb Hc Ha' Hb' Hc' t t' H1 H2. subst t t'.
  split; [|intros H3; split; [|intros H4]];
    Z.div_mod_to_equations; lia.
Qed.

Lemma to_nat_mod_inj (x y : Z) :
  Z.to_nat (x mod 64) = Z.to_nat (y mod 64) -> (x mod 64 = y mod 64)%Z.
Proof.
  pose proof (Z.mod_pos_bound x 64 ltac:(lia)).
  pose proof (Z.mod_pos_bound y 64 ltac:(lia)). lia.
Qed.

Lemma encode_padded_inj (d1 d2 : list byte) :
  encode_padded d1 = encode_padded d2 -> d1 = d2.
Proof.
  revert d2.
  induction d1 as [|a|a b|a b c rest IH] using triples_ind;
    intros [|a' [|b' [|c' rest']]]; cbn [encode_padded];
    repeat match goal with
           | |- context [sextets ?x ?y ?z] =>
               let F1 := fresh "F" in let F2 := fresh "F" in
               let F3 := fresh "F" in let F4 := fresh "F" in
               let P1 := fresh "P" in let P2 := fresh "P" in
               let P3 := fresh "P" in let P4 := fresh "P" in
               destruct (sextets_chars x y z)
                 as (? & ? & ? & ? & -> & F1 & F2 & F3 & F4
                     & P1 & P2 & P3 & P4)
           end;
    cbn [substr_to]; rewrite ?append_cons, ?append_nil_l;
    intros Heq; try discriminate; try reflexivity;
    simplify_eq; try congruence.
  - pose proof (octet_range a). pose proof (octet_range a').
    destruct (sextets_inj (octet a) 0 0 (octet a') 0 0) as [Ha _];
      try lia; try (apply to_nat_mod_inj; congruence).
    by rewrite (octet_inj _ _ Ha).
  - pose proof (octet_range a). pose proof (octet_range a').
    pose proof (octet_range b). pose proof (octet_range b').
    destruct (sextets_inj (octet a) (octet b) 0 (octet a') (octet b') 0)
      as [Ha Hb]; try lia; try (apply to_nat_mod_inj; congruence).
    destruct Hb as [Hb _]; [apply to_nat_mod_inj; congruence |].
    by rewrite (octet_inj _ _ Ha), (octet_inj _ _ Hb).
  - pose proof (octet_range a). pose proof (octet_range a').
    pose proof (octet_range b). pose proof (octet_range b').
    pose proof (octet_range c). pose proof (octet_range c').
    destruct (sextets_inj (octet a) (octet b) (octet c)
                (octet a') (octet b') (octet c')) as [Ha Hb];
      try lia; try (apply to_nat_mod_inj; congruence).
    destruct Hb as [Hb Hc]; [apply to_nat_mod_inj; congruence |].
    assert (Hc' : octet c = octet c').
    { apply Hc.
      pose proof (Z.mod_pos_bound
                    (octet a * 65536 + octet b * 256 + octet c) 64
                    ltac:(lia)).
      pose proof (Z.mod_pos_bound
                    (octet a' * 65536 + octet b' * 256 + octet c') 64
                    ltac:(lia)).
      lia. }
    rewrite (octet_inj _ _ Ha), (octet_inj _ _ Hb), (octet_inj _ _ Hc').
    f_equal. f_equal. f_equal. by apply IH.
Qed.

(** X21. [base64_encode] loses nothing: two octet strings with the same
    encoding are the same. *)
Theorem base64_encode_injective (d1 d2 : list byte) :
  base64_encode d1 = base64_encode d2 -> d1 = d2.
Proof. rewrite !base64_encode_eq. apply encode_padded_inj. Qed.

(** *** What the resolution of the project leaves alone *)

Ltac world_facts :=
  repeat match goal with
         | Htake : take_outcome _ = _ |- _ =>
             apply take_outcome_keeps in Htake as (? & ? & ? & ?)
         end.

Lemma onboard_poll_keeps (n : nat) (url body access_token tier_id : string)
    (b b' : Backend.t) (r : result (option string)) :
  onboard_poll n url body access_token tier_id b = (r, b') ->
  Backend.oauth_manager_ b' = Backend.oauth_manager_ b /\
  World.files (Backend.world b') = World.files (Backend.world b) /\
  match r with
  | Ok (Some pid) => Backend.project_id_ b' = pid
  | _ => Backend.project_id_ b' = Backend.project_id_ b
  end.
Proof.
  revert b. induction n as [|n IH]; intros b H; cbn [onboard_poll] in H.
  - unfold ret in H. by simplify_eq.
  - unfold bind at 1, curl_easy_init in H.
    destruct (take_outcome (Backend.world b)) as [[|res code received] w]
      eqn:Htake; apply take_outcome_keeps in Htake as (Hfiles & _).
    + apply IH in H as (Hom & Hf & Hr). cbn in Hom, Hf. rewrite Hf, Hfiles.
      split; [exact Hom |]. split; [reflexivity |].
      destruct r as [[pid|]|e]; exact Hr.
    + unfold bind at 1, effect at 1, modify at 1 in H.
      destruct (_ || _) in H.
      { unfold throw in H. simplify_eq. cbn. by rewrite Hfiles. }
      unfold bind at 1, lift at 1 in H.
      destruct (parse _) as [lro|e] in H; [|simplify_eq; cbn; by rewrite Hfiles].
      unfold bind at 1, lift at 1 in H.
      destruct (value_bool lro "done" false) as [[|]|e] in H;
        [| |simplify_eq; cbn; by rewrite Hfiles].
      * unfold set_project_id, bind, lift, ret, modify in H.
        repeat (case_match; simplify_eq); cbn; by rewrite Hfiles.
      * unfold bind at 1, sleep_for, bind at 1, effect, modify in H.
        apply IH in H as (Hom & Hf & Hr). cbn in Hom, Hf, Hr.
        rewrite Hf, Hfiles. split; [exact Hom |]. split; [reflexivity |].
        destruct r as [[pid|]|e]; exact Hr.
Qed.

Lemma ensure_project_id_keeps (access_token : string) (b b' : Backend.t)
    (r : result string) :
  ensure_project_id access_token b = (r, b') ->
  Backend.oauth_manager_ b' = Backend.oauth_manager_ b /\
  World.files (Backend.world b') = World.files (Backend.world b) /\
  match r with
  | Ok pid => Backend.project_id_ b = "" -> Backend.project_id_ b' = pid
  | Throw _ => Backend.project_id_ b' = Backend.project_id_ b
  end.
Proof.
  unfold ensure_project_id. intros H. unfold bind at 1, gets at 1 in H.
  destruct (string_empty (Backend.project_id_ b)) eqn:Hempty; cbn [negb] in H.
  2:{ unfold ret in H. simplify_eq. by repeat split. }
  unfold bind at 1, gets at 1 in H. unfold bind at 1, curl_easy_init in H.
  destruct (take_outcome (Backend.world b)) as [[|res code received] w]
    eqn:Htake; apply take_outcome_keeps in Htake as (Hfiles & _).
  { unfold throw in H. simplify_eq. cbn. by rewrite Hfiles. }
  unfold bind at 1, lift at 1 in H.
  destruct (dump None _) as [request_body|e] in H;
    [|simplify_eq; cbn; by rewrite Hfiles].
  unfold bind at 1, effect at 1, modify at 1 in H.
  destruct (_ || _) in H.
  { unfold throw in H. simplify_eq. cbn. by rewrite Hfiles. }
  unfold bind at 1, lift at 1 in H.
  destruct (parse _) as [data|e] in H; [|simplify_eq; cbn; by rewrite Hfiles].
  destruct (contains data "currentTier").
  - unfold set_project_id, bind, lift, ret, modify in H.
    repeat (case_match; simplify_eq); cbn; by rewrite Hfiles.
  - unfold bind at 1 in H.
    match type of H with
    | context [match ?m ?s with _ => _ end] =>
        destruct (m s) as [[tier|e] b3] eqn:Htier
    end.
    2:{ simplify_eq. revert Htier. unfold bind, lift, ret.
        intros Htier. repeat (case_match; simplify_eq); cbn;
          by rewrite Hfiles. }
    assert (b3 = with_world (record_effect
              (HttpPost (get_api_endpoint +:+ ":loadCodeAssist")
                 (bearer_headers access_token) request_body))
              (with_world (fun _ => w) b)) as ->.
    { revert Htier. unfold bind, lift, ret.
      intros Htier. repeat (case_match; simplify_eq); reflexivity. }
    revert H. unfold onboard_for_project. generalize ONBOARD_MAX_RETRIES.
    intros n H. unfold bind at 1 in H.
    match type of H with
    | context [onboard_poll ?n ?u ?bd ?t ?ti ?s] =>
        destruct (onboard_poll n u bd t ti s) as [[[p|]|e] b4] eqn:Hpoll;
          apply onboard_poll_keeps in Hpoll as (Hom & Hf & Hr)
    end; cbn in Hom, Hf, Hr.
    + unfold ret in H. simplify_eq. rewrite Hf, Hfiles. by repeat split.
    + unfold set_project_id, bind, modify, ret, throw in H.
      repeat (case_match; simplify_eq); cbn; rewrite ?Hf, ?Hfiles;
        by repeat split.
    + simplify_eq. rewrite Hf, Hfiles. by repeat split.
Qed.

(** X22. The resolution of the project never touches the OAuth manager
    (the cached credential included) or any file, whether it returns or
    throws.  When it throws, nothing is cached: the cached project id is as
    before.  When it returns with nothing cached before, the project id it
    returns is the one cached afterwards. *)
Theorem failed_project_resolution_caches_nothing (access_token : string)
    (b b' : Backend.t) (r : result string) :
  ensure_project_id access_token b = (r, b') ->
  Backend.oauth_manager_ b' = Backend.oauth_manager_ b /\
  World.files (Backend.world b') = World.files (Backend.world b) /\
  match r with
  | Ok pid => Backend.project_id_ b = "" -> Backend.project_id_ b' = pid
  | Throw _ => Backend.project_id_ b' = Backend.project_id_ b
  end.
Proof. apply ensure_project_id_keeps. Qed.

(** *** A completion that succeeds at once *)




(** *** The tool registry *)

Lemma smap_lookup_insert {V} (k : string) (v : V) (m : smap V) :
  smap_lookup k (smap_insert k v m) = Some v.
Proof.
  induction m as [|[k' v'] m IH]; cbn.
  - by rewrite String.eqb_refl.
  - destruct (String.eqb k k') eqn:Heq; cbn.
    + by rewrite String.eqb_refl.
    + destruct (String.ltb k k'); cbn.
      * by rewrite String.eqb_refl.
      * by rewrite Heq.
Qed.

Lemma smap_lookup_insert_ne {V} (k k' : string) (v : V) (m : smap V) :
  String.eqb k k' = false ->
  smap_lookup k' (smap_insert k v m) = smap_lookup k' m.
Proof.
  intros Hne. assert (Hne' : String.eqb k' k = false)
    by (by rewrite String.eqb_sym).
  induction m as [|[k1 v1] m IH]; cbn.
  - by rewrite Hne'.
  - destruct (String.eqb k k1) eqn:Heq; cbn.
    + apply String.eqb_eq in Heq as <-. by rewrite Hne'.
    + destruct (String.ltb k k1); cbn.
      * by rewrite Hne'.
      * by rewrite IH.
Qed.

Lemma smap_lookup_erase {V} (k : string) (m : smap V) :
  smap_lookup k (smap_erase k m) = None.
Proof.
  induction m as [|[k' v'] m IH]; cbn; [done |].
  destruct (String.eqb k k') eqn:Heq; cbn; [done |]. by rewrite Heq.
Qed.

Lemma smap_lookup_erase_ne {V} (k k' : string) (m : smap V) :
  String.eqb k k' = false ->
  smap_lookup k' (smap_erase k m) = smap_lookup k' m.
Proof.
  intros Hne. induction m as [|[k1 v1] m IH]; cbn; [done |].
  destruct (String.eqb k k1) eqn:Heq; cbn.
  - apply String.eqb_eq in Heq as <-.
    rewrite String.eqb_sym in Hne. by rewrite Hne.
  - by rewrite IH.
Qed.

Lemma smap_lookup_keys {V} (k : string) (m : smap V) :
  k ∈ m.*1 <-> is_Some (smap_lookup k m).
Proof.
  induction m as [|[k' v'] m IH]; cbn.
  - split; [by intros ?%elem_of_nil | by intros [? ?]].
  - destruct (String.eqb k k') eqn:Heq.
    + apply String.eqb_eq in Heq as ->. split; [by eauto | left].
    + rewrite elem_of_cons, IH. apply String.eqb_neq in Heq.
      split; [intros [?|?]; [congruence | done] | by right].
Qed.

(** A registry holds, for every name, the registration in force. *)
Lemma registry_lookup (calls : list RegistryCall) (name : string)
    (r : ToolRegistry.t) :
  let r' := fold_left registry_call calls r in
  let current :=
    match get_tool name r, get_handler name r with
    | Some tool, Some handler => Some (tool, handler)
    | _, _ => None
    end in
  (is_Some (get_tool name r) <-> is_Some (get_handler name r)) ->
  get_tool name r' = fst <$> in_force name calls current /\
  get_handler name r' = snd <$> in_force name calls current.
Proof.
  revert r. induction calls as [|[tool handler|name'] calls IH];
    intros r r' current Hsync.
  - subst r' current. cbn.
    destruct (get_tool name r) as [t|], (get_handler name r) as [h|];
      cbn; try done.
    + destruct Hsync as [Hs _]. by destruct Hs.
    + destruct Hsync as [_ Hs]. by destruct Hs.
  - subst r' current. cbn [fold_left in_force registry_call].
    destruct (String.eqb (Tool.name tool) name) eqn:Heq.
    + apply String.eqb_eq in Heq as <-.
      specialize (IH (register_tool tool handler r)).
      cbv zeta in IH. unfold get_tool, get_handler, register_tool in IH.
      cbn [ToolRegistry.tools_ ToolRegistry.handlers_] in IH.
      rewrite !smap_lookup_insert in IH. by apply IH.
    + specialize (IH (register_tool tool handler r)).
      cbv zeta in IH. unfold get_tool, get_handler, register_tool in IH.
      cbn [ToolRegistry.tools_ ToolRegistry.handlers_] in IH.
      rewrite !(smap_lookup_insert_ne _ _ _ _ Heq) in IH. by apply IH.
  - subst r' current. cbn [fold_left in_force registry_call].
    destruct (String.eqb name' name) eqn:Heq.
    + apply String.eqb_eq in Heq as <-.
      specialize (IH (unregister name' r)).
      cbv zeta in IH. unfold get_tool, get_handler, unregister in IH.
      cbn [ToolRegistry.tools_ ToolRegistry.handlers_] in IH.
      rewrite !smap_lookup_erase in IH. by apply IH.
    + specialize (IH (unregister name' r)).
      cbv zeta in IH. unfold get_tool, get_handler, unregister in IH.
      cbn [ToolRegistry.tools_ ToolRegistry.handlers_] in IH.
      rewrite !(smap_lookup_erase_ne _ _ _ Heq) in IH. by apply IH.
Qed.

(** X24. After any sequence of [register_tool] and [unregister] calls on a
    new registry, tools and handlers agree: for every name the registry
    holds the tool and the handler of the last registration under that
    name, or neither when the name was never registered or was
    unregistered since.  [has] and [names] tell which names are held, a
    held tool carries its own name, and [execute] runs the handler in force
    for the invocation's name and returns the failure result
    [Tool '<name>' not found] when there is none. *)
Theorem registry_holds_last_registration (calls : list RegistryCall)
    (name : string) (invocation : ToolInvocation.t) :
  let r := fold_left registry_call calls ToolRegistry.empty in
  get_tool name r = fst <$> in_force name calls None /\
  get_handler name r = snd <$> in_force name calls None /\
  has name r = bool_decide (is_Some (in_force name calls None)) /\
  (name ∈ names r <-> is_Some (in_force name calls None)) /\
  (forall tool, get_tool name r = Some tool -> Tool.name tool = name) /\
  execute invocation r =
    match in_force (ToolInvocation.name invocation) calls None with
    | Some (_, handler) => handler invocation
    | None =>
        inl (failure_result
               ("Tool '" +:+ ToolInvocation.name invocation +:+ "' not found"))
    end.
Proof.
  intros r.
  assert (Hall : forall n,
    get_tool n r = fst <$> in_force n calls None /\
    get_handler n r = snd <$> in_force n calls None).
  { intros n. apply (registry_lookup calls n ToolRegistry.empty).
    cbn. split; by intros [? ?]. }
  destruct (Hall name) as [Htool Hhandler].
  split; [exact Htool |]. split; [exact Hhandler |].
  split; [|split; [|split]].
  - unfold has. fold (get_tool name r). rewrite Htool.
    destruct (in_force name calls None);
      [by rewrite !bool_decide_eq_true_2 by (cbn; eauto) |].
    by rewrite !bool_decide_eq_false_2 by (cbn; by intros [? ?]).
  - unfold names. rewrite smap_lookup_keys. fold (get_tool name r).
    rewrite Htool. by rewrite fmap_is_Some.
  - intros tool. rewrite Htool. clear.
    assert (Hgen : forall current,
      (forall t h, current = Some (t, h) -> Tool.name t = name) ->
      forall t h, in_force name calls current = Some (t, h) ->
                  Tool.name t = name).
    { induction calls as [|[tool' handler|name'] calls IH];
        intros current Hcur t h; cbn [in_force]; [by apply Hcur | |].
      - apply IH. intros t' h'.
        destruct (String.eqb (Tool.name tool') name) eqn:Heq;
          [|by apply Hcur].
        intros [= <- <-]. by apply String.eqb_eq.
      - apply IH. intros t' h'. destruct (String.eqb name' name);
          [done | by apply Hcur]. }
    destruct (in_force name calls None) as [[t h]|] eqn:Hin; [|done].
    intros [= <-]. by eapply (Hgen None).
  - unfold execute. fold (get_handler (ToolInvocation.name invocation) r).
    destruct (Hall (ToolInvocation.name invocation)) as [_ ->].
    destruct (in_force (ToolInvocation.name invocation) calls None)
      as [[t h]|]; reflexivity.
Qed.

Lemma value_json_build (properties required_fields default : json) :
  value_json
    (obj [("properties", properties); ("required", required_fields)])
    "properties" default = Ok properties /\
  value_json
    (obj [("properties", properties); ("required", required_fields)])
    "required" default = Ok required_fields.
Proof. split; vm_compute; reflexivity. Qed.

Lemma push_tool_defined (func_decls : list json) (name description : string)
    (builder : ToolParametersBuilder.t) :
  push_tool func_decls (define_tool name description builder) =
  Ok (func_decls ++ [declaration name description builder]).
Proof.
  unfold push_tool, define_tool, create_tool, build. cbn [Tool.parameters].
  destruct (value_json_build
              (JObject (ToolParametersBuilder.properties_ builder))
              (JArray (JString <$> ToolParametersBuilder.required_ builder))
              (JObject [])) as [-> _].
  destruct (value_json_build
              (JObject (ToolParametersBuilder.properties_ builder))
              (JArray (JString <$> ToolParametersBuilder.required_ builder))
              (JArray [])) as [_ ->].
  reflexivity.
Qed.

(** X25. Tools defined with the parameter builder can always be declared
    to the provider: [prepare_tools] does not throw on them and returns one
    [functionDeclarations] entry whose declarations are, in the order of
    the tools, the name, the description and a [parameters] object of type
    [object] with exactly the properties and the required fields the
    builder holds. *)
Theorem built_tools_are_declared
    (defs : list (string * string * ToolParametersBuilder.t)) :
  defs <> [] ->
  prepare_tools ((fun d => define_tool d.1.1 d.1.2 d.2) <$> defs) =
  Ok (JArray
        [obj [("functionDeclarations",
               JArray ((fun d => declaration d.1.1 d.1.2 d.2) <$> defs))]]).
Proof.
  intros Hdefs.
  assert (Hpush : forall func_decls,
    push_tools func_decls ((fun d => define_tool d.1.1 d.1.2 d.2) <$> defs) =
    Ok (func_decls ++ ((fun d => declaration d.1.1 d.1.2 d.2) <$> defs))).
  { clear Hdefs. induction defs as [|d defs IH]; intros func_decls.
    - cbn. by rewrite app_nil_r.
    - cbn [fmap list_fmap push_tools]. rewrite push_tool_defined.
      cbn [rbind]. rewrite IH, <- app_assoc. reflexivity. }
  destruct defs as [|d defs]; [done |].
  unfold prepare_tools. cbn [fmap list_fmap].
  change (define_tool d.1.1 d.1.2 d.2 ::
          list_fmap _ _ (fun d => define_tool d.1.1 d.1.2 d.2) defs)
    with ((fun d => define_tool d.1.1 d.1.2 d.2) <$> (d :: defs)).
  rewrite Hpush. reflexivity.
Qed.

(** *** Reading the answer of the provider *)

Lemma with_world_id (b : Backend.t) : with_world (Nat.iter 0 count_draw) b = b.
Proof. by destruct b. Qed.

Lemma with_world_draws (n m : nat) (b : Backend.t) :
  with_world (Nat.iter n count_draw) (with_world (Nat.iter m count_draw) b) =
  with_world (Nat.iter (m + n) count_draw) b.
Proof.
  unfold with_world. cbn. f_equal. by rewrite Nat.add_comm, Nat.iter_add.
Qed.

(** A tool call as the parser makes it. *)
Lemma absorb_part_run (chunk chunk' : LLMChunk.t) (part : json)
    (b b' : Backend.t) :
  absorb_part chunk part b = (Ok chunk', b') ->
  LLMChunk.usage chunk' = LLMChunk.usage chunk /\
  exists new : list ToolCall.t,
    LLMChunk.tool_calls chunk' = LLMChunk.tool_calls chunk ++ new /\
    Forall (fun tc => ToolCall.type tc = "function" /\
                      matches uuid_v4 (ToolCall.id tc) = true) new /\
    b' = with_world (Nat.iter (31 * length new) count_draw) b.
Proof.
  unfold absorb_part. intros H.
  unfold bind, lift, ret in H.
  repeat (case_match; simplify_eq);
    try match goal with
        | Hid : generate_uuid ?s = _ |- _ =>
            destruct (generate_uuid_run s) as (u & Hu & Hshape & _);
            rewrite Hu in Hid
        end;
    simplify_eq; cbn [LLMChunk.usage LLMChunk.tool_calls];
    (split; [reflexivity |]);
    first [ exists []; rewrite app_nil_r;
            split; [reflexivity |]; split; [constructor |];
            symmetry; apply with_world_id
          | eexists [_]; split; [reflexivity |];
            split; [by repeat constructor | reflexivity] ].
Qed.

Lemma absorb_parts_run (parts : list json) (chunk chunk' : LLMChunk.t)
    (b b' : Backend.t) :
  absorb_parts chunk parts b = (Ok chunk', b') ->
  LLMChunk.usage chunk' = LLMChunk.usage chunk /\
  exists new : list ToolCall.t,
    LLMChunk.tool_calls chunk' = LLMChunk.tool_calls chunk ++ new /\
    Forall (fun tc => ToolCall.type tc = "function" /\
                      matches uuid_v4 (ToolCall.id tc) = true) new /\
    b' = with_world (Nat.iter (31 * length new) count_draw) b.
Proof.
  revert chunk b. induction parts as [|part parts IH]; intros chunk b H.
  - cbn in H. unfold ret in H. simplify_eq. split; [done |].
    exists []. rewrite app_nil_r. split; [done |]. split; [constructor |].
    symmetry. apply with_world_id.
  - cbn [absorb_parts] in H. unfold bind at 1 in H.
    destruct (absorb_part chunk part b) as [[chunk1|e] b1] eqn:Hpart;
      [|discriminate].
    apply absorb_part_run in Hpart as (Hu1 & new1 & Htc1 & Hall1 & ->).
    apply IH in H as (Hu2 & new2 & Htc2 & Hall2 & ->).
    split; [congruence |].
    exists (new1 ++ new2). split; [by rewrite Htc2, Htc1, app_assoc |].
    split; [by apply Forall_app |].
    rewrite with_world_draws, length_app. f_equal. f_equal. lia.
Qed.

(** X26. Every tool call [parse_completion_response] returns has the type
    [function] and an identifier of the shape of a version 4 identifier,
    and reading an answer does nothing to the backend but draw from the
    random engine, 31 numbers for each tool call returned. *)
Theorem parsed_tool_calls_are_identified (data : json) (chunk : LLMChunk.t)
    (b b' : Backend.t) :
  parse_completion_response data b = (Ok chunk, b') ->
  Forall (fun tc => ToolCall.type tc = "function" /\
                    matches uuid_v4 (ToolCall.id tc) = true)
    (LLMChunk.tool_calls chunk) /\
  b' = with_world
         (Nat.iter (31 * length (LLMChunk.tool_calls chunk)) count_draw) b.
Proof.
  unfold parse_completion_response. intros H.
  unfold bind at 1, lift at 1 in H.
  destruct (response_data_of data) as [response_data|e]; [|discriminate].
  unfold bind at 1, read_candidate in H.
  unfold bind at 1 in H.
  match type of H with
  | context [match ?m b with _ => _ end] =>
      destruct (m b) as [[candidates|e] b0] eqn:Hcand
  end; [|discriminate].
  assert (b0 = b) as ->.
  { revert Hcand. unfold lift, ret. intros Hc.
    repeat (case_match; simplify_eq); reflexivity. }
  destruct (_ || _) in H.
  { unfold ret in H. simplify_eq. split; [constructor |].
    symmetry. apply with_world_id. }
  unfold bind at 1, lift at 1 in H.
  destruct (at_index candidates 0) as [candidate|e]; [|discriminate].
  unfold bind at 1, lift at 1 in H.
  destruct (value_json candidate "content" _) as [content|e]; [|discriminate].
  unfold bind at 1, lift at 1 in H.
  destruct (value_json content "parts" _) as [parts|e]; [|discriminate].
  unfold bind at 1 in H.
  destruct (absorb_parts LLMChunk.empty (items parts) b)
    as [[chunk1|e] b1] eqn:Hparts; [|discriminate].
  apply absorb_parts_run in Hparts as (_ & new & Htc & Hall & ->).
  cbn [LLMChunk.tool_calls LLMChunk.empty app] in Htc.
  unfold ret at 1 in H. unfold bind, lift, ret in H.
  subst new.
  repeat (case_match; simplify_eq); cbn [LLMChunk.tool_calls]; by split.
Qed.

(** *** The streamed text and the final message *)

Lemma concat_app (l1 l2 : list string) :
  String.concat "" (l1 ++ l2) = String.concat "" l1 +:+ String.concat "" l2.
Proof.
  induction l1 as [|s l1 IH]; [done |].
  assert (Hcons : forall l, String.concat "" (s :: l) = s +:+ String.concat "" l).
  { intros [|t l]; cbn; [by rewrite append_nil_r | done]. }
  cbn [app]. by rewrite !Hcons, IH, append_assoc.
Qed.

Lemma delta_texts_app (e1 e2 : list SessionEvent.t) :
  delta_texts (e1 ++ e2) = delta_texts e1 ++ delta_texts e2.
Proof. apply omap_app. Qed.

Lemma delta_texts_none (events : list SessionEvent.t) :
  Forall (fun k => k <> EventType.AssistantMessageDelta) (kinds events) ->
  delta_texts events = [].
Proof.
  induction events as [|event events IH]; [done |].
  intros [Hk Hall]%Forall_cons. cbn. unfold delta_text at 1.
  destruct (SessionEvent.event_type event); try done; by apply IH.
Qed.

#[local] Instance accumulated_preorder : PreOrder accumulated.
Proof.
  split.
  - intros x. exists []. split; [apply emitted_refl |].
    split; [constructor |]. split; [done |]. cbn. by rewrite append_nil_r.
  - intros x y z (e1 & Hem1 & Hd1 & Hm1 & Hc1) (e2 & Hem2 & Hd2 & Hm2 & Hc2).
    exists (e1 ++ e2). split; [by eapply emitted_trans |]. split.
    { unfold kinds in *. rewrite fmap_app. by apply Forall_app. }
    split; [congruence |].
    by rewrite Hc2, Hc1, delta_texts_app, concat_app, append_assoc.
Qed.

Lemma on_chunk_accumulated (chunk : LLMChunk.t) (x : Captured.t * Host.t) :
  accumulated x (on_chunk chunk x).
Proof.
  destruct x as [c h]. unfold on_chunk.
  destruct (negb (string_empty (LLMChunk.content chunk)));
    destruct (LLMChunk.reasoning_content chunk) as [reasoning|];
    cbn [fst snd Captured.full_content].
  - eexists [_; _]. split.
    { eapply (emitted_trans [_] [_]); apply emitted_emit. }
    split.
    { apply Forall_cons. split; [by left |].
      apply Forall_cons. split; [by right | constructor]. }
    split; [reflexivity |]. vm_compute. reflexivity.
  - eexists [_]. split; [apply emitted_emit |].
    split; [apply Forall_cons; split; [by left | constructor] |].
    split; [reflexivity |]. vm_compute. reflexivity.
  - eexists [_]. split; [apply emitted_emit |].
    split; [apply Forall_cons; split; [by right | constructor] |].
    split; [reflexivity |]. cbn. by rewrite append_nil_r.
  - exists []. split; [apply emitted_refl |].
    split; [constructor |]. split; [reflexivity |]. cbn. by rewrite append_nil_r.
Qed.

Lemma tool_call_kinds_no_delta (tool_handlers : gmap string ToolHandler)
    (tool_calls : list ToolCall.t) :
  Forall (fun k => k <> EventType.AssistantMessageDelta)
    (tool_calls ≫= tool_call_kinds tool_handlers).
Proof.
  induction tool_calls as [|tc rest IH]; [constructor |].
  cbn. apply Forall_app. split; [|exact IH].
  unfold tool_call_kinds. destruct (_ !! _); by repeat constructor.
Qed.

Lemma msg_data_content (content : string) (tool_calls : list ToolCall.t)
    (usage : option LLMUsage.t) :
  at_key (msg_data content tool_calls usage) "content" = Ok (JString content).
Proof.
  unfold msg_data. destruct (bool_decide _), usage; reflexivity.
Qed.

(** The end of a turn that returns: its events carry no content delta, and
    the [AssistantMessage] event and the appended message carry the
    content. *)
Lemma finish_turn_content (content : string) (reasoning : option string)
    (tool_calls : list ToolCall.t) (usage : option LLMUsage.t)
    (h h' : Host.t) (b b' : Backend.t) :
  finish_turn content reasoning tool_calls usage (h, b) = (Ok tt, (h', b')) ->
  exists (events : list SessionEvent.t) (am : SessionEvent.t),
    emitted events h h' /\
    delta_texts events = [] /\
    am ∈ events /\
    SessionEvent.event_type am = EventType.AssistantMessage /\
    at_key (SessionEvent.data am) "content" = Ok (JString content) /\
    last (Session.messages_ (Host.session h')) =
      Some (assistant_message content tool_calls).
Proof.
  destruct (handle_tool_calls_run tool_calls h b)
    as (h1 & lines & e1 & msgs & Hrun & Hem & Hk & Hmsg & Hans).
  cbv zeta in Hrun, Hk, Hans.
  assert (Htools :
    (if bool_decide (tool_calls <> []) then handle_tool_calls tool_calls
     else ret tt) (h, b) = handle_tool_calls tool_calls (h, b))
    by (by destruct tool_calls).
  unfold finish_turn. unfold bind at 1. rewrite Htools, Hrun.
  destruct (left_at _ tool_calls) as [tc|] eqn:Hleft; [discriminate |].
  rewrite (handled_all _ _ Hleft) in Hk. rewrite app_nil_r in Hk.
  assert (He1 : delta_texts e1 = []).
  { apply delta_texts_none. rewrite Hk. apply tool_call_kinds_no_delta. }
  unfold bind, host_do. cbn [fst snd].
  destruct reasoning as [text|]; cbn [fst snd]; intros [= <- <-].
  - eexists (e1 ++ [_; _; _]), _. split.
    { eapply emitted_trans; [exact Hem |].
      eapply (emitted_trans [] [_; _; _]); [apply emitted_push_back |].
      eapply (emitted_trans [_] [_; _]); [apply emitted_emit |].
      eapply (emitted_trans [_] [_]); [apply emitted_emit |].
      apply emitted_emit. }
    split; [by rewrite delta_texts_app, He1 |].
    split.
    { apply elem_of_app. right. apply elem_of_cons. right.
      apply elem_of_cons. left. reflexivity. }
    split; [reflexivity |]. split; [apply msg_data_content |].
    cbn. by rewrite last_snoc.
  - eexists (e1 ++ [_; _]), _. split.
    { eapply emitted_trans; [exact Hem |].
      eapply (emitted_trans [] [_; _]); [apply emitted_push_back |].
      eapply (emitted_trans [_] [_]); [apply emitted_emit |].
      apply emitted_emit. }
    split; [by rewrite delta_texts_app, He1 |].
    split; [apply elem_of_app; right; apply elem_of_cons; by left |].
    split; [reflexivity |]. split; [apply msg_data_content |].
    cbn. by rewrite last_snoc.
Qed.

(** X27. In a turn of an open streaming session that returns, the text of
    the assistant's answer is the concatenation, in order, of the
    [deltaContent] of all the [AssistantMessageDelta] events the handlers
    were handed during the turn: this text is the [content] of the
    [AssistantMessage] event and the content of the assistant's message,
    which is the last message of the transcript.  Deltas streamed by an
    attempt that ended in a 401 or 403 are part of it. *)
Theorem streamed_content_is_sum_of_deltas (options : MessageOptions.t)
    (h h' : Host.t) (b b' : Backend.t) :
  Session.closed_ (Host.session h) = false ->
  Session.streaming_ (Host.session h) = true ->
  send options (h, b) = (Ok tt, (h', b')) ->
  exists (events : list SessionEvent.t) (am : SessionEvent.t)
         (tool_calls : list ToolCall.t),
    let content := String.concat "" (delta_texts events) in
    Host.received h' =
      Host.received h ++
      broadcast (Session.event_handlers_ (Host.session h)) events /\
    am ∈ events /\
    SessionEvent.event_type am = EventType.AssistantMessage /\
    at_key (SessionEvent.data am) "content" = Ok (JString content) /\
    last (Session.messages_ (Host.session h')) =
      Some (assistant_message content tool_calls).
Proof.
  intros Hopen Hstreaming.
  unfold send, bind at 1, the_session, gets. cbn [fst snd]. rewrite Hopen.
  unfold bind at 1, backend_do, current_time_ms, gets. cbn [fst snd].
  unfold bind at 1, host_do. cbn [fst snd].
  set (h1 := with_session _ _).
  assert (Hem0 : emitted [] h h1).
  { unfold emitted, broadcast. cbn. by rewrite app_nil_r. }
  unfold catch_std, bind at 1. cbn [fst snd].
  change (Session.streaming_ (Host.session h1))
    with (Session.streaming_ (Host.session h)).
  rewrite Hstreaming.
  unfold stream_response, bind at 1, the_session, gets. cbn [fst snd].
  unfold bind at 1, capturing. cbn [fst snd].
  destruct (complete_streaming on_chunk _ _ _ _ _ _) as [r [x b1]] eqn:Hrun.
  pose proof (keeps_complete_streaming accumulated on_chunk
                on_chunk_accumulated _ _ _ _ _ _ _ _ Hrun)
    as (e1 & Hem1 & _ & _ & Hc1).
  cbn [fst snd Captured.full_content] in Hem1, Hc1.
  rewrite append_nil_l in Hc1.
  destruct r as [[]|e].
  2:{ destruct (is_std_exception e);
        unfold bind, host_do, throw; cbn [fst snd]; discriminate. }
  cbn [fst snd].
  destruct (finish_turn _ _ _ _ _) as [[[]|e] [h2 b2]] eqn:Hfin.
  2:{ destruct (is_std_exception e);
        unfold bind, host_do, throw; cbn [fst snd]; discriminate. }
  destruct (finish_turn_content _ _ _ _ _ _ _ _ Hfin)
    as (e2 & am & Hem2 & Hno & Ham & Htype & Hdata & Hlast).
  intros [= <- <-].
  exists (e1 ++ e2), am, (Captured.all_tool_calls x.1). cbv zeta.
  rewrite delta_texts_app, Hno, app_nil_r, <- Hc1.
  split.
  { pose proof (emitted_trans [] (e1 ++ e2) h h1 h2 Hem0
                  (emitted_trans e1 e2 h1 x.2 h2 Hem1 Hem2))
      as (_ & _ & _ & _ & Hrec). exact Hrec. }
  split; [apply elem_of_app; by right |].
  by repeat split.
Qed.

(** *** The members of the request *)

Lemma set_opt_lookup_ne {A} (key k' : string) (to_json : A -> json)
    (v : option A) (m : smap json) :
  String.eqb key k' = false ->
  smap_lookup k' (set_opt key to_json v m) = smap_lookup k' m.
Proof. intros Hne. destruct v; [by apply smap_lookup_insert_ne | done]. Qed.

Lemma prepare_tools_ok (tools : list Tool.t) (prepared : json) :
  prepare_tools tools = Ok prepared ->
  negb (is_null prepared) && negb (json_empty prepared) =
  bool_decide (tools <> []).
Proof.
  destruct tools as [|tool rest]; cbn [prepare_tools].
  - intros [= <-]. reflexivity.
  - destruct (push_tools [] (tool :: rest)) as [decls|e]; [|discriminate].
    intros [= <-]. reflexivity.
Qed.

(** X28. The members of the request body: [model] is the model asked for;
    [project] is present exactly when the project id is not empty;
    [request.contents] is the prepared transcript; [request.tools] is
    present exactly when there are tools; the temperature is the one of the
    generation configuration, 0.7 without one; [thinkingConfig] is present
    exactly when a thinking configuration asks for thoughts. *)
Theorem request_payload_members (model : string) (messages : list Message.t)
    (generation_config : option GenerationConfig.t)
    (thinking_config : option ThinkingConfig.t) (tools : list Tool.t)
    (project_id : string) (payload : json) :
  build_request_payload model messages generation_config thinking_config
    tools project_id = Ok payload ->
  at_key payload "model" = Ok (JString model) /\
  contains payload "project" = negb (string_empty project_id) /\
  (project_id <> "" -> at_key payload "project" = Ok (JString project_id)) /\
  exists request gen_config : json,
    at_key payload "request" = Ok request /\
    at_key request "contents" = Ok (prepare_messages messages) /\
    contains request "tools" = bool_decide (tools <> []) /\
    at_key request "generationConfig" = Ok gen_config /\
    at_key gen_config "temperature" =
      Ok (JFloat match generation_config with
                 | Some gc => GenerationConfig.temperature gc
                 | None => default_temperature
                 end) /\
    contains gen_config "thinkingConfig" =
      match thinking_config with
      | Some tc => ThinkingConfig.include_thoughts tc
      | None => false
      end.
Proof.
  unfold build_request_payload.
  destruct (prepare_tools tools) as [prepared|e] eqn:Htools; [|discriminate].
  cbn [rbind]. rewrite (prepare_tools_ok _ _ Htools).
  set (gen_config := match thinking_config with
                     | Some tc => _
                     | None => _
                     end).
  intros [= <-].
  assert (Htemp : smap_lookup "temperature" gen_config =
                  Some (JFloat match generation_config with
                               | Some gc => GenerationConfig.temperature gc
                               | None => default_temperature
                               end)).
  { subst gen_config.
    assert (Hgc : smap_lookup "temperature"
              match generation_config with
              | Some gc =>
                  set_opt "stopSequences" (fun l => JArray (JString <$> l))
                    (GenerationConfig.stop_sequences gc)
                    (set_opt "topK" JInt (GenerationConfig.top_k gc)
                       (set_opt "topP" JFloat (GenerationConfig.top_p gc)
                          (set_opt "maxOutputTokens" JInt
                             (GenerationConfig.max_output_tokens gc)
                             (smap_insert "temperature"
                                (JFloat (GenerationConfig.temperature gc))
                                (smap_of_list
                                   [("temperature",
                                     JFloat default_temperature)])))))
              | None =>
                  smap_of_list [("temperature", JFloat default_temperature)]
              end =
            Some (JFloat match generation_config with
                         | Some gc => GenerationConfig.temperature gc
                         | None => default_temperature
                         end)).
    { destruct generation_config as [gc|]; [|reflexivity].
      rewrite !set_opt_lookup_ne by reflexivity.
      apply smap_lookup_insert. }
    destruct thinking_config as [tc|]; [|exact Hgc].
    destruct (ThinkingConfig.include_thoughts tc); [|exact Hgc].
    by rewrite smap_lookup_insert_ne by reflexivity. }
  assert (Hhas : contains (JObject gen_config) "thinkingConfig" =
                 match thinking_config with
                 | Some tc => ThinkingConfig.include_thoughts tc
                 | None => false
                 end).
  { subst gen_config. cbn [contains].
    assert (Hgc : forall gc : GenerationConfig.t,
      smap_lookup "thinkingConfig"
        (set_opt "stopSequences" (fun l => JArray (JString <$> l))
           (GenerationConfig.stop_sequences gc)
           (set_opt "topK" JInt (GenerationConfig.top_k gc)
              (set_opt "topP" JFloat (GenerationConfig.top_p gc)
                 (set_opt "maxOutputTokens" JInt
                    (GenerationConfig.max_output_tokens gc)
                    (smap_insert "temperature"
                       (JFloat (GenerationConfig.temperature gc))
                       (smap_of_list
                          [("temperature", JFloat default_temperature)])))))) =
      None).
    { intros gc. rewrite !set_opt_lookup_ne by reflexivity.
      by rewrite smap_lookup_insert_ne by reflexivity. }
    destruct thinking_config as [tc|];
      [destruct (ThinkingConfig.include_thoughts tc) |].
    - rewrite smap_lookup_insert. reflexivity.
    - destruct generation_config as [gc|]; [by rewrite Hgc | reflexivity].
    - destruct generation_config as [gc|]; [by rewrite Hgc | reflexivity]. }
  clearbody gen_config.
  destruct (bool_decide (tools <> [])) eqn:Hany;
    destruct (string_empty project_id) eqn:Hempty; cbn [negb].
  all: split; [reflexivity |]; split; [reflexivity |]; split;
    [ intros Hne; first [ by rewrite (string_empty_false _ Hne) in Hempty
                        | reflexivity ] |].
  all: eexists _, (JObject gen_config);
    split; [reflexivity |]; split; [reflexivity |];
    split; [reflexivity |]; split; [reflexivity |];
    split; [cbn [at_key]; by rewrite Htemp | exact Hhas].
Qed.

End Program.

(* ===================================================================== *)
(** * Part III. The properties at concrete inputs                         *)
(* ===================================================================== *)

(** C9 at a credential that expires one second after the epoch. *)
Lemma credentials_json_roundtrip_witness :
  GeminiOAuthCredentials.from_json
    (GeminiOAuthCredentials.to_json (sample_credentials "tok" "ref" 1000)) =
  Ok (sample_credentials "tok" "ref" 1000).
Proof.
  apply (credentials_json_roundtrip (sample_credentials "tok" "ref" 1000)).
  unfold in_int64. simpl. lia.
Defined.

(** C10 at a system message, an empty user message and an answer of the
    assistant: two entries, of roles [user] and [model]. *)
Lemma prepare_messages_roles_witness :
  prepare_messages
    [ plain_message Role.System "be brief"; plain_message Role.User "";
      plain_message Role.Assistant "hi" ] =
  JArray
    [ JObject [ ("parts", JArray [JObject [("text", JString "be brief")]]);
                ("role", JString "user") ];
      JObject [ ("parts", JArray [JObject [("text", JString "hi")]]);
                ("role", JString "model") ] ].
Proof.
  rewrite (proj1 (prepare_messages_roles _)). vm_compute. reflexivity.
Defined.

(** C3 at a credential that expires 999 seconds from now. *)
Lemma valid_token_returned_unchanged_witness :
  let b :=
    sample_backend (Some (sample_credentials "tok" "ref" 1000000)) ""
      (sample_world 1000 [] ∅) in
  ensure_authenticated sample_parse sample_dump sample_escape false b =
  (Ok "tok", b).
Proof.
  apply (valid_token_returned_unchanged sample_parse sample_dump sample_escape
           (sample_credentials "tok" "ref" 1000000)).
  - reflexivity.
  - unfold in_int64. simpl. lia.
  - simpl. lia.
  - unfold TOKEN_REFRESH_BUFFER_MS. simpl. lia.
Defined.

(** C4, as amended, at a credential that expired long ago: the token
    endpoint answers with the access token [fresh], valid for an hour. *)
Lemma stale_token_refreshed_and_persisted_witness :
  let c := sample_credentials "stale" "r0" 1000 in
  let fresh := sample_credentials "fresh" "r0" (2000000 + 3600 * 1000) in
  let b :=
    sample_backend (Some c) ""
      (sample_world 2000000 [CurlPerformed None 200 [text_token]] ∅) in
  exists b',
    ensure_authenticated sample_parse sample_dump sample_escape false b =
      (Ok "fresh", b') /\
    credentials_ b' = Some fresh /\
    World.files (Backend.world b') =
      <["oauth_creds.json" :=
          sample_dump (Some 2) (GeminiOAuthCredentials.to_json fresh)]> ∅ /\
    effects b' =
      [ refresh_request sample_escape c (Backend.oauth_manager_ b);
        FileWrite "oauth_creds.json"
          (sample_dump (Some 2) (GeminiOAuthCredentials.to_json fresh)) ] /\
    World.net (Backend.world b') = [].
Proof.
  intros c fresh b.
  apply (stale_token_refreshed_and_persisted sample_parse sample_dump
           sample_escape c fresh b [text_token] []
           (JObject [ ("access_token", JString "fresh");
                      ("expires_in", JInt 3600) ])).
  - reflexivity.
  - unfold TOKEN_REFRESH_BUFFER_MS. simpl. lia.
  - unfold TOKEN_REFRESH_BUFFER_MS. simpl. lia.
  - discriminate.
  - reflexivity.
  - vm_compute. reflexivity.
  - reflexivity.
  - vm_compute. reflexivity.
  - simpl. set_solver.
Defined.

(** C4 as stated fails where the cached credential has no refresh token:
    the credential expired, yet no exchange takes place, nothing is written
    and no token is returned.  The state is left as it was. *)
Lemma stale_token_without_refresh_token :
  let c := sample_credentials "stale" "" 1000 in
  let b :=
    sample_backend (Some c) ""
      (sample_world 2000000 [CurlPerformed None 200 [text_token]] ∅) in
  (GeminiOAuthCredentials.expiry_date c - World.now (Backend.world b) <=
   TOKEN_REFRESH_BUFFER_MS)%Z /\
  ensure_authenticated sample_parse sample_dump sample_escape false b =
    (Throw (TokenRefreshError "No refresh token available in credentials."
              None ""), b).
Proof.
  split; [unfold TOKEN_REFRESH_BUFFER_MS; simpl; lia | vm_compute; reflexivity].
Qed.

(** C7, as amended, at an account with a bound tier and the project
    [proj-1], and at a standard tier whose onboarding never finishes. *)
Lemma project_id_memoized_when_not_empty_witness :
  (let b :=
     sample_backend None ""
       (sample_world 0 [CurlPerformed None 200 [text_tier]] ∅) in
   exists b',
     ensure_project_id sample_parse sample_dump "tok" b = (Ok "proj-1", b') /\
     Backend.project_id_ b' = "proj-1" /\
     ensure_project_id sample_parse sample_dump "tok" b' = (Ok "proj-1", b')) /\
  (let b :=
     sample_backend None ""
       (sample_world 0 (replicate 30 (CurlPerformed None 200 [text_pending])) ∅)
   in
   exists b',
     onboard_for_project sample_parse sample_dump "tok" "" "standard-tier" b =
       (Throw (OnboardingError "Failed to complete onboarding" "standard-tier"),
        b') /\
     length (effects b') = 60 /\
     World.net (Backend.world b') = []).
Proof.
  destruct (project_id_memoized_when_not_empty sample_parse sample_dump)
    as [Hmemo Hpoll].
  split.
  - intros b.
    destruct (ensure_project_id sample_parse sample_dump "tok" b)
      as [r b'] eqn:Hrun.
    assert (Hr : r = Ok "proj-1") by (vm_compute in Hrun; congruence).
    subst r. exists b'.
    destruct (Hmemo "tok" "proj-1" b b' Hrun) as [Hpid Hlater];
      [discriminate |].
    split; [reflexivity |]. split; [exact Hpid |]. by apply Hlater.
  - intros b.
    destruct (Hpoll "tok" "" "standard-tier"
                (replicate 30 (CurlPerformed None 200 [text_pending])) [] b)
      as (b' & Hrun & Heff & Hnet & _).
    + reflexivity.
    + by rewrite app_nil_r.
    + apply Forall_replicate.
      exists [text_pending], (JObject [("done", JBool false)]).
      split; [reflexivity |]. split; vm_compute; reflexivity.
    + exists b'. split; [exact Hrun |]. split; [|exact Hnet].
      rewrite Heff. reflexivity.
Defined.

(** C7 as stated fails for the free-tier outcome.  The first call onboards
    on the free tier and succeeds with the empty project id; the next call
    does not find it cached and sends the discovery and the onboarding
    request again. *)
Lemma empty_project_id_not_memoized :
  let b :=
    sample_backend None ""
      (sample_world 0
         [ CurlPerformed None 200 [text_no_tier];
           CurlPerformed None 200 [text_done];
           CurlPerformed None 200 [text_no_tier];
           CurlPerformed None 200 [text_done] ] ∅) in
  exists b1 b2,
    ensure_project_id sample_parse sample_dump "tok" b = (Ok "", b1) /\
    posted_urls (effects b1) =
      [ "https://cloudcode-pa.googleapis.com/v1internal:loadCodeAssist";
        "https://cloudcode-pa.googleapis.com/v1internal:onboardUser" ] /\
    ensure_project_id sample_parse sample_dump "tok" b1 = (Ok "", b2) /\
    posted_urls (effects b2) =
      [ "https://cloudcode-pa.googleapis.com/v1internal:loadCodeAssist";
        "https://cloudcode-pa.googleapis.com/v1internal:onboardUser";
        "https://cloudcode-pa.googleapis.com/v1internal:loadCodeAssist";
        "https://cloudcode-pa.googleapis.com/v1internal:onboardUser" ].
Proof.
  intros b.
  destruct (ensure_project_id sample_parse sample_dump "tok" b)
    as [r1 b1] eqn:H1.
  destruct (ensure_project_id sample_parse sample_dump "tok" b1)
    as [r2 b2] eqn:H2.
  exists b1, b2.
  assert (Hb1 : (r1, b1) =
                ensure_project_id sample_parse sample_dump "tok" b) by done.
  vm_compute in Hb1. injection Hb1 as -> ->.
  vm_compute in H2. injection H2 as <- <-.
  repeat split.
Qed.

(** X1 at a backend with a valid cached token and a cached project: the
    completion request is answered 401. *)
Lemma complete_retries_once_after_unauthorized_witness :
  let b :=
    sample_backend (Some (sample_credentials "tok" "ref" 1000000)) "proj-1"
      (sample_world 1000 [CurlPerformed None 401 ["denied"]] ∅) in
  exists dropped,
    credentials_ dropped = None /\
    World.net (Backend.world dropped) = [] /\
    complete sample_parse sample_dump sample_escape sample_mt19937
      "gemini-2.5-pro" [plain_message Role.User "hi"] None None [] b =
    complete_attempt sample_parse sample_dump sample_escape sample_mt19937
      (ret LLMChunk.empty) "gemini-2.5-pro" [plain_message Role.User "hi"]
      None None [] 1 dropped.
Proof.
  intros b.
  edestruct (complete_retries_once_after_unauthorized sample_parse sample_dump
               sample_escape sample_mt19937 "gemini-2.5-pro"
               [plain_message Role.User "hi"] None None [] b)
    as (Hdropped & Hretry & _).
  - vm_compute. reflexivity.
  - vm_compute. reflexivity.
  - vm_compute. reflexivity.
  - vm_compute. reflexivity.
  - vm_compute. reflexivity.
  - left. reflexivity.
  - eexists. split; [exact Hdropped |]. split; [reflexivity |]. apply Hretry.
Defined.

(** X2 at a backend with nothing cached: the forced refresh reads the
    credential file and exchanges the token, and the completion request is
    answered 401 again. *)
Lemma retried_unauthorized_is_reported_witness :
  let b :=
    sample_backend None "proj-1"
      (sample_world 2000000
         [ CurlPerformed None 200 [text_token];
           CurlPerformed None 401 ["denied"];
           CurlPerformed None 200 [text_hello] ]
         {[ "oauth_creds.json" := text_stored ]}) in
  exists b',
    complete_attempt sample_parse sample_dump sample_escape sample_mt19937
      (ret LLMChunk.empty) "gemini-2.5-pro" [plain_message Role.User "hi"]
      None None [] 1 b =
    (Throw (APIError "API error: denied" 401), b') /\
    World.net (Backend.world b') = [CurlPerformed None 200 [text_hello]].
Proof.
  intros b.
  edestruct (retried_unauthorized_is_reported sample_parse sample_dump
               sample_escape sample_mt19937 "gemini-2.5-pro"
               [plain_message Role.User "hi"] None None []
               (ret LLMChunk.empty) b)
    as (Hrun & Hnet).
  - vm_compute. reflexivity.
  - vm_compute. reflexivity.
  - vm_compute. reflexivity.
  - vm_compute. reflexivity.
  - left. reflexivity.
  - match type of Hrun with
    | context [dumpable ?p] =>
        replace (dumpable p) with true in Hrun by (vm_compute; reflexivity)
    end.
    eexists. split; [exact Hrun | exact Hnet].
Defined.

(** X3 at a transfer that times out. *)
Lemma transport_failure_is_not_retried_witness :
  let b :=
    sample_backend (Some (sample_credentials "tok" "ref" 1000000)) "proj-1"
      (sample_world 1000
         [ CurlPerformed (Some "Timeout was reached") 0 [];
           CurlPerformed None 200 [text_hello] ] ∅) in
  exists b',
    complete sample_parse sample_dump sample_escape sample_mt19937
      "gemini-2.5-pro" [plain_message Role.User "hi"] None None [] b =
    (Throw (ConnectionError "CURL error: Timeout was reached"), b') /\
    World.net (Backend.world b') = [CurlPerformed None 200 [text_hello]].
Proof.
  intros b.
  eexists. split.
  - eapply (transport_failure_is_not_retried sample_parse sample_dump
              sample_escape sample_mt19937 "gemini-2.5-pro"
              [plain_message Role.User "hi"] None None [] b).
    + vm_compute. reflexivity.
    + vm_compute. reflexivity.
    + vm_compute. reflexivity.
    + vm_compute. reflexivity.
    + vm_compute. reflexivity.
    + discriminate.
    + discriminate.
  - reflexivity.
Defined.

(** X4 at status 500 with a body that is no JSON. *)
Lemma http_error_mapping_witness :
  let b := sample_backend None "" (sample_world 0 [] ∅) in
  handle_http_error sample_parse 500 "Internal error" b =
  (Throw (APIError "API error: Internal error" 500), b).
Proof.
  intros b.
  destruct (http_error_mapping sample_parse 500 "Internal error" b)
    as (e & Hrun & _ & _ & Hother & Hbody).
  rewrite Hrun, (Hother ltac:(discriminate) ltac:(discriminate)), Hbody;
    reflexivity.
Defined.

(** X5 at the stream of the specification, cut into four pieces in the
    middle of its lines: the callback, which counts its calls, is called
    once. *)
Lemma stream_independent_of_chunking_witness :
  let b := sample_backend None "" (sample_world 0 [] ∅) in
  let received :=
    [ "da"; "ta: " +:+ text_a1 +:+ String LF ""; String LF "data: [DO";
      "NE]" +:+ String LF "" ] in
  String.concat "" received = text_stream /\
  perform_stream sample_parse sample_mt19937 (fun _ n => S n) "" received
    (0, b) =
  (Ok "", (1, b)).
Proof.
  intros b received. split; [reflexivity |].
  destruct (stream_independent_of_chunking sample_parse sample_mt19937
              (fun _ n => S n) received [text_stream] (0, b))
    as [Hsame _]; [reflexivity |].
  rewrite Hsame. vm_compute. reflexivity.
Defined.

(** X6 at a comment line that ends with a carriage return. *)
Lemma sse_line_skips_witness :
  let b := sample_backend None "" (sample_world 0 [] ∅) in
  sse_line sample_parse sample_mt19937 (fun _ n => S n)
    (": keep-alive" +:+ String CR "") (0, b) =
  (Ok tt, (0, b)).
Proof.
  intros b. apply sse_line_skips. right. left. reflexivity.
Defined.

(** X7 at a frame that carries the text [hello]. *)
Lemma sse_line_delivers_witness :
  let b := sample_backend None "" (sample_world 0 [] ∅) in
  sse_line sample_parse sample_mt19937
    (fun chunk text => text +:+ LLMChunk.content chunk)
    ("data: " +:+ text_hello) ("", b) =
  (Ok tt, ("hello", b)).
Proof.
  intros b.
  erewrite (sse_line_delivers sample_parse sample_mt19937 _
              ("data: " +:+ text_hello) "" b).
  all: cycle 1.
  - vm_compute. discriminate.
  - vm_compute. discriminate.
  - reflexivity.
  - vm_compute. discriminate.
  - vm_compute. reflexivity.
  - vm_compute. reflexivity.
  - vm_compute. reflexivity.
  - reflexivity.
Defined.





(** X10 at four calls, the third of a tool whose handler throws an [int]:
    the first call is answered with the handler's text, the second with the
    text of the [std::runtime_error] its handler throws, the third stops
    the loop after its [ToolCall] event and the fourth is not looked at. *)
Lemma tool_loop_recovers_locally_witness :
  let h := sample_host false in
  let b := sample_backend None "" (sample_world 0 [] ∅) in
  let tool_calls :=
    [ sample_tool_call "get_weather"; sample_tool_call "get_time";
      sample_tool_call "get_news"; sample_tool_call "get_weather" ] in
  exists (h' : Host.t) (events : list SessionEvent.t) (msgs : list Message.t),
    handle_tool_calls tool_calls (h, b) =
      (Throw NonStdException,
       (h',
        wrote_to_stderr ["Error executing tool 'get_time': no network"] b)) /\
    emitted events h h' /\
    kinds events =
      [ EventType.ToolCall; EventType.ToolResult;
        EventType.ToolCall; EventType.ToolResult; EventType.ToolCall ] /\
    Session.messages_ (Host.session h') = msgs /\
    Message.content <$> msgs =
      ["sunny"; "Error executing tool 'get_time': no network"] /\
    answers <$> msgs =
      [ (Some "get_weather", Some "call_1"); (Some "get_time", Some "call_1") ].
Proof.
  intros h b tool_calls.
  destruct (tool_loop_recovers_locally tool_calls h b)
    as (h' & lines & events & msgs & Hrun & Hem & Hk & Hmsg & Hans).
  assert (Hh' : h' = (handle_tool_calls tool_calls (h, b)).2.1)
    by (by rewrite Hrun).
  exists h', events, msgs.
  split.
  { rewrite Hh'. vm_compute. reflexivity. }
  split; [exact Hem |].
  split; [rewrite Hk; vm_compute; reflexivity |].
  split; [rewrite Hmsg; reflexivity |].
  assert (Hmsgs : msgs = Session.messages_ (Host.session h'))
    by (rewrite Hmsg; reflexivity).
  split; [rewrite Hmsgs, Hh'; vm_compute; reflexivity |].
  rewrite Hans. vm_compute. reflexivity.
Defined.



(** X16 at a forced refresh that the token endpoint answers with status
    400: the stale credential stays cached and no file is written. *)
Lemma failed_authentication_keeps_credentials_witness :
  let c := sample_credentials "stale" "r0" 1000 in
  let b :=
    sample_backend (Some c) ""
      (sample_world 2000000 [CurlPerformed None 400 ["denied"]] ∅) in
  let b' :=
    with_world
      (record_effect (refresh_request sample_escape c (Backend.oauth_manager_ b)))
      (with_world (with_net []) b) in
  World.files (Backend.world b') = World.files (Backend.world b) /\
  Backend.project_id_ b' = Backend.project_id_ b /\
  (credentials_ b' = credentials_ b \/
   credentials_ b = None /\
   exists c', load_cached_credentials sample_parse b = (Ok c', b) /\
              credentials_ b' = Some c') /\
  (effects b' = effects b \/
   exists c', effects b' =
              effects b ++
              [refresh_request sample_escape c' (Backend.oauth_manager_ b)]).
Proof.
  intros c b b'.
  apply (failed_authentication_keeps_credentials sample_parse sample_dump
           sample_escape true b b'
           (TokenRefreshError "Token refresh failed: 400" (Some 400%Z)
              "denied")).
  reflexivity.
Defined.

(** X17 at an expired credential without refresh token. *)
Lemma refresh_needs_a_refresh_token_witness :
  let b :=
    sample_backend (Some (sample_credentials "stale" "" 1000)) ""
      (sample_world 2000000 [] ∅) in
  ensure_authenticated sample_parse sample_dump sample_escape false b =
  (Throw (TokenRefreshError "No refresh token available in credentials."
            None ""), b).
Proof.
  intros b.
  apply (refresh_needs_a_refresh_token sample_parse sample_dump sample_escape
           false (sample_credentials "stale" "" 1000) b).
  - reflexivity.
  - reflexivity.
  - right. right. vm_compute. discriminate.
Defined.

(** X18 at a [.env] file whose second line names the project in double
    quotes, without and with the environment variable. *)
Lemma project_id_from_env_file_witness :
  let text :=
    "A=1" +:+ String LF ("GOOGLE_CLOUD_PROJECT=" +:+ dq "my-proj") in
  let w environ :=
    {| World.now := 0; World.net := [];
       World.environ := environ;
       World.pw_dir := None;
       World.files := {[ "/home/u/.gemini/.env" := text ]};
       World.read_only := ∅; World.draws := 0; World.effects := [] |} in
  get_project_id
    (sample_backend None "" (w {[ "HOME" := "/home/u" ]})) = "my-proj" /\
  get_project_id
    (sample_backend None ""
       (w {[ "HOME" := "/home/u"; "GOOGLE_CLOUD_PROJECT" := "other" ]})) =
  "other".
Proof.
  intros text w. split.
  - apply (proj2 (project_id_from_env_file
                    (sample_backend None "" (w {[ "HOME" := "/home/u" ]}))))
      with (text := text) (before := ["A=1"]) (after := [])
           (q := DQUOTE) (q' := DQUOTE).
    + reflexivity.
    + reflexivity.
    + reflexivity.
    + repeat constructor.
    + reflexivity.
    + reflexivity.
  - apply (proj1 (project_id_from_env_file
                    (sample_backend None ""
                       (w {[ "HOME" := "/home/u";
                             "GOOGLE_CLOUD_PROJECT" := "other" ]})))).
    reflexivity.
Defined.

(** The encodings of [M], [Ma] and [Man]. *)
Lemma base64_encode_known_answers :
  base64_encode ["M"%byte] = "TQ==" /\
  base64_encode ["M"%byte; "a"%byte] = "TWE=" /\
  base64_encode ["M"%byte; "a"%byte; "n"%byte] = "TWFu".
Proof. by vm_compute. Qed.

(** X21 at the octets of [Ma]. *)
Lemma base64_encode_injective_witness :
  ["M"%byte; "a"%byte] = ["M"%byte; "a"%byte].
Proof.
  apply (base64_encode_injective ["M"%byte; "a"%byte] ["M"%byte; "a"%byte]).
  reflexivity.
Defined.

(** X22 at a discovery request that is answered with status 500, and at
    one that is answered with the project [proj-1]. *)
Lemma failed_project_resolution_caches_nothing_witness :
  let b net :=
    sample_backend (Some (sample_credentials "tok" "ref" 1000000)) ""
      (sample_world 1000 net ∅) in
  let failed :=
    ensure_project_id sample_parse sample_dump "tok"
      (b [CurlPerformed None 500 ["oops"]]) in
  let found :=
    ensure_project_id sample_parse sample_dump "tok"
      (b [CurlPerformed None 200 [text_tier]]) in
  (failed.1 = Throw (APIError "Gemini Code Assist access denied: oops" 500) /\
   Backend.oauth_manager_ failed.2 = Backend.oauth_manager_ (b []) /\
   World.files (Backend.world failed.2) = ∅ /\
   Backend.project_id_ failed.2 = "") /\
  (found.1 = Ok "proj-1" /\
   Backend.oauth_manager_ found.2 = Backend.oauth_manager_ (b []) /\
   World.files (Backend.world found.2) = ∅ /\
   Backend.project_id_ found.2 = "proj-1").
Proof.
  intros b failed found. split.
  - split; [vm_compute; reflexivity |].
    pose proof (failed_project_resolution_caches_nothing sample_parse
                  sample_dump "tok" (b [CurlPerformed None 500 ["oops"]])
                  failed.2
                  (Throw (APIError "Gemini Code Assist access denied: oops"
                            500))) as H.
    destruct H as (Hom & Hfiles & Hpid); [vm_compute; reflexivity |].
    split; [exact Hom |]. split; [exact Hfiles | exact Hpid].
  - split; [vm_compute; reflexivity |].
    pose proof (failed_project_resolution_caches_nothing sample_parse
                  sample_dump "tok" (b [CurlPerformed None 200 [text_tier]])
                  found.2 (Ok "proj-1")) as H.
    destruct H as (Hom & Hfiles & Hpid); [vm_compute; reflexivity |].
    split; [exact Hom |]. split; [exact Hfiles |]. by apply Hpid.
Defined.


(** X25 at a tool with one string parameter, which is required. *)
Lemma built_tools_are_declared_witness :
  prepare_tools
    [define_tool "get_weather" "Weather of a city"
       (required ["city"]
          (add_string "city" "Name of the city"
             ToolParametersBuilder.empty))] =
  Ok (JArray
        [obj [("functionDeclarations",
               JArray
                 [obj [ ("name", JString "get_weather");
                        ("description", JString "Weather of a city");
                        ("parameters",
                         obj [ ("type", JString "object");
                               ("properties",
                                obj [("city",
                                      obj [ ("type", JString "string");
                                            ("description",
                                             JString "Name of the city") ])]);
                               ("required", JArray [JString "city"]) ]) ]])]]).
Proof.
  apply (built_tools_are_declared
           [("get_weather", "Weather of a city",
             required ["city"]
               (add_string "city" "Name of the city"
                  ToolParametersBuilder.empty))]).
  discriminate.
Defined.

(** X26 at an answer that calls one tool. *)
Lemma parsed_tool_calls_are_identified_witness :
  let b := sample_backend None "" (sample_world 0 [] ∅) in
  let data :=
    obj [("candidates",
          JArray
            [obj [("content",
                   obj [("parts",
                         JArray
                           [obj [("functionCall",
                                  obj [("name", JString "get_weather")])]])])]])]
  in
  exists (chunk : LLMChunk.t) (b' : Backend.t),
    parse_completion_response sample_mt19937 data b = (Ok chunk, b') /\
    length (LLMChunk.tool_calls chunk) = 1 /\
    Forall (fun tc => ToolCall.type tc = "function" /\
                      matches uuid_v4 (ToolCall.id tc) = true)
      (LLMChunk.tool_calls chunk) /\
    b' = with_world
           (Nat.iter (31 * length (LLMChunk.tool_calls chunk)) count_draw) b.
Proof.
  intros b data.
  destruct (parse_completion_response sample_mt19937 data b)
    as [r b'] eqn:Hrun.
  assert (Hok : is_ok r = true /\
                match r with
                | Ok chunk => length (LLMChunk.tool_calls chunk) = 1
                | Throw _ => False
                end).
  { assert (Hr : r = (parse_completion_response sample_mt19937 data b).1)
      by (by rewrite Hrun).
    rewrite Hr. vm_compute. by split. }
  destruct r as [chunk|e]; [|by destruct Hok].
  exists chunk, b'. split; [reflexivity |]. split; [apply Hok |].
  apply (parsed_tool_calls_are_identified sample_mt19937 data chunk b b').
  exact Hrun.
Defined.

(** X27 at a provider that streams [hello] twice. *)
Lemma streamed_content_is_sum_of_deltas_witness :
  let h := sample_host true in
  let run :=
    send sample_parse sample_dump sample_what sample_escape sample_mt19937
      sample_options (h, sample_streaming_backend) in
  exists (events : list SessionEvent.t) (am : SessionEvent.t)
         (tool_calls : list ToolCall.t),
    let content := String.concat "" (delta_texts events) in
    Host.received run.2.1 =
      Host.received h ++
      broadcast (Session.event_handlers_ (Host.session h)) events /\
    am ∈ events /\
    SessionEvent.event_type am = EventType.AssistantMessage /\
    at_key (SessionEvent.data am) "content" = Ok (JString content) /\
    last (Session.messages_ (Host.session run.2.1)) =
      Some (assistant_message content tool_calls).
Proof.
  intros h run.
  apply (streamed_content_is_sum_of_deltas sample_parse sample_dump
           sample_what sample_escape sample_mt19937 sample_options
           h run.2.1 sample_streaming_backend run.2.2).
  - reflexivity.
  - reflexivity.
  - vm_compute. reflexivity.
Defined.

(** X28 at a request for one message, without tools, for project
    [proj-1]. *)
Lemma request_payload_members_witness :
  exists payload : json,
    build_request_payload "gemini-2.5-pro" [plain_message Role.User "hi"]
      None None [] "proj-1" = Ok payload /\
    at_key payload "model" = Ok (JString "gemini-2.5-pro") /\
    contains payload "project" = negb (string_empty "proj-1") /\
    ("proj-1" <> "" -> at_key payload "project" = Ok (JString "proj-1")) /\
    exists request gen_config : json,
      at_key payload "request" = Ok request /\
      at_key request "contents" =
        Ok (prepare_messages [plain_message Role.User "hi"]) /\
      contains request "tools" = bool_decide (@nil Tool.t <> []) /\
      at_key request "generationConfig" = Ok gen_config /\
      at_key gen_config "temperature" = Ok (JFloat default_temperature) /\
      contains gen_config "thinkingConfig" = false.
Proof.
  eexists. split; [vm_compute; reflexivity |].
  apply (request_payload_members "gemini-2.5-pro"
           [plain_message Role.User "hi"] None None [] "proj-1" _).
  vm_compute. reflexivity.
Defined.

(** The text [caf] followed by the single byte E9 (an e with an acute
    accent in Latin-1) is not UTF-8; followed by the bytes C3 A9 it is. *)
Lemma utf8_valid_examples :
  utf8_valid ("caf" +:+ String (ascii_of_nat 233) "") = false /\
  utf8_valid
    ("caf" +:+ String (ascii_of_nat 195) (String (ascii_of_nat 169) "")) =
  true.
Proof. by vm_compute. Qed.

(** X29 at a prompt that ends with the single byte E9. *)
Lemma undumpable_request_is_not_sent_witness :
  let prompt := "caf" +:+ String (ascii_of_nat 233) "" in
  let b :=
    sample_backend (Some (sample_credentials "tok" "ref" 1000000)) "proj-1"
      (sample_world 1000 [CurlPerformed None 200 [text_hello]] ∅) in
  exists b' : Backend.t,
    complete sample_parse sample_dump sample_escape sample_mt19937
      "gemini-2.5-pro" [plain_message Role.User prompt] None None [] b =
    (Throw (JsonException (type_error 316)), b') /\
    effects b' = [] /\
    credentials_ b' = credentials_ b /\
    Backend.project_id_ b' = "proj-1".
Proof.
  intros prompt b.
  eapply (undumpable_request_is_not_sent sample_parse sample_dump
            sample_escape sample_mt19937 "gemini-2.5-pro"
            [plain_message Role.User prompt] None None [] b b b).
  - vm_compute. reflexivity.
  - vm_compute. reflexivity.
  - vm_compute. reflexivity.
  - reflexivity.
  - vm_compute. reflexivity.
Defined.
